(** * rschedule: recurrence rules, date sets and occurrence streams

    A shallow embedding of the parts of the rschedule sources that the
    specification's testable properties talk about:

    - the [DateTime] value object ([packages/core], formerly
      [packages/rschedule/src/lib/date-time.ts]) on top of the JavaScript
      [Date] built-ins it calls;
    - the by-month constraint stage ([ByMonthOfYearRule.run]);
    - the terminal pipe of the constraint pipeline ([ResultPipe.run]);
    - option normalization of the by-day-of-month module;
    - the [Dates] generator and the [unique] operator;
    - the "immutable update" methods of [Rule], [Dates] and [Schedule].

    JavaScript numbers that hold integers are modelled as [Z]; a [Date]
    whose time value is [NaN] is modelled as [None]. *)

From Stdlib Require Import ZArith Lia Bool List String Sorting.Sorted
  Sorting.Permutation.
From stdpp Require Import base option list gmap strings sorting.

Local Open Scope Z_scope.

(** ** Exceptions and fallible computations *)

Inductive Error : Type :=
| InvalidDateTimeError   (* core: class InvalidDateTimeError *)
| ComparisonError        (* rschedule/lib: DateTime.ComparisonError *)
| PipeError              (* 11-result.pipe.ts: class PipeError *)
| RuleOptionError
| ArgumentError
| TypeError              (* property access on undefined *)
| PlainError.            (* throw new Error(...) *)

Inductive result (A : Type) : Type :=
| Ok (a : A)
| Throw (e : Error).
Arguments Ok {A} a.
Arguments Throw {A} e.

#[global] Instance result_ret : MRet result := fun A a => Ok a.
#[global] Instance result_bind : MBind result := fun A B k r =>
  match r with
  | Ok a => k a
  | Throw e => Throw e
  end.

#[global] Instance result_fmap : FMap result := fun A B f r =>
  match r with
  | Ok a => Ok (f a)
  | Throw e => Throw e
  end.

(** ** The [Date] built-ins of the JavaScript runtime

    The sources store every instant in a native [Date] and read and
    write it through the UTC accessors.  The definitions below follow
    the abstract operations of ECMA-262, section "Date Objects"; the
    only departure is [YearFromDay], which computes the year that the
    standard describes as "the largest integer y such that
    TimeFromYear(y) <= t" (lemma [YearFromDay_largest] shows that the
    two agree). *)

Module JsDate.

Definition msPerDay : Z := 86400000.
Definition msPerHour : Z := 3600000.
Definition msPerMinute : Z := 60000.
Definition msPerSecond : Z := 1000.

Definition Day (t : Z) : Z := t / msPerDay.
Definition TimeWithinDay (t : Z) : Z := t mod msPerDay.

Definition DaysInYear (y : Z) : Z :=
  if negb (y mod 4 =? 0) then 365
  else if negb (y mod 100 =? 0) then 366
  else if negb (y mod 400 =? 0) then 365
  else 366.

Definition DayFromYear (y : Z) : Z :=
  365 * (y - 1970) + (y - 1969) / 4 - (y - 1901) / 100 + (y - 1601) / 400.

Definition TimeFromYear (y : Z) : Z := msPerDay * DayFromYear y.

Definition YearFromDay (d : Z) : Z :=
  let y0 := 1970 + (400 * d) / 146097 in
  if d <? DayFromYear y0 then y0 - 1
  else if DayFromYear (y0 + 1) <=? d then y0 + 1
  else y0.

Definition YearFromTime (t : Z) : Z := YearFromDay (Day t).

Definition InLeapYear (t : Z) : Z :=
  if DaysInYear (YearFromTime t) =? 366 then 1 else 0.

Definition DayWithinYear (t : Z) : Z := Day t - DayFromYear (YearFromTime t).

(** The month table of ECMA-262, on the day within the year and the
    leap-year flag. *)
Definition MonthFromDayWithinYear (dwy leap : Z) : Z :=
  if dwy <? 31 then 0
  else if dwy <? 59 + leap then 1
  else if dwy <? 90 + leap then 2
  else if dwy <? 120 + leap then 3
  else if dwy <? 151 + leap then 4
  else if dwy <? 181 + leap then 5
  else if dwy <? 212 + leap then 6
  else if dwy <? 243 + leap then 7
  else if dwy <? 273 + leap then 8
  else if dwy <? 304 + leap then 9
  else if dwy <? 334 + leap then 10
  else 11.

Definition MonthFromTime (t : Z) : Z :=
  MonthFromDayWithinYear (DayWithinYear t) (InLeapYear t).

(** Number of days of the year that precede month [mn] (0-based). *)
Definition DaysBeforeMonth (mn leap : Z) : Z :=
  match mn with
  | 0 => 0
  | 1 => 31
  | 2 => 59 + leap
  | 3 => 90 + leap
  | 4 => 120 + leap
  | 5 => 151 + leap
  | 6 => 181 + leap
  | 7 => 212 + leap
  | 8 => 243 + leap
  | 9 => 273 + leap
  | 10 => 304 + leap
  | _ => 334 + leap
  end.

Definition DateFromTime (t : Z) : Z :=
  DayWithinYear t - DaysBeforeMonth (MonthFromTime t) (InLeapYear t) + 1.

Definition WeekDay (t : Z) : Z := (Day t + 4) mod 7.

Definition HourFromTime (t : Z) : Z := (t / msPerHour) mod 24.
Definition MinFromTime (t : Z) : Z := (t / msPerMinute) mod 60.
Definition SecFromTime (t : Z) : Z := (t / msPerSecond) mod 60.
Definition msFromTime (t : Z) : Z := t mod msPerSecond.

Definition MakeTime (hour min sec ms : Z) : Z :=
  hour * msPerHour + min * msPerMinute + sec * msPerSecond + ms.

Definition MakeDay (year month date : Z) : Z :=
  let ym := year + month / 12 in
  let mn := month mod 12 in
  DayFromYear ym
  + DaysBeforeMonth mn (if DaysInYear ym =? 366 then 1 else 0)
  + date - 1.

Definition MakeDate (day time : Z) : Z := day * msPerDay + time.

Definition maxTime : Z := 8640000000000000.

Definition TimeClip (t : Z) : option Z :=
  if Z.abs t >? maxTime then None else Some t.

(** A [Date] object: its time value, [None] when it is [NaN]. *)
Definition Date : Type := option Z.

(** [new Date(value)] for a number. *)
Definition ofNumber (v : Z) : Date := TimeClip v.

(** [Date.UTC(year, month, day, hours, minutes, seconds, ms)]; years 0
    to 99 stand for 1900 to 1999. *)
Definition UTC (year month date hours minutes seconds ms : Z) : Date :=
  let yr := if (0 <=? year) && (year <=? 99) then 1900 + year else year in
  TimeClip (MakeDate (MakeDay yr month date) (MakeTime hours minutes seconds ms)).

Definition getTime (d : Date) : option Z := d.
Definition getUTCFullYear (d : Date) : option Z := YearFromTime <$> d.
Definition getUTCMonth (d : Date) : option Z := MonthFromTime <$> d.
Definition getUTCDate (d : Date) : option Z := DateFromTime <$> d.
Definition getUTCDay (d : Date) : option Z := WeekDay <$> d.
Definition getUTCHours (d : Date) : option Z := HourFromTime <$> d.
Definition getUTCMinutes (d : Date) : option Z := MinFromTime <$> d.
Definition getUTCSeconds (d : Date) : option Z := SecFromTime <$> d.
Definition getUTCMilliseconds (d : Date) : option Z := msFromTime <$> d.

(** [setUTCFullYear(year [, month [, date]])]: a [NaN] receiver counts
    as time 0. *)
Definition setUTCFullYear (d : Date) (year : Z) (month date : option Z) : Date :=
  let t := default 0 d in
  let m := default (MonthFromTime t) month in
  let dt := default (DateFromTime t) date in
  TimeClip (MakeDate (MakeDay year m dt) (TimeWithinDay t)).

(** [setUTCMonth(month [, date])]. *)
Definition setUTCMonth (d : Date) (month : Z) (date : option Z) : Date :=
  t ← d;
  let dt := default (DateFromTime t) date in
  TimeClip (MakeDate (MakeDay (YearFromTime t) month dt) (TimeWithinDay t)).

Definition setUTCDate (d : Date) (date : Z) : Date :=
  t ← d;
  TimeClip (MakeDate (MakeDay (YearFromTime t) (MonthFromTime t) date)
                     (TimeWithinDay t)).

(** [setUTCHours(hour [, min [, sec [, ms]]])]. *)
Definition setUTCHours (d : Date) (hour : Z) (min sec ms : option Z) : Date :=
  t ← d;
  let m := default (MinFromTime t) min in
  let s := default (SecFromTime t) sec in
  let milli := default (msFromTime t) ms in
  TimeClip (MakeDate (Day t) (MakeTime hour m s milli)).

Definition setUTCMinutes (d : Date) (min : Z) : Date :=
  t ← d;
  TimeClip (MakeDate (Day t)
    (MakeTime (HourFromTime t) min (SecFromTime t) (msFromTime t))).

Definition setUTCSeconds (d : Date) (sec : Z) : Date :=
  t ← d;
  TimeClip (MakeDate (Day t)
    (MakeTime (HourFromTime t) (MinFromTime t) sec (msFromTime t))).

Definition setUTCMilliseconds (d : Date) (ms : Z) : Date :=
  t ← d;
  TimeClip (MakeDate (Day t)
    (MakeTime (HourFromTime t) (MinFromTime t) (SecFromTime t) ms)).

End JsDate.

(** ** [DateTime] ([packages/core]: the class [DateTime] and its helpers) *)

(** Generators are objects; a [DateTime] only stores references to them. *)
Definition GeneratorRef : Type := nat.

Module DateTime.
Import JsDate.

(** [DateAdapter.TimeUnit]. *)
Inductive TimeUnit : Type :=
| year | month | day | hour | minute | second | millisecond.

Definition MILLISECONDS_IN_SECOND : Z := 1000.
Definition MILLISECONDS_IN_MINUTE : Z := MILLISECONDS_IN_SECOND * 60.
Definition MILLISECONDS_IN_HOUR : Z := MILLISECONDS_IN_MINUTE * 60.
Definition MILLISECONDS_IN_DAY : Z := MILLISECONDS_IN_HOUR * 24.
Definition MILLISECONDS_IN_WEEK : Z := MILLISECONDS_IN_DAY * 7.

(** The fields of a constructed [DateTime].  The constructor rejects a
    [NaN] date, so [date] is a time value; [timezone] is [None] for
    [null]. *)
Record t : Type := mk {
  date : Z;
  timezone : option string;
  duration : Z;
  generators : list GeneratorRef;
}.

(** The private constructor:
    [this.timezone = timezone || null; this.duration = duration || 0;
     this.generators = generators || []], then the duration check and
    [assertIsValid()]. *)
Definition new (date : Date) (timezone : option string)
    (duration : option Z) (generators : option (list GeneratorRef)) : result t :=
  let timezone :=
    match timezone with
    | Some EmptyString => None
    | tz => tz
    end in
  let duration := default 0 duration in
  let generators := default [] generators in
  if duration <? 0 then Throw InvalidDateTimeError
  else match date with
       | None => Throw InvalidDateTimeError
       | Some v => Ok (mk v timezone duration generators)
       end.

Definition valueOf (this : t) : Z := date this.

(** [assertSameTimeZone(x, y)]; reading [y.timezone] of [undefined] is a
    [TypeError] of the runtime. *)
Definition assertSameTimeZone (x : t) (y : option t) : result bool :=
  match y with
  | None => Throw TypeError
  | Some y =>
      if decide (timezone x = timezone y) then Ok true
      else Throw InvalidDateTimeError
  end.

Definition isEqual (this : t) (object : option t) : result bool :=
  match object with
  | None => Ok false
  | Some o =>
      _ ← assertSameTimeZone this object;
      Ok (valueOf this =? valueOf o)
  end.

Definition isBefore (this : t) (object : option t) : result bool :=
  _ ← assertSameTimeZone this object;
  o ← from_option Ok (Throw TypeError) object;
  Ok (valueOf this <? valueOf o).

Definition isBeforeOrEqual (this : t) (object : option t) : result bool :=
  _ ← assertSameTimeZone this object;
  o ← from_option Ok (Throw TypeError) object;
  Ok (valueOf this <=? valueOf o).

Definition isAfter (this : t) (object : option t) : result bool :=
  _ ← assertSameTimeZone this object;
  o ← from_option Ok (Throw TypeError) object;
  Ok (valueOf this >? valueOf o).

Definition isAfterOrEqual (this : t) (object : option t) : result bool :=
  _ ← assertSameTimeZone this object;
  o ← from_option Ok (Throw TypeError) object;
  Ok (valueOf this >=? valueOf o).

Definition isLeapYear (year : Z) : bool :=
  (year mod 400 =? 0) || ((year mod 4 =? 0) && negb (year mod 100 =? 0)).

Definition getDaysInFebruary (year : Z) : Z :=
  if isLeapYear year then 29 else 28.

(** [monthLength(month, year)], [month] base-1; a key that is not in
    the table reads as [undefined]. *)
Definition monthLength (month year : Z) : option Z :=
  match month with
  | 1 => Some 31
  | 2 => Some (getDaysInFebruary year)
  | 3 => Some 31
  | 4 => Some 30
  | 5 => Some 31
  | 6 => Some 30
  | 7 => Some 31
  | 8 => Some 31
  | 9 => Some 30
  | 10 => Some 31
  | 11 => Some 30
  | 12 => Some 31
  | _ => None
  end.

(** [toInteger]: truncation toward zero, the identity on the integers
    that amounts are here. *)
Definition toInteger (input : Z) : Z := input.

Definition addMilliseconds (dirtyDate : Date) (dirtyAmount : Z) : Date :=
  timestamp ← getTime dirtyDate;
  let amount := toInteger dirtyAmount in
  ofNumber (timestamp + amount).

Definition addUTCMilliseconds (date : Date) (input : Z) : Date :=
  let amount := toInteger input in
  timestamp ← getTime date;
  ofNumber (timestamp + amount).

Definition addUTCMonths (date : Date) (input : Z) : Date :=
  let amount := toInteger input in
  m ← getUTCMonth date;
  let desiredMonth := m + amount in
  y ← getUTCFullYear date;
  let dateWithDesiredMonth :=
    setUTCFullYear (ofNumber 0) y (Some desiredMonth) (Some 1) in
  let dateWithDesiredMonth :=
    setUTCHours dateWithDesiredMonth 0 (Some 0) (Some 0) (Some 0) in
  m' ← getUTCMonth dateWithDesiredMonth;
  y' ← getUTCFullYear dateWithDesiredMonth;
  daysInMonth ← monthLength (m' + 1) y';
  dt ← getUTCDate date;
  setUTCMonth date desiredMonth (Some (Z.min daysInMonth dt)).

Definition addUTCYears (date : Date) (input : Z) : Date :=
  let amount := toInteger input in
  addUTCMonths date (amount * 12).

Definition addUTCDays (date : Date) (input : Z) : Date :=
  addUTCMilliseconds date (toInteger input * MILLISECONDS_IN_DAY).

Definition addUTCWeeks (date : Date) (input : Z) : Date :=
  let amount := toInteger input in
  let days := amount * 7 in
  addUTCDays date days.

Definition addUTCHours (date : Date) (input : Z) : Date :=
  let amount := toInteger input in
  addMilliseconds date (amount * MILLISECONDS_IN_HOUR).

Definition addUTCMinutes (date : Date) (input : Z) : Date :=
  let amount := toInteger input in
  addMilliseconds date (amount * MILLISECONDS_IN_MINUTE).

Definition addUTCSeconds (date : Date) (input : Z) : Date :=
  let amount := toInteger input in
  addMilliseconds date (amount * MILLISECONDS_IN_SECOND).

Definition subUTCDays (date : Date) (amount : Z) : Date :=
  addUTCDays date (- amount).

Definition forkDateTime (this : t) (date : Date) : result t :=
  new date (timezone this) (Some (duration this)) None.

(** [add(amount, 'generator')]. *)
Definition add_generator (this : t) (amount : GeneratorRef) : result t :=
  let generators := amount :: generators this in
  new (Some (date this)) (timezone this) (Some (duration this)) (Some generators).

(** The unit argument of [add]: a [TimeUnit] or ['week']. *)
Inductive AddUnit : Type :=
| unit (u : TimeUnit)
| week.

Definition add (this : t) (amount : Z) (u : AddUnit) : result t :=
  let date := Some (date this) in
  match u with
  | unit year => forkDateTime this (addUTCYears date amount)
  | unit month => forkDateTime this (addUTCMonths date amount)
  | week => forkDateTime this (addUTCWeeks date amount)
  | unit day => forkDateTime this (addUTCDays date amount)
  | unit hour => forkDateTime this (addUTCHours date amount)
  | unit minute => forkDateTime this (addUTCMinutes date amount)
  | unit second => forkDateTime this (addUTCSeconds date amount)
  | unit millisecond => forkDateTime this (addUTCMilliseconds date amount)
  end.

(** [get(unit)] on the time units (['yearday'] and ['weekday'] are not
    used by the code modelled here). *)
Definition get (this : t) (u : TimeUnit) : Z :=
  let date := date this in
  match u with
  | year => YearFromTime date
  | month => MonthFromTime date + 1
  | day => DateFromTime date
  | hour => HourFromTime date
  | minute => MinFromTime date
  | second => SecFromTime date
  | millisecond => msFromTime date
  end.

(** [set('duration', value)]. *)
Definition set_duration (this : t) (value : Z) : result t :=
  new (Some (date this)) (timezone this) (Some value) None.

(** [set(unit, value)] on a time unit. *)
Definition set (this : t) (u : TimeUnit) (value : Z) : result t :=
  let date : Date := Some (date this) in
  let date :=
    match u with
    | year => setUTCFullYear date value None None
    | month =>
        (* If the current day of the month is greater than days in the
           month we are moving to, we need to also set the day to the
           end of that month. *)
        let length := monthLength value (YearFromTime (DateTime.date this)) in
        let day := DateFromTime (DateTime.date this) in
        if from_option (fun length => day >? length) false length then
          let date := setUTCDate date 1 in
          let date := setUTCMonth date value None in
          subUTCDays date 1
        else setUTCMonth date (value - 1) None
    | day => setUTCDate date value
    | hour => setUTCHours date value None None None
    | minute => setUTCMinutes date value
    | second => setUTCSeconds date value
    | millisecond => setUTCMilliseconds date value
    end in
  forkDateTime this date.

(** [granularity(granularity)] on a time unit; the two [switch]
    statements fall through from the coarser to the finer unit. *)
Definition granularity (this : t) (g : TimeUnit) : result t :=
  date ← forkDateTime this (Some (date this));
  date ← match g with
          | year => date ← set date month 1; set date day 1
          | month => set date day 1
          | _ => Ok date
          end;
  date ← match g with
          | year | month | day => set date hour 0
          | _ => Ok date
          end;
  date ← match g with
          | year | month | day | hour => set date minute 0
          | _ => Ok date
          end;
  date ← match g with
          | year | month | day | hour | minute => set date second 0
          | _ => Ok date
          end;
  match g with
  | millisecond => Ok date
  | _ => set date millisecond 0
  end.

(** [DateTime.fromJSON(json)]. *)
Definition fromJSON (timezone : option string) (duration : option Z)
    (y mo d h mi s ms : Z) : result t :=
  new (UTC y (mo - 1) d h mi s ms) timezone duration None.

(** [dateTimeSortComparer(a, b)]. *)
Definition dateTimeSortComparer (a b : t) : result Z :=
  isAfter a (Some b) ≫= fun after : bool =>
  if after then Ok 1 else
  isBefore a (Some b) ≫= fun before : bool =>
  if before then Ok (-1) else
  if negb (duration a =? 0) && negb (duration b =? 0) then
    if duration a >? duration b then Ok 1
    else if duration a <? duration b then Ok (-1)
    else Ok 0
  else Ok 0.

End DateTime.

(** ** The by-month constraint stage ([ByMonthOfYearRule]) *)

Module ByMonthOfYearRule.

(** [RecurrenceRuleResult]: a [ValidDateTime] or an [InvalidDateTime]
    wrapping a date. *)
Inductive RecurrenceRuleResult : Type :=
| ValidDateTime (date : DateTime.t)
| InvalidDateTime (date : DateTime.t).

(** The [for (const month of this.options.byMonthOfYear)] loop of [run];
    [None] when the loop ends without returning. *)
Fixpoint run_loop (date : DateTime.t) (currentMonth : Z) (byMonthOfYear : list Z)
    : option (result RecurrenceRuleResult) :=
  match byMonthOfYear with
  | [] => None
  | month :: rest =>
      if currentMonth >? month then run_loop date currentMonth rest
      else if currentMonth =? month then Some (Ok (ValidDateTime date))
      else Some (d ← DateTime.granularity date DateTime.year;
                 d ← DateTime.set d DateTime.month month;
                 Ok (InvalidDateTime d))
  end.

(** The value that [run] hands to [this.validateDate].  With an empty
    list [byMonthOfYear[0]] is [undefined], and [set('month', undefined)]
    ends in a [NaN] date. *)
Definition run_result (byMonthOfYear : list Z) (date : DateTime.t)
    : result RecurrenceRuleResult :=
  let currentMonth := DateTime.get date DateTime.month in
  match run_loop date currentMonth byMonthOfYear with
  | Some r => r
  | None =>
      d ← DateTime.granularity date DateTime.year;
      d ← DateTime.add d 1 (DateTime.unit DateTime.year);
      match byMonthOfYear with
      | [] => Throw InvalidDateTimeError
      | first :: _ =>
          d ← DateTime.set d DateTime.month first;
          Ok (InvalidDateTime d)
      end
  end.

(** [run(date)].  [validateDate] belongs to [RecurrenceRuleBase], which
    is not part of the sources at hand; it is a parameter here. *)
Definition run
    (validateDate : RecurrenceRuleResult -> result RecurrenceRuleResult)
    (byMonthOfYear : list Z) (date : DateTime.t) : result RecurrenceRuleResult :=
  arg ← run_result byMonthOfYear date;
  validateDate arg.

End ByMonthOfYearRule.

(** ** [DateTime] of [packages/rschedule/src/lib/date-time.ts] *)

Module LibDateTime.

Record t : Type := mk {
  date : Z;
  timezone : option string;          (* string | undefined *)
  generators : list GeneratorRef;
}.

Definition valueOf (this : t) : Z := date this.

(** [clone()]: [new DateTime(this)]. *)
Definition clone (this : t) : t :=
  mk (valueOf this) (timezone this) (generators this).

(** The comparison objects may be absent: [object.get('timezone')] on
    [undefined] is a [TypeError] of the runtime. *)
Definition isEqual (this : t) (object : option t) : result bool :=
  match object with
  | None => Ok false
  | Some object =>
      if decide (timezone object = timezone this)
      then Ok (valueOf object =? valueOf this)
      else Throw ComparisonError
  end.

Definition compare_with (op : Z -> Z -> bool) (this : t) (object : option t)
    : result bool :=
  match object with
  | None => Throw TypeError
  | Some object =>
      if decide (timezone object = timezone this)
      then Ok (op (valueOf this) (valueOf object))
      else Throw ComparisonError
  end.

Definition isBefore := compare_with Z.ltb.
Definition isBeforeOrEqual := compare_with Z.leb.
Definition isAfter := compare_with Z.gtb.
Definition isAfterOrEqual := compare_with Z.geb.

End LibDateTime.

(** ** The terminal pipe of the constraint pipeline ([ResultPipe]) *)

(** The part of the [DateAdapter<T>] interface that [ResultPipe] uses. *)
Class DateAdapter (T : Type) : Type := {
  isAfter : T -> T -> result bool;
  isAfterOrEqual : T -> T -> result bool;
  clone : T -> T;
}.

#[global] Instance LibDateTime_adapter : DateAdapter LibDateTime.t := {
  isAfter a b := LibDateTime.isAfter a (Some b);
  isAfterOrEqual a b := LibDateTime.isAfterOrEqual a (Some b);
  clone := LibDateTime.clone;
}.

Module ResultPipe.
Section Pipe.
Context {T : Type} `{DateAdapter T}.

(** [IPipeRunFn<T>]: the candidate and the flag the constraint stages
    raise when they repaired it. *)
Record IPipeRunFn : Type := mkArgs {
  date : T;
  invalidDate : bool;
}.

(** What the pipe reads from its base class [PipeRule]:
    [this.controller.invalid] and [this.end]. *)
Record Config : Type := mkConfig {
  controller_invalid : bool;
  end_ : option T;
}.

(** The private fields of the pipe. *)
Record State : Type := mkState {
  invalidIterationCount : Z;
  previousIterationDate : option T;
}.

Definition initial : State := mkState 0 None.

(** What [run] evaluates to: a returned value ([null] is [None]), or
    the tail call [this.focusedPipe.run(...)] with its argument. *)
Inductive Outcome : Type :=
| Return (value : option T)
| FocusedPipeRun (args : IPipeRunFn).

(** [run(args)], with the fields of the pipe threaded through. *)
Definition run (cfg : Config) (st : State) (args : IPipeRunFn)
    : State * result Outcome :=
  if controller_invalid cfg then (st, Throw PlainError) else
  match
    match end_ cfg with
    | Some e => isAfter (date args) e
    | None => Ok false
    end
  with
  | Throw e => (st, Throw e)
  | Ok true => (st, Ok (Return None))
  | Ok false =>
      if invalidDate args then
        let st := mkState (invalidIterationCount st + 1) (previousIterationDate st) in
        if invalidIterationCount st >? 50 then (st, Throw PipeError)
        else (st, Ok (FocusedPipeRun (mkArgs (date args) false)))
      else
        match
          match previousIterationDate st with
          | Some p => isAfterOrEqual p (date args)
          | None => Ok false
          end
        with
        | Throw e => (st, Throw e)
        | Ok true => (st, Ok (Return None))
        | Ok false =>
            (mkState 0 (Some (clone (date args))), Ok (Return (Some (date args))))
        end
  end.

(** One traversal step of the rule: the pipes from the focused pipe
    down to the result pipe are a transition [stages] on their own
    state [S]; it turns the argument of [focusedPipe.run] into the
    argument that reaches [ResultPipe.run] next.  The chain of calls is
    followed for at most [fuel] visits of the result pipe. *)
Fixpoint iterate {S : Type} (stages : S -> IPipeRunFn -> S * IPipeRunFn)
    (fuel : nat) (cfg : Config) (s : S) (st : State) (args : IPipeRunFn)
    : option (State * result (option T)) :=
  match fuel with
  | O => None
  | Datatypes.S fuel =>
      match run cfg st args with
      | (st, Throw e) => Some (st, Throw e)
      | (st, Ok (Return v)) => Some (st, Ok v)
      | (st, Ok (FocusedPipeRun args)) =>
          let '(s, args) := stages s args in
          iterate stages fuel cfg s st args
      end
  end.

End Pipe.
Arguments IPipeRunFn T : clear implicits.
Arguments Config T : clear implicits.
Arguments State T : clear implicits.
Arguments Outcome T : clear implicits.
End ResultPipe.

(** ** Option normalization of the by-day-of-month module *)

Module ByDayOfMonthRuleModule.

Inductive Frequency : Type :=
| YEARLY | MONTHLY | WEEKLY | DAILY | HOURLY | MINUTELY | SECONDLY
| MILLISECONDLY.

#[global] Instance Frequency_eq_dec : EqDecision Frequency.
Proof. solve_decision. Defined.

Inductive Weekday : Type := SU | MO | TU | WE | TH | FR | SA.

(** [RuleOption.ByDayOfWeek]: a weekday, or a weekday with an ordinal. *)
Inductive ByDayOfWeek : Type :=
| on_weekday (w : Weekday)
| nth_weekday (w : Weekday) (n : Z).

(** Truthiness of an option that is [undefined] or an array:
    [undefined] is falsy, every array (an empty one too) is truthy. *)
Definition truthy {A : Type} (o : option A) : bool :=
  match o with
  | Some _ => true
  | None => false
  end.

(** A value given for [byDayOfMonth]: an array of numbers, or a value
    that [Array.isArray] rejects. *)
Inductive ByDayOfMonth : Type :=
| an_array (nums : list Z)
| not_an_array.

(** The provided options that the module reads; [None] is
    [undefined]. *)
Record Options : Type := mkOptions {
  frequency : Frequency;
  byDayOfMonth : option ByDayOfMonth;
  byDayOfWeek : option (list ByDayOfWeek);
}.

(** The normalized options that the module reads and writes. *)
Record Norm : Type := mkNorm {
  start : DateTime.t;
  norm_byDayOfMonth : option (list Z);
}.

(** [normalizeOptions(options, norm)]; the assignment to
    [norm.byDayOfMonth] is the returned record.  In the [else if] branch
    [options.byDayOfMonth] is [undefined]. *)
Definition normalizeOptions (options : Options) (norm : Norm) : result Norm :=
  match byDayOfMonth options with
  | Some value =>
      if bool_decide (frequency options = WEEKLY) then Throw RuleOptionError
      else
        match value with
        | not_an_array => Throw RuleOptionError
        | an_array days =>
            if existsb (fun num => (num =? 0) || (num <? -31) || (num >? 31)) days
            then Throw RuleOptionError
            else Ok (mkNorm (start norm) (Some days))
        end
  | None =>
      if negb (truthy (byDayOfMonth options) || truthy (byDayOfWeek options))
         && bool_decide (frequency options ∈ [YEARLY; MONTHLY])
      then Ok (mkNorm (start norm) (Some [DateTime.get (start norm) DateTime.day]))
      else Ok norm
  end.

End ByDayOfMonthRuleModule.

(** ** Occurrence generators: run arguments, consumers and traces *)

(** [IRunArgs]. *)
Module IRunArgs.
Record t : Type := mk {
  start : option DateTime.t;
  end_ : option DateTime.t;
  take : option Z;
  reverse : bool;
}.
(** [_run()] without arguments. *)
Definition none : t := mk None None None false.
End IRunArgs.

(** What a consumer passes to [next] after a [yield]: [None] for a
    plain [next()], otherwise an object that may carry [skipToDate]. *)
Record YieldArgs : Type := mkYieldArgs {
  skipToDate : option DateTime.t;
}.

Definition Reply : Type := option YieldArgs.

(** [yieldArgs && yieldArgs.skipToDate]. *)
Definition reply_skipToDate (yieldArgs : Reply) : option DateTime.t :=
  match yieldArgs with
  | Some a => skipToDate a
  | None => None
  end.

(** How a traversal ends: the generator returned, the consumer stopped
    calling [next], or an exception escaped. *)
Inductive Status : Type :=
| Finished
| Suspended
| Raised (e : Error).

(** The values a generator yielded, in order, and how it ended. *)
Definition Trace : Type := list DateTime.t * Status.

Definition yielded (out : DateTime.t) (rest : Trace) : Trace :=
  (out :: fst rest, snd rest).

(** A consumer that never passes an argument ([for ... of]) and calls
    [next] [n] more times after the first value. *)
Definition plain (n : nat) : list Reply := repeat None n.

(** The date-adapter class configured for the generators: the only
    thing the code modelled here asks of it is the conversion
    [fromDateTime(date).set('timezone', timezone).toDateTime()]. *)
Class DateAdapterCtor : Type := {
  convert : DateTime.t -> option string -> result DateTime.t;
}.

(** [normalizeRunOutput(date)] of a generator with time zone
    [timezone]. *)
Definition normalizeRunOutput `{DateAdapterCtor} (timezone : option string)
    (date : DateTime.t) : result DateTime.t :=
  if decide (DateTime.timezone date = timezone) then Ok date
  else convert date timezone.

(** *** Array helpers *)

(** [array.filter(p)] with a predicate that may throw. *)
Fixpoint filterM {A : Type} (p : A -> result bool) (l : list A) : result (list A) :=
  match l with
  | [] => Ok []
  | x :: xs =>
      match p x with
      | Throw e => Throw e
      | Ok b =>
          match filterM p xs with
          | Throw e => Throw e
          | Ok r => Ok (if b then x :: r else r)
          end
      end
  end.

(** [array.sort(cmp)] is a stable sort that calls [cmp] on pairs of
    elements; it is modelled as an insertion sort. *)
Fixpoint insert_sorted {A : Type} (cmp : A -> A -> result Z) (x : A) (l : list A)
    : result (list A) :=
  match l with
  | [] => Ok [x]
  | y :: l' =>
      match cmp x y with
      | Throw e => Throw e
      | Ok c =>
          if c <=? 0 then Ok (x :: l)
          else match insert_sorted cmp x l' with
               | Throw e => Throw e
               | Ok r => Ok (y :: r)
               end
      end
  end.

Fixpoint sort {A : Type} (cmp : A -> A -> result Z) (l : list A) : result (list A) :=
  match l with
  | [] => Ok []
  | x :: xs =>
      match sort cmp xs with
      | Throw e => Throw e
      | Ok s => insert_sorted cmp x s
      end
  end.

(** [array.slice(0, n)]: a negative [n] counts from the end. *)
Definition slice_to {A : Type} (l : list A) (n : Z) : list A :=
  if n <? 0 then firstn (Z.to_nat (Z.of_nat (length l) + n)) l
  else firstn (Z.to_nat n) l.

(** ** The [Dates] generator ([packages/core/src/generators/dates.ts]) *)

Module Dates.
Section Run.
Context `{DateAdapterCtor}.

(** The fields of a [Dates] object that [_run] reads: its time zone,
    the private [datetimes] array, and the object itself (it adds itself
    to the generators of what it yields). *)
Record t : Type := mk {
  timezone : option string;
  datetimes : list DateTime.t;
  this_ref : GeneratorRef;
}.

(** The array [dates] that [_run] iterates: sorted, cut to the start and
    end bounds, reversed and truncated as the arguments say. *)
Definition run_dates (this : t) (args : IRunArgs.t) : result (list DateTime.t) :=
  dates ← sort DateTime.dateTimeSortComparer (datetimes this);
  dates ← match IRunArgs.start args with
           | Some start =>
               filterM (fun date => DateTime.isAfterOrEqual date (Some start)) dates
           | None => Ok dates
           end;
  dates ← match IRunArgs.end_ args with
           | Some end_ =>
               filterM (fun date => DateTime.isBeforeOrEqual date (Some end_)) dates
           | None => Ok dates
           end;
  let dates := if IRunArgs.reverse args then rev dates else dates in
  let dates :=
    match IRunArgs.take args with
    | Some take => if take =? 0 then dates else slice_to dates take
    | None => dates
    end in
  Ok dates.

(** The [continue] branch of the loop: while [skipToDate] lies beyond
    [date], shift the next date off the cache.  [None] when the cache
    runs out. *)
Fixpoint skip (reverse : bool) (skipToDate date : DateTime.t)
    (dateCache : list DateTime.t) : result (option (DateTime.t * list DateTime.t)) :=
  match
    if reverse then DateTime.isBefore skipToDate (Some date)
    else DateTime.isAfter skipToDate (Some date)
  with
  | Throw e => Throw e
  | Ok true =>
      match dateCache with
      | [] => Ok None
      | date :: dateCache => skip reverse skipToDate date dateCache
      end
  | Ok false => Ok (Some (date, dateCache))
  end.

(** The [while (date)] loop, driven by the consumer's replies. *)
Fixpoint run_loop (this : t) (args : IRunArgs.t) (dates : list DateTime.t)
    (replies : list Reply) (date : option DateTime.t)
    (dateCache : list DateTime.t) (yieldArgs : Reply) : Trace :=
  match date with
  | None => ([], Finished)
  | Some date =>
      match
        match reply_skipToDate yieldArgs with
        | Some skipToDate => skip (IRunArgs.reverse args) skipToDate date dateCache
        | None => Ok (Some (date, dateCache))
        end
      with
      | Throw e => ([], Raised e)
      | Ok None => ([], Finished)
      | Ok (Some (date, dateCache)) =>
          match
            date ← DateTime.add_generator date (this_ref this);
            normalizeRunOutput (timezone this) date
          with
          | Throw e => ([], Raised e)
          | Ok out =>
              match replies with
              | [] => ([out], Suspended)
              | yieldArgs :: replies =>
                  let dateCache :=
                    (* need to reset the date cache to allow the same
                       date to be picked again *)
                    match reply_skipToDate yieldArgs with
                    | Some _ => dates
                    | None => dateCache
                    end in
                  yielded out
                    (run_loop this args dates replies
                       (head dateCache) (tail dateCache) yieldArgs)
              end
          end
      end
  end.

(** [_run(args)], consumed with the given replies. *)
Definition _run (this : t) (args : IRunArgs.t) (replies : list Reply) : Trace :=
  match run_dates this args with
  | Throw e => ([], Raised e)
  | Ok dates => run_loop this args dates replies (head dates) (tail dates) None
  end.

End Run.
End Dates.

(** ** The [unique] operator ([UniqueOperator]) *)

Module UniqueOperator.
Section Run.
Context `{DateAdapterCtor}.

(** Modelled from the spec: [IterableWrapper], [streamPastEnd] and
    [streamPastSkipToDate] come from the operators' [utilities] file,
    which is not part of the sources at hand.  The wrapper holds the
    upstream iterator with its pending value; an upstream that yields
    finitely many values and then returns is the list of the values it
    has not handed out yet ([done] is the empty list, [value] the
    head, [picked()] drops the head).  A stream is past the end when it
    is exhausted or its pending value lies beyond the end bound of the
    traversal (the start bound in reverse mode). *)
Definition streamPastEnd (stream : list DateTime.t) (args : IRunArgs.t)
    : result bool :=
  match stream with
  | [] => Ok true
  | value :: _ =>
      if IRunArgs.reverse args then
        match IRunArgs.start args with
        | Some start => DateTime.isBefore value (Some start)
        | None => Ok false
        end
      else
        match IRunArgs.end_ args with
        | Some end_ => DateTime.isAfter value (Some end_)
        | None => Ok false
        end
  end.

(** Modelled from the spec: skipping discards the pending values
    strictly before [skipToDate] (strictly after it in reverse mode),
    "down to but not past" it. *)
Definition streamPastSkipToDate (stream : list DateTime.t)
    (skipToDate : DateTime.t) (args : IRunArgs.t) : result bool :=
  match stream with
  | [] => Throw TypeError
  | value :: _ =>
      if IRunArgs.reverse args
      then DateTime.isBeforeOrEqual value (Some skipToDate)
      else DateTime.isAfterOrEqual value (Some skipToDate)
  end.

(** [while (!streamPastEnd(stream, args) &&
            !streamPastSkipToDate(stream, skipToDate, args))
      stream.picked()] *)
Fixpoint skip_ahead (args : IRunArgs.t) (skipToDate : DateTime.t)
    (stream : list DateTime.t) : result (list DateTime.t) :=
  match streamPastEnd stream args with
  | Throw e => Throw e
  | Ok true => Ok stream
  | Ok false =>
      match streamPastSkipToDate stream skipToDate args with
      | Throw e => Throw e
      | Ok true => Ok stream
      | Ok false =>
          match stream with
          | [] => Ok []
          | _ :: stream => skip_ahead args skipToDate stream
          end
      end
  end.

(** [while (!streamPastEnd(stream, args) && stream.value.isEqual(lastValue))
      stream.picked()] *)
Fixpoint drop_equal (args : IRunArgs.t) (lastValue : DateTime.t)
    (stream : list DateTime.t) : result (list DateTime.t) :=
  match streamPastEnd stream args with
  | Throw e => Throw e
  | Ok true => Ok stream
  | Ok false =>
      match stream with
      | [] => Ok []
      | value :: rest =>
          match DateTime.isEqual value (Some lastValue) with
          | Throw e => Throw e
          | Ok true => drop_equal args lastValue rest
          | Ok false => Ok stream
          end
      end
  end.

(** The [while (!stream.done)] loop, driven by the consumer's replies. *)
Fixpoint run_loop (timezone : option string) (args : IRunArgs.t)
    (replies : list Reply) (stream : list DateTime.t) : Trace :=
  match stream with
  | [] => ([], Finished)
  | value :: rest =>
      match normalizeRunOutput timezone value with
      | Throw e => ([], Raised e)
      | Ok out =>
          match replies with
          | [] => ([out], Suspended)
          | yieldArgs :: replies =>
              let lastValue := value in
              let stream := rest in
              match
                stream ← match reply_skipToDate yieldArgs with
                          | Some skipToDate => skip_ahead args skipToDate stream
                          | None => Ok stream
                          end;
                drop_equal args lastValue stream
              with
              | Throw e => ([out], Raised e)
              | Ok stream => yielded out (run_loop timezone args replies stream)
              end
          end
      end
  end.

(** The operator's configuration: its time zone and the values its
    base, if any, yields for the run arguments. *)
Record Config : Type := mkConfig {
  timezone : option string;
  base : option (IRunArgs.t -> list DateTime.t);
}.

(** [_run(args)], consumed with the given replies. *)
Definition _run (config : Config) (args : IRunArgs.t) (replies : list Reply) : Trace :=
  match base config with
  | None => ([], Finished)
  | Some base => run_loop (timezone config) args replies (base args)
  end.

End Run.
End UniqueOperator.

(** ** [Rule], [Dates] and [Schedule] objects and their update methods

    The objects live in a store, so that "returns [this]" and "returns a
    new object" are different outcomes and a write to an existing object
    would be visible. *)

(** What the configured date adapter, the rule-option helpers and the
    global configuration provide; none of them is part of the sources
    at hand. *)
Class Environment : Type := {
  (** instances of the configured [DateAdapter] class *)
  Adapter : Type;
  (** [DateInput]: a native date, a [DateAdapter] or a [DateTime] *)
  DateInput : Type;
  (** a [DateAdapter] is a [DateInput] *)
  input_of_adapter : Adapter -> DateInput;
  normalizeDateInputToAdapter : DateInput -> result Adapter;
  adapter_duration : Adapter -> Z;
  adapter_valueOf : Adapter -> Z;
  adapter_set_duration : Adapter -> Z -> result Adapter;
  adapter_set_timezone : Adapter -> option string -> result Adapter;
  adapter_toDateTime : Adapter -> result DateTime.t;
  (** [fromJSON({...adapter.toJSON(), timezone})] *)
  adapter_with_json_timezone : Adapter -> option string -> result Adapter;
  (** the user's [data] *)
  Data : Type;
  (** [IProvidedRuleOptions], its keys and the values stored under them *)
  RuleOptions : Type;
  OptionKey : Type;
  OptionValue : Type;
  cloneRuleOptions : RuleOptions -> RuleOptions;
  (** [options[prop] = value] *)
  assign_option : RuleOptions -> OptionKey -> OptionValue -> RuleOptions;
  (** the [RScheduleConfig.Rule.defaultWeekStart] step of the constructor *)
  apply_defaultWeekStart : RuleOptions -> RuleOptions;
  NormalizedRuleOptions : Type;
  normalizeRuleOptions : RuleOptions -> result NormalizedRuleOptions;
  options_duration : RuleOptions -> option Z;
  norm_is_infinite : NormalizedRuleOptions -> bool;
}.

Module Store.
Section Objects.
Context `{Environment}.

(** References to objects. *)
Definition loc : Type := nat.

Record RuleObject : Type := mkRule {
  rule_options : RuleOptions;
  rule_processedOptions : NormalizedRuleOptions;
  rule_timezone : option string;
  rule_data : option Data;
  rule_hasDuration : bool;
  rule_duration : option Z;
  rule_isInfinite : bool;
}.

Record DatesObject : Type := mkDates {
  dates_timezone : option string;
  dates_adapters : list Adapter;
  dates_datetimes : list DateTime.t;
  dates_data : option Data;
  dates_hasDuration : bool;
  dates_maxDuration : Z;
}.

Record ScheduleObject : Type := mkSchedule {
  schedule_timezone : option string;
  schedule_data : option Data;
  schedule_rrules : list loc;
  schedule_exrules : list loc;
  schedule_rdates : loc;
  schedule_exdates : loc;
  schedule_hasDuration : bool;
  schedule_isInfinite : bool;
}.

Inductive Object : Type :=
| ARule (o : RuleObject)
| ADates (o : DatesObject)
| ASchedule (o : ScheduleObject).

Definition heap : Type := gmap loc Object.

(** Computations that read the store, allocate in it, and may throw. *)
Definition M (A : Type) : Type := heap -> result (A * heap).

Definition ret {A} (a : A) : M A := fun h => Ok (a, h).

Definition bind {A B} (c : M A) (k : A -> M B) : M B := fun h =>
  match c h with
  | Ok (a, h) => k a h
  | Throw e => Throw e
  end.

Definition lift {A} (r : result A) : M A := fun h =>
  match r with
  | Ok a => Ok (a, h)
  | Throw e => Throw e
  end.

(** [new C(...)]: the object is stored under a reference that is not
    in use. *)
Definition alloc (o : Object) : M loc := fun h =>
  let l := fresh (dom h) in
  Ok (l, <[l := o]> h).

Definition read_rule (l : loc) : M RuleObject := fun h =>
  match h !! l with
  | Some (ARule o) => Ok (o, h)
  | _ => Throw TypeError
  end.

Definition read_dates (l : loc) : M DatesObject := fun h =>
  match h !! l with
  | Some (ADates o) => Ok (o, h)
  | _ => Throw TypeError
  end.

Definition read_schedule (l : loc) : M ScheduleObject := fun h =>
  match h !! l with
  | Some (ASchedule o) => Ok (o, h)
  | _ => Throw TypeError
  end.

(** [Rule.isRule(x)] and [Dates.isDates(x)] on a reference. *)
Definition isRule (l : loc) : M bool := fun h =>
  Ok (match h !! l with Some (ARule _) => true | _ => false end, h).

Definition isDates (l : loc) : M bool := fun h =>
  Ok (match h !! l with Some (ADates _) => true | _ => false end, h).

(** [array.map(f)] with a callback that runs in the store. *)
Fixpoint mapM {A B} (f : A -> M B) (l : list A) : M (list B) :=
  match l with
  | [] => ret []
  | x :: xs => bind (f x) (fun y => bind (mapM f xs) (fun ys => ret (y :: ys)))
  end.

(** [array.map(f)] with a callback that may throw. *)
Fixpoint mapR {A B} (f : A -> result B) (l : list A) : result (list B) :=
  match l with
  | [] => Ok []
  | x :: xs => y ← f x; ys ← mapR f xs; Ok (y :: ys)
  end.

(** *** [Rule] *)

(** [new Rule(options, { data, dateAdapter, timezone })]; every call
    modelled here passes a [timezone] that is not [undefined]. *)
Definition new_Rule (options : RuleOptions) (data : option Data)
    (timezone : option string) : M loc :=
  let options := apply_defaultWeekStart (cloneRuleOptions options) in
  bind (lift (normalizeRuleOptions options)) (fun processedOptions =>
  let hasDuration :=
    match options_duration options with
    | Some d => negb (d =? 0)
    | None => false
    end in
  alloc (ARule (mkRule options processedOptions timezone data hasDuration
                  (if hasDuration then options_duration options else None)
                  (norm_is_infinite processedOptions)))).

(** The arguments of [Rule#set]. *)
Inductive RuleSet : Type :=
| rule_timezone_to (value : option string)
| rule_options_to (value : RuleOptions)
| rule_option_to (prop : OptionKey) (value : OptionValue).

Definition Rule_set (this : loc) (arg : RuleSet) : M loc :=
  bind (read_rule this) (fun self =>
  let options := cloneRuleOptions (rule_options self) in
  let timezone := rule_timezone self in
  match arg with
  | rule_timezone_to value =>
      if decide (value = rule_timezone self) then ret this
      else new_Rule options (rule_data self) value
  | rule_options_to value =>
      new_Rule value (rule_data self) timezone
  | rule_option_to prop value =>
      new_Rule (assign_option options prop value) (rule_data self) timezone
  end).

(** *** [Dates] *)

(** [new Dates({ dates, timezone, data, duration })]. *)
Definition new_Dates (dates : option (list DateInput)) (timezone : option string)
    (data : option Data) (duration : option Z) : M loc :=
  bind (lift (
    match dates with
    | Some dates =>
        mapR (fun date =>
                adapter ← normalizeDateInputToAdapter date;
                adapter ← (if negb (default 0 duration =? 0)
                              && (adapter_duration adapter =? 0)
                           then adapter_set_duration adapter (default 0 duration)
                           else Ok adapter);
                adapter_set_timezone adapter timezone) dates
    | None => Ok []
    end)) (fun adapters =>
  bind (lift (mapR adapter_toDateTime adapters)) (fun datetimes =>
  let hasDuration :=
    forallb (fun date => negb (DateTime.duration date =? 0)) datetimes in
  let maxDuration :=
    if hasDuration
    then fold_left (fun prev curr =>
                      if adapter_duration curr >? prev
                      then adapter_duration curr else prev) adapters 0
    else 0 in
  alloc (ADates (mkDates timezone adapters datetimes data hasDuration maxDuration)))).

Definition Dates_add (this : loc) (value : DateInput) : M loc :=
  bind (read_dates this) (fun self =>
  new_Dates (Some (map input_of_adapter (dates_adapters self) ++ [value]))
    (dates_timezone self) (dates_data self) None).

(** [dates.findIndex(p)] followed by [dates.splice(index, 1)]. *)
Fixpoint remove_first {A} (p : A -> bool) (l : list A) : list A :=
  match l with
  | [] => []
  | x :: xs => if p x then xs else x :: remove_first p xs
  end.

Definition Dates_remove (this : loc) (value : DateInput) : M loc :=
  bind (read_dates this) (fun self =>
  let dates := dates_adapters self in
  bind (lift (normalizeDateInputToAdapter value)) (fun input =>
  let dates :=
    remove_first (fun date => adapter_valueOf date =? adapter_valueOf input) dates in
  new_Dates (Some (map input_of_adapter dates))
    (dates_timezone self) (dates_data self) None)).

(** The arguments of [Dates#set]; the property has one of the three
    declared names, so the final [throw new ArgumentError] of the
    source is out of reach. *)
Inductive DatesSet : Type :=
| dates_timezone_to (value : option string) (keepLocalTime : bool)
| dates_dates_to (value : list DateInput)
| dates_duration_to (value : option Z).

Definition Dates_set (this : loc) (arg : DatesSet) : M loc :=
  bind (read_dates this) (fun self =>
  let timezone := dates_timezone self in
  let dates := map input_of_adapter (dates_adapters self) in
  match arg with
  | dates_timezone_to value keepLocalTime =>
      if decide (value = dates_timezone self) then ret this
      else
        bind (lift (if keepLocalTime
                    then map input_of_adapter <$>
                         mapR (fun adapter => adapter_with_json_timezone adapter value)
                           (dates_adapters self)
                    else Ok dates)) (fun dates =>
        new_Dates (Some dates) value (dates_data self) None)
  | dates_dates_to value =>
      new_Dates (Some value) timezone (dates_data self) None
  | dates_duration_to value =>
      bind (lift (map input_of_adapter <$>
                  mapR (fun date => adapter_set_duration date (default 0 value))
                    (dates_adapters self))) (fun dates =>
      new_Dates (Some dates) timezone (dates_data self) None)
  end).

(** *** [Schedule] *)

(** A rule argument of the constructor: a [Rule] or plain options. *)
Inductive RuleArg : Type :=
| a_rule (rule : loc)
| rule_args (options : RuleOptions).

(** A dates argument of the constructor: a [Dates] or an array. *)
Inductive DatesArg : Type :=
| a_dates (dates : loc)
| date_inputs (inputs : list DateInput).

Definition schedule_rule (timezone : option string) (ruleArgs : RuleArg) : M loc :=
  match ruleArgs with
  | a_rule rule =>
      bind (isRule rule) (fun yes =>
      if yes then Rule_set rule (rule_timezone_to timezone)
      else fun _ => Throw TypeError)
  | rule_args options => new_Rule options None timezone
  end.

Definition schedule_dates (timezone : option string) (arg : option DatesArg) : M loc :=
  match arg with
  | Some (a_dates dates) =>
      bind (isDates dates) (fun yes =>
      if yes then Dates_set dates (dates_timezone_to timezone false)
      else fun _ => Throw TypeError)
  | Some (date_inputs inputs) => new_Dates (Some inputs) timezone None None
  | None => new_Dates None timezone None None
  end.

(** [new Schedule({ timezone, data, rrules, exrules, rdates, exdates })];
    the operator pipeline stored in [occurrenceStream] is derived from
    the other fields and is not kept in the record. *)
Definition new_Schedule (timezone : option string) (data : option Data)
    (rrules exrules : option (list RuleArg)) (rdates exdates : option DatesArg)
    : M loc :=
  bind (mapM (schedule_rule timezone) (default [] rrules)) (fun rrules =>
  bind (mapM (schedule_rule timezone) (default [] exrules)) (fun exrules =>
  bind (schedule_dates timezone rdates) (fun rdates =>
  bind (schedule_dates timezone exdates) (fun exdates =>
  bind (mapM read_rule rrules) (fun rrule_objects =>
  bind (mapM read_rule exrules) (fun exrule_objects =>
  bind (read_dates rdates) (fun rdates_object =>
  bind (read_dates exdates) (fun exdates_object =>
  let hasDuration :=
    forallb rule_hasDuration rrule_objects
    && forallb rule_hasDuration exrule_objects
    && dates_hasDuration rdates_object
    && dates_hasDuration exdates_object in
  let isInfinite := existsb rule_isInfinite rrule_objects in
  alloc (ASchedule (mkSchedule timezone data rrules exrules rdates exdates
                      hasDuration isInfinite)))))))))).

Inductive ScheduleAdd : Type :=
| rrule (value : loc)
| exrule (value : loc)
| rdate (value : DateInput)
| exdate (value : DateInput).

Definition Schedule_add (this : loc) (arg : ScheduleAdd) : M loc :=
  bind (read_schedule this) (fun self =>
  let rrules := schedule_rrules self in
  let exrules := schedule_exrules self in
  let rdates := schedule_rdates self in
  let exdates := schedule_exdates self in
  bind (match arg with
        | rrule value => ret (rrules ++ [value], exrules, rdates, exdates)
        | exrule value => ret (rrules, exrules ++ [value], rdates, exdates)
        | rdate value =>
            bind (Dates_add rdates value) (fun rdates =>
            ret (rrules, exrules, rdates, exdates))
        | exdate value =>
            bind (Dates_add exdates value) (fun exdates =>
            ret (rrules, exrules, rdates, exdates))
        end) (fun '(rrules, exrules, rdates, exdates) =>
  new_Schedule (schedule_timezone self) (schedule_data self)
    (Some (a_rule <$> rrules)) (Some (a_rule <$> exrules))
    (Some (a_dates rdates)) (Some (a_dates exdates)))).

Definition Schedule_remove (this : loc) (arg : ScheduleAdd) : M loc :=
  bind (read_schedule this) (fun self =>
  let rrules := schedule_rrules self in
  let exrules := schedule_exrules self in
  let rdates := schedule_rdates self in
  let exdates := schedule_exdates self in
  bind (match arg with
        | rrule value =>
            ret (List.filter (fun rule => negb (rule =? value)%nat) rrules,
                 exrules, rdates, exdates)
        | exrule value =>
            ret (rrules,
                 List.filter (fun rule => negb (rule =? value)%nat) exrules,
                 rdates, exdates)
        | rdate value =>
            bind (Dates_remove rdates value) (fun rdates =>
            ret (rrules, exrules, rdates, exdates))
        | exdate value =>
            bind (Dates_remove exdates value) (fun exdates =>
            ret (rrules, exrules, rdates, exdates))
        end) (fun '(rrules, exrules, rdates, exdates) =>
  new_Schedule (schedule_timezone self) (schedule_data self)
    (Some (a_rule <$> rrules)) (Some (a_rule <$> exrules))
    (Some (a_dates rdates)) (Some (a_dates exdates)))).

Inductive ScheduleSet : Type :=
| schedule_timezone_to (value : option string) (keepLocalTime : bool)
| schedule_rrules_to (value : list loc)
| schedule_exrules_to (value : list loc)
| schedule_rdates_to (value : loc)
| schedule_exdates_to (value : loc).

Definition Schedule_set (this : loc) (arg : ScheduleSet) : M loc :=
  bind (read_schedule this) (fun self =>
  let timezone := schedule_timezone self in
  let rrules := schedule_rrules self in
  let exrules := schedule_exrules self in
  let rdates := schedule_rdates self in
  let exdates := schedule_exdates self in
  match arg with
  | schedule_timezone_to value keepLocalTime =>
      if bool_decide (value = schedule_timezone self) && negb keepLocalTime
      then ret this
      else
        bind (if keepLocalTime then
                bind (mapM (fun rule => Rule_set rule (rule_timezone_to value)) rrules)
                  (fun rrules =>
                bind (mapM (fun rule => Rule_set rule (rule_timezone_to value)) exrules)
                  (fun exrules =>
                bind (Dates_set rdates (dates_timezone_to value keepLocalTime))
                  (fun rdates =>
                bind (Dates_set exdates (dates_timezone_to value keepLocalTime))
                  (fun exdates =>
                ret (rrules, exrules, rdates, exdates)))))
              else ret (rrules, exrules, rdates, exdates))
          (fun '(rrules, exrules, rdates, exdates) =>
        new_Schedule value (schedule_data self)
          (Some (a_rule <$> rrules)) (Some (a_rule <$> exrules))
          (Some (a_dates rdates)) (Some (a_dates exdates)))
  | schedule_rrules_to value =>
      new_Schedule timezone (schedule_data self)
        (Some (a_rule <$> value)) (Some (a_rule <$> exrules))
        (Some (a_dates rdates)) (Some (a_dates exdates))
  | schedule_exrules_to value =>
      new_Schedule timezone (schedule_data self)
        (Some (a_rule <$> rrules)) (Some (a_rule <$> value))
        (Some (a_dates rdates)) (Some (a_dates exdates))
  | schedule_rdates_to value =>
      new_Schedule timezone (schedule_data self)
        (Some (a_rule <$> rrules)) (Some (a_rule <$> exrules))
        (Some (a_dates value)) (Some (a_dates exdates))
  | schedule_exdates_to value =>
      new_Schedule timezone (schedule_data self)
        (Some (a_rule <$> rrules)) (Some (a_rule <$> exrules))
        (Some (a_dates rdates)) (Some (a_dates value))
  end).

End Objects.
End Store.

(** ** The rest of [DateTime] and of its helpers ([packages/core])

    [subtract], the units ['weekday'] and ['yearday'] of [get],
    [granularity] and [endGranularity] with ['week'], [toJSON],
    [isOccurring] and the weekday helpers. *)

Module CoreDateTime.
Import ByDayOfMonthRuleModule.
Import JsDate.
Import DateTime.


#[global] Instance Weekday_eq_dec : EqDecision Weekday.
Proof. solve_decision. Defined.

(** [DateAdapter.WEEKDAYS]. *)
Definition WEEKDAYS : list Weekday := [SU; MO; TU; WE; TH; FR; SA].

(** [array[i]]: [undefined] outside the array. *)
Definition at_index {A : Type} (array : list A) (i : Z) : option A :=
  if i <? 0 then None else array !! Z.to_nat i.

(** [array.indexOf(x)]: [-1] when [x] is not in the array. *)
Fixpoint indexOf {A : Type} `{EqDecision A} (array : list A) (x : A) : Z :=
  match array with
  | [] => -1
  | y :: array =>
      if decide (y = x) then 0
      else let i := indexOf array x in if i <? 0 then -1 else i + 1
  end.

(** The second argument of [shiftArray]. *)
Inductive From : Type := from_first | from_last.

(** [shiftArray(array, from)]: [array.push(array.shift())] or
    [array.unshift(array.pop())]. *)
Definition shiftArray {A : Type} (array : list A) (from : From) : list A :=
  match array with
  | [] => []
  | x :: rest =>
      match from with
      | from_first => rest ++ [x]
      | from_last => List.last array x :: removelast array
      end
  end.

(** [orderedWeekdays(wkst = 'SU')]: the loop
    [while (index !== 0) { shiftArray(wkdays); index-- }] runs [index]
    times; [index] is the position of a weekday and is never negative. *)
Definition orderedWeekdays (wkst : option Weekday) : list Weekday :=
  let wkst := default SU wkst in
  let wkdays := WEEKDAYS in
  let index := indexOf wkdays wkst in
  Nat.iter (Z.to_nat index) (fun wkdays => shiftArray wkdays from_first) wkdays.

(** [getDifferenceBetweenWeekdays(x, y)]. *)
Definition getDifferenceBetweenWeekdays (x y : Weekday) : Z :=
  if decide (x = y) then 0
  else
    let result := indexOf WEEKDAYS x - indexOf WEEKDAYS y in
    if result >? 0 then 7 - result else Z.abs result.

Definition getDaysInYear (year : Z) : Z :=
  if isLeapYear year then 366 else 365.

(** [getUTCYearDay(now)]; [None] is [NaN].  [Date.UTC(year, 0, 1)]
    leaves the time of day at 0. *)
Definition getUTCYearDay (now : Date) : option Z :=
  year ← getUTCFullYear now;
  start ← UTC year 0 1 0 0 0 0;
  now ← now;
  let diff := now - start in
  Some (1 + diff / MILLISECONDS_IN_DAY).

Definition subUTCYears (date : Date) (amount : Z) : Date := addUTCYears date (- amount).
Definition subUTCMonths (date : Date) (amount : Z) : Date := addUTCMonths date (- amount).
Definition subUTCWeeks (date : Date) (amount : Z) : Date := addUTCWeeks date (- amount).
Definition subUTCHours (date : Date) (amount : Z) : Date := addUTCHours date (- amount).
Definition subUTCMinutes (date : Date) (amount : Z) : Date := addUTCMinutes date (- amount).
Definition subUTCSeconds (date : Date) (amount : Z) : Date := addUTCSeconds date (- amount).
Definition subUTCMilliseconds (date : Date) (amount : Z) : Date :=
  addUTCMilliseconds date (- amount).

(** [subtract(amount, unit)]. *)
Definition subtract (this : t) (amount : Z) (u : AddUnit) : result t :=
  let date := Some (date this) in
  match u with
  | unit year => forkDateTime this (subUTCYears date amount)
  | unit month => forkDateTime this (subUTCMonths date amount)
  | week => forkDateTime this (subUTCWeeks date amount)
  | unit day => forkDateTime this (subUTCDays date amount)
  | unit hour => forkDateTime this (subUTCHours date amount)
  | unit minute => forkDateTime this (subUTCMinutes date amount)
  | unit second => forkDateTime this (subUTCSeconds date amount)
  | unit millisecond => forkDateTime this (subUTCMilliseconds date amount)
  end.

(** [get('weekday')]. *)
Definition get_weekday (this : t) : option Weekday :=
  at_index WEEKDAYS (WeekDay (date this)).

(** [get('yearday')]. *)
Definition get_yearday (this : t) : option Z :=
  getUTCYearDay (Some (date this)).

(** [array.indexOf(date.get('weekday'))]. *)
Definition weekday_index (wkst : option Weekday) (date : t) : Z :=
  match get_weekday date with
  | Some weekday => indexOf (orderedWeekdays wkst) weekday
  | None => -1
  end.

Definition setDateToStartOfWeek (date : t) (wkst : option Weekday) : result t :=
  let index := weekday_index wkst date in
  subtract date index (unit day).

Definition setDateToEndOfWeek (date : t) (wkst : option Weekday) : result t :=
  let index := weekday_index wkst date in
  add date (6 - index) (unit day).

(** [granularity(granularity, opt)] with every granularity; the two
    [switch] statements fall through from the coarser to the finer
    unit. *)
Definition granularity (this : t) (g : AddUnit) (weekStart : option Weekday)
    : result t :=
  date ← forkDateTime this (Some (date this));
  date ← match g with
          | unit year => date ← set date month 1; set date day 1
          | unit month => set date day 1
          | week => setDateToStartOfWeek date weekStart
          | _ => Ok date
          end;
  date ← match g with
          | unit year | unit month | week | unit day => set date hour 0
          | _ => Ok date
          end;
  date ← match g with
          | unit year | unit month | week | unit day | unit hour => set date minute 0
          | _ => Ok date
          end;
  date ← match g with
          | unit millisecond | unit second => Ok date
          | _ => set date second 0
          end;
  match g with
  | unit millisecond => Ok date
  | _ => set date millisecond 0
  end.

(** [set('day', monthLength(...))]: an [undefined] length makes the
    date [NaN]. *)
Definition set_day_to (date : t) (length : option Z) : result t :=
  match length with
  | Some length => set date day length
  | None => Throw InvalidDateTimeError
  end.

(** [endGranularity(granularity, opt)]. *)
Definition endGranularity (this : t) (g : AddUnit) (weekStart : option Weekday)
    : result t :=
  date ← forkDateTime this (Some (date this));
  date ← match g with
          | unit year =>
              date ← set date month 12;
              set_day_to date (monthLength (get date month) (get date year))
          | unit month =>
              set_day_to date (monthLength (get date month) (get date year))
          | week => setDateToEndOfWeek date weekStart
          | _ => Ok date
          end;
  date ← match g with
          | unit year | unit month | week | unit day => set date hour 23
          | _ => Ok date
          end;
  date ← match g with
          | unit year | unit month | week | unit day | unit hour => set date minute 59
          | _ => Ok date
          end;
  date ← match g with
          | unit millisecond | unit second => Ok date
          | _ => set date second 59
          end;
  match g with
  | unit millisecond => Ok date
  | _ => set date millisecond 999
  end.

(** [DateAdapter.JSON]. *)
Record JSON : Type := mkJSON {
  json_timezone : option string;
  json_duration : option Z;
  json_year : Z;
  json_month : Z;
  json_day : Z;
  json_hour : Z;
  json_minute : Z;
  json_second : Z;
  json_millisecond : Z;
}.

(** [toJSON()]: [duration] is only written when it is not 0. *)
Definition toJSON (this : t) : JSON :=
  mkJSON (timezone this)
    (if duration this =? 0 then None else Some (duration this))
    (get this year) (get this month) (get this day) (get this hour)
    (get this minute) (get this second) (get this millisecond).

(** [DateTime.fromJSON(json)] on a [JSON] object. *)
Definition fromJSON (json : JSON) : result t :=
  DateTime.fromJSON (json_timezone json) (json_duration json)
    (json_year json) (json_month json) (json_day json) (json_hour json)
    (json_minute json) (json_second json) (json_millisecond json).

(** [isOccurring(object)]. *)
Definition isOccurring (this : t) (object : option t) : result bool :=
  if duration this =? 0 then Throw PlainError
  else
    _ ← assertSameTimeZone this object;
    o ← from_option Ok (Throw TypeError) object;
    after ← isAfterOrEqual o (Some this);
    if after : bool then
      end_ ← add this (duration this) (unit millisecond);
      isBeforeOrEqual o (Some end_)
    else Ok false.

End CoreDateTime.

(** ** [ScheduleBase#_run] ([packages/core/src/generators/schedule-base.ts]) *)

(** The iterator that [occurrenceStream._run(args)] returns, as
    [ScheduleBase] uses it: [iterator.next(yieldArgs)] throws, or gives
    the next value ([None] for the [undefined] of an iterator that is
    done) and leaves the iterator in a new state. *)
Class IterableIterator : Type := {
  Iterator : Type;
  next : Iterator -> Reply -> result (option DateTime.t * Iterator);
}.

Module ScheduleBase.
Section Run.
Context `{DateAdapterCtor} `{IterableIterator}.

(** The fields of a schedule that [_run] reads: its time zone, the
    [_run] of its abstract [occurrenceStream], and the object itself. *)
Record t : Type := mk {
  timezone : option string;
  occurrenceStream : IRunArgs.t -> Iterator;
  this_ref : GeneratorRef;
}.

(** The [while (date && (count === undefined || count > index))] loop,
    driven by the consumer's replies. *)
Fixpoint run_loop (this : t) (count : option Z) (replies : list Reply)
    (iterator : Iterator) (date : option DateTime.t) (index : Z) : Trace :=
  match date with
  | None => ([], Finished)
  | Some date =>
      if match count with
         | None => true
         | Some count => count >? index
         end
      then
        match
          date ← DateTime.add_generator date (this_ref this);
          normalizeRunOutput (timezone this) date
        with
        | Throw e => ([], Raised e)
        | Ok out =>
            match replies with
            | [] => ([out], Suspended)
            | yieldArgs :: replies =>
                match next iterator yieldArgs with
                | Throw e => ([out], Raised e)
                | Ok (date, iterator) =>
                    yielded out (run_loop this count replies iterator date (index + 1))
                end
            end
        end
      else ([], Finished)
  end.

(** [_run(args)], consumed with the given replies. *)
Definition _run (this : t) (args : IRunArgs.t) (replies : list Reply) : Trace :=
  let count := IRunArgs.take args in
  (* delete args.take *)
  let args :=
    IRunArgs.mk (IRunArgs.start args) (IRunArgs.end_ args) None (IRunArgs.reverse args) in
  let iterator := occurrenceStream this args in
  match next iterator None with
  | Throw e => ([], Raised e)
  | Ok (date, iterator) => run_loop this count replies iterator date 0
  end.

End Run.
End ScheduleBase.

(** ** The getters and [filter] of [Dates] ([packages/core/src/generators/dates.ts]) *)

Module DatesObject.
Section Objects.
Context `{Environment}.
Import Store.

(** [get length()]. *)
Definition Dates_length (this : loc) : M nat :=
  bind (read_dates this) (fun self => ret (length (dates_adapters self))).

(** [get firstDate()]: [this.adapters[0] || null]. *)
Definition Dates_firstDate (this : loc) : M (option Adapter) :=
  bind (read_dates this) (fun self => ret (head (dates_adapters self))).

(** [get lastDate()]: [this.adapters[this.length - 1] || null]. *)
Definition Dates_lastDate (this : loc) : M (option Adapter) :=
  bind (read_dates this) (fun self =>
  ret (match length (dates_adapters self) with
       | O => None
       | S n => dates_adapters self !! n
       end)).

(** [array.filter(fn)]: the callback gets the element, its index and
    the array. *)
Fixpoint filter_from {A : Type} (fn : A -> nat -> list A -> bool) (array : list A)
    (index : nat) (rest : list A) : list A :=
  match rest with
  | [] => []
  | x :: rest =>
      if fn x index array then x :: filter_from fn array (S index) rest
      else filter_from fn array (S index) rest
  end.

Definition Dates_filter (this : loc) (fn : Adapter -> nat -> list Adapter -> bool)
    : M loc :=
  bind (read_dates this) (fun self =>
  let adapters := dates_adapters self in
  new_Dates (Some (map input_of_adapter (filter_from fn adapters 0 adapters)))
    (dates_timezone self) (dates_data self) None).

End Objects.
End DatesObject.

(** * Properties *)

Example epoch_fields :
  JsDate.YearFromTime 0 = 1970 /\ JsDate.MonthFromTime 0 = 0 /\
  JsDate.DateFromTime 0 = 1 /\ JsDate.WeekDay 0 = 4.
Proof. repeat split; reflexivity. Qed.

Example utc_20190101 :
  JsDate.UTC 2019 0 1 1 1 1 1 = Some 1546304461001.
Proof. reflexivity. Qed.

Example set_month_jan31_to_feb :
  (d ← DateTime.fromJSON None None 2019 1 31 10 20 30 400;
   d' ← DateTime.set d DateTime.month 2;
   Ok (DateTime.get d' <$> [DateTime.year; DateTime.month; DateTime.day;
                            DateTime.hour]))
  = Ok [2019; 2; 28; 10].
Proof. reflexivity. Qed.

(** ** Facts about the [Date] built-ins *)

Module JsDateFacts.
Import JsDate.

(** *** Checking a property on a block of consecutive integers *)

Fixpoint check_block (n : nat) (p : Z -> bool) (lo : Z) : bool :=
  match n with
  | O => p lo
  | S k => check_block k p lo && check_block k p (lo + 2 ^ Z.of_nat k)
  end.

Lemma check_block_spec n p : forall lo,
  check_block n p lo = true -> forall d, lo <= d < lo + 2 ^ Z.of_nat n -> p d = true.
Proof.
  induction n as [|k IH]; intros lo H d Hd.
  - simpl in *. replace d with lo by lia. exact H.
  - cbn [check_block] in H. apply andb_prop in H as [H1 H2].
    rewrite Nat2Z.inj_succ, Z.pow_succ_r in Hd by lia.
    destruct (Z_lt_ge_dec d (lo + 2 ^ Z.of_nat k)).
    + apply (IH lo); [exact H1|lia].
    + apply (IH (lo + 2 ^ Z.of_nat k)); [exact H2|lia].
Qed.

(** Every integer is a multiple of 400 away from the block [0, 512). *)
Lemma cycle_400 (y : Z) : exists k r, y = r + 400 * k /\ 0 <= r < 2 ^ 9.
Proof.
  exists (y / 400), (y mod 400).
  pose proof (Z.mod_pos_bound y 400). pose proof (Z.div_mod y 400). lia.
Qed.

(** *** Years *)

Lemma DayFromYear_shift y k : DayFromYear (y + 400 * k) = DayFromYear y + 146097 * k.
Proof.
  unfold DayFromYear.
  replace (y + 400 * k - 1969) with (y - 1969 + (100 * k) * 4) by lia.
  replace (y + 400 * k - 1901) with (y - 1901 + (4 * k) * 100) by lia.
  replace (y + 400 * k - 1601) with (y - 1601 + k * 400) by lia.
  rewrite !Z.div_add by lia. lia.
Qed.

Lemma mod_shift_400 y k m : (m | 400) -> m <> 0 -> (y + 400 * k) mod m = y mod m.
Proof.
  intros [c Hc] Hm. replace (400 * k) with ((c * k) * m) by (rewrite Hc; ring).
  apply Z_mod_plus_full.
Qed.

Lemma DaysInYear_shift y k : DaysInYear (y + 400 * k) = DaysInYear y.
Proof.
  unfold DaysInYear.
  rewrite (mod_shift_400 y k 4) by (try (exists 100; reflexivity); lia).
  rewrite (mod_shift_400 y k 100) by (try (exists 4; reflexivity); lia).
  rewrite (mod_shift_400 y k 400) by (try (exists 1; reflexivity); lia).
  reflexivity.
Qed.

Lemma DaysInYear_cases y : DaysInYear y = 365 \/ DaysInYear y = 366.
Proof.
  unfold DaysInYear.
  repeat match goal with |- context [negb ?b] => destruct b; cbn [negb] end; auto.
Qed.

Lemma DayFromYear_succ y : DayFromYear (y + 1) = DayFromYear y + DaysInYear y.
Proof.
  destruct (cycle_400 y) as (k & r & -> & Hr).
  replace (r + 400 * k + 1) with (r + 1 + 400 * k) by lia.
  rewrite !DayFromYear_shift, DaysInYear_shift.
  assert (H : check_block 9
            (fun r => DayFromYear (r + 1) =? DayFromYear r + DaysInYear r) 0 = true)
    by (vm_compute; reflexivity).
  pose proof (check_block_spec _ _ _ H r Hr) as E. cbv beta in E.
  apply Z.eqb_eq in E. lia.
Qed.

Lemma DayFromYear_lt y y' : y < y' -> DayFromYear y < DayFromYear y'.
Proof.
  intros H. replace y' with (y + 1 + (y' - y - 1)) by lia.
  assert (Hn : 0 <= y' - y - 1) by lia. revert Hn.
  generalize (y' - y - 1). apply natlike_ind.
  - rewrite Z.add_0_r, DayFromYear_succ. pose proof (DaysInYear_cases y). lia.
  - intros n Hn IH. replace (y + 1 + Z.succ n) with (y + 1 + n + 1) by lia.
    rewrite DayFromYear_succ. pose proof (DaysInYear_cases (y + 1 + n)). lia.
Qed.

Lemma DayFromYear_le y y' : y <= y' -> DayFromYear y <= DayFromYear y'.
Proof.
  intros H. destruct (Z.eq_dec y y') as [->|]; [lia|].
  apply Z.lt_le_incl, DayFromYear_lt. lia.
Qed.

(** The estimate used by [YearFromDay] is never off by more than one year. *)
Lemma year_estimate q :
  400 * DayFromYear (1969 + q) <= 146097 * q /\
  146097 * (q + 1) <= 400 * DayFromYear (1972 + q).
Proof.
  destruct (cycle_400 q) as (k & r & -> & Hr).
  replace (1969 + (r + 400 * k)) with (1969 + r + 400 * k) by lia.
  replace (1972 + (r + 400 * k)) with (1972 + r + 400 * k) by lia.
  rewrite !DayFromYear_shift.
  assert (H : check_block 9
            (fun r => (400 * DayFromYear (1969 + r) <=? 146097 * r) &&
                      (146097 * (r + 1) <=? 400 * DayFromYear (1972 + r))) 0 = true)
    by (vm_compute; reflexivity).
  pose proof (check_block_spec _ _ _ H r Hr) as E. cbv beta in E.
  apply andb_prop in E as [E1 E2]. apply Z.leb_le in E1, E2. lia.
Qed.

Lemma YearFromDay_spec d :
  DayFromYear (YearFromDay d) <= d < DayFromYear (YearFromDay d + 1).
Proof.
  unfold YearFromDay. cbv zeta.
  set (q := 400 * d / 146097).
  assert (Hq : 146097 * q <= 400 * d < 146097 * (q + 1)).
  { subst q. pose proof (Z.mod_pos_bound (400 * d) 146097).
    pose proof (Z.div_mod (400 * d) 146097). lia. }
  destruct (year_estimate q) as [A B].
  replace (1969 + q) with (1970 + q - 1) in A by lia.
  replace (1972 + q) with (1970 + q + 1 + 1) in B by lia.
  destruct (Z.ltb_spec d (DayFromYear (1970 + q))).
  - replace (1970 + q - 1 + 1) with (1970 + q) by lia. lia.
  - destruct (Z.leb_spec (DayFromYear (1970 + q + 1)) d); lia.
Qed.

Lemma YearFromDay_unique d y :
  DayFromYear y <= d < DayFromYear (y + 1) -> YearFromDay d = y.
Proof.
  intros H. pose proof (YearFromDay_spec d) as S.
  destruct (Z.lt_trichotomy (YearFromDay d) y) as [L|[E|G]]; [|exact E|].
  - assert (DayFromYear (YearFromDay d + 1) <= DayFromYear y) by (apply DayFromYear_le; lia).
    lia.
  - assert (DayFromYear (y + 1) <= DayFromYear (YearFromDay d)) by (apply DayFromYear_le; lia).
    lia.
Qed.

(** [YearFromTime] is the year of ECMA-262: the largest [y] with
    [TimeFromYear y <= t]. *)
Lemma YearFromDay_largest t :
  TimeFromYear (YearFromTime t) <= t /\
  forall y, TimeFromYear y <= t -> y <= YearFromTime t.
Proof.
  unfold TimeFromYear, YearFromTime, Day.
  pose proof (YearFromDay_spec (t / msPerDay)) as [S1 S2].
  pose proof (Z.mod_pos_bound t msPerDay ltac:(reflexivity)).
  pose proof (Z.div_mod t msPerDay ltac:(discriminate)).
  split; [unfold msPerDay in *; lia|].
  intros y Hy.
  destruct (Z_le_gt_dec y (YearFromDay (t / msPerDay))) as [|G]; [assumption|].
  assert (DayFromYear (YearFromDay (t / msPerDay) + 1) <= DayFromYear y)
    by (apply DayFromYear_le; lia).
  unfold msPerDay in *; lia.
Qed.


(** *** Calendar fields *)

Definition leap (y : Z) : Z := if DaysInYear y =? 366 then 1 else 0.

Lemma isLeapYear_shift y k :
  DateTime.isLeapYear (y + 400 * k) = DateTime.isLeapYear y.
Proof.
  unfold DateTime.isLeapYear.
  rewrite (mod_shift_400 y k 4) by (try (exists 100; reflexivity); lia).
  rewrite (mod_shift_400 y k 100) by (try (exists 4; reflexivity); lia).
  rewrite (mod_shift_400 y k 400) by (try (exists 1; reflexivity); lia).
  reflexivity.
Qed.

Lemma DaysInYear_isLeapYear y :
  DaysInYear y = if DateTime.isLeapYear y then 366 else 365.
Proof.
  destruct (cycle_400 y) as (k & r & -> & Hr).
  rewrite DaysInYear_shift, isLeapYear_shift.
  assert (H : check_block 9
            (fun r => DaysInYear r =? if DateTime.isLeapYear r then 366 else 365) 0 = true)
    by (vm_compute; reflexivity).
  pose proof (check_block_spec _ _ _ H r Hr) as E. cbv beta in E.
  apply Z.eqb_eq in E. exact E.
Qed.

Lemma leap_isLeapYear y : leap y = if DateTime.isLeapYear y then 1 else 0.
Proof.
  unfold leap. rewrite DaysInYear_isLeapYear.
  destruct (DateTime.isLeapYear y); reflexivity.
Qed.

Lemma month_index_cases mn :
  0 <= mn <= 11 ->
  mn = 0 \/ mn = 1 \/ mn = 2 \/ mn = 3 \/ mn = 4 \/ mn = 5 \/ mn = 6 \/
  mn = 7 \/ mn = 8 \/ mn = 9 \/ mn = 10 \/ mn = 11.
Proof. lia. Qed.

Ltac month_cases H :=
  let C := fresh "C" in
  pose proof (month_index_cases _ H) as C;
  repeat (destruct C as [C|C]); subst.

Lemma MakeDay_in_year y mn dt :
  0 <= mn <= 11 ->
  MakeDay y mn dt = DayFromYear y + DaysBeforeMonth mn (leap y) + dt - 1.
Proof.
  intros H. unfold MakeDay. cbv zeta.
  rewrite (Z.div_small mn 12), (Z.mod_small mn 12), Z.add_0_r by lia.
  reflexivity.
Qed.

(** Months past December carry into the following years. *)
Lemma MakeDay_carry y mn dt : MakeDay y (mn + 12) dt = MakeDay (y + 1) mn dt.
Proof.
  unfold MakeDay. cbv zeta.
  replace (mn + 12) with (mn + 1 * 12) by lia.
  rewrite Z.div_add, Z_mod_plus_full by lia.
  replace (y + (mn / 12 + 1)) with (y + 1 + mn / 12) by lia. reflexivity.
Qed.

(** [monthLength] is the difference of consecutive month offsets. *)
Lemma monthLength_offsets y mn len :
  0 <= mn <= 11 ->
  DateTime.monthLength (mn + 1) y = Some len ->
  DaysBeforeMonth mn (leap y) + len =
    if mn =? 11 then DaysInYear y else DaysBeforeMonth (mn + 1) (leap y).
Proof.
  intros H. rewrite leap_isLeapYear, DaysInYear_isLeapYear.
  unfold DateTime.getDaysInFebruary, DateTime.monthLength.
  month_cases H; cbn; unfold DateTime.getDaysInFebruary;
    destruct (DateTime.isLeapYear y); intros [= <-]; reflexivity.
Qed.

Lemma monthLength_some y mn :
  0 <= mn <= 11 -> exists len, DateTime.monthLength (mn + 1) y = Some len /\ 28 <= len <= 31.
Proof.
  intros H. unfold DateTime.monthLength, DateTime.getDaysInFebruary.
  month_cases H; cbn; destruct (DateTime.isLeapYear y); eexists; (split; [reflexivity|lia]).
Qed.

Lemma leap_cases y : leap y = 0 \/ leap y = 1.
Proof. unfold leap. destruct (_ =? _); auto. Qed.

Lemma DaysInYear_leap y : DaysInYear y = 365 + leap y.
Proof.
  unfold leap. destruct (DaysInYear_cases y) as [E|E]; rewrite E; reflexivity.
Qed.

(** A valid calendar date and time of day, and its time value. *)
Definition civil (t y mn dt tod : Z) : Prop :=
  0 <= mn <= 11 /\
  (exists len, DateTime.monthLength (mn + 1) y = Some len /\ 1 <= dt <= len) /\
  0 <= tod < msPerDay /\
  t = MakeDate (MakeDay y mn dt) tod.

Lemma Day_MakeDate d tod : 0 <= tod < msPerDay -> Day (MakeDate d tod) = d.
Proof.
  intros H. unfold Day, MakeDate.
  rewrite Z.add_comm, Z.div_add by (unfold msPerDay; lia).
  rewrite Z.div_small by lia. reflexivity.
Qed.

Lemma TimeWithinDay_MakeDate d tod :
  0 <= tod < msPerDay -> TimeWithinDay (MakeDate d tod) = tod.
Proof.
  intros H. unfold TimeWithinDay, MakeDate.
  rewrite Z.add_comm, Z_mod_plus_full. apply Z.mod_small, H.
Qed.

Lemma MakeDate_Day t : MakeDate (Day t) (TimeWithinDay t) = t.
Proof.
  unfold MakeDate, Day, TimeWithinDay.
  pose proof (Z.div_mod t msPerDay ltac:(discriminate)). lia.
Qed.

Lemma TimeWithinDay_bound t : 0 <= TimeWithinDay t < msPerDay.
Proof. apply Z.mod_pos_bound. reflexivity. Qed.

Lemma civil_day_bounds y mn dt len :
  0 <= mn <= 11 ->
  DateTime.monthLength (mn + 1) y = Some len -> 1 <= dt <= len ->
  DayFromYear y + DaysBeforeMonth mn (leap y) <= MakeDay y mn dt
    < DayFromYear y + DaysBeforeMonth mn (leap y) + len /\
  DayFromYear y <= MakeDay y mn dt < DayFromYear (y + 1).
Proof.
  intros Hm Hl Hd. rewrite MakeDay_in_year by assumption.
  pose proof (monthLength_offsets _ _ _ Hm Hl) as O.
  rewrite DayFromYear_succ, DaysInYear_leap in *.
  pose proof (leap_cases y) as [L|L]; rewrite L in *;
    month_cases Hm; simpl in O; cbn; lia.
Qed.

Lemma civil_fields t y mn dt tod :
  civil t y mn dt tod ->
  YearFromTime t = y /\ MonthFromTime t = mn /\ DateFromTime t = dt /\
  TimeWithinDay t = tod /\ Day t = MakeDay y mn dt.
Proof.
  intros (Hm & (len & Hl & Hd) & Ht & ->).
  pose proof (civil_day_bounds _ _ _ _ Hm Hl Hd) as [B1 B2].
  pose proof (monthLength_offsets _ _ _ Hm Hl) as O.
  assert (Y : YearFromTime (MakeDate (MakeDay y mn dt) tod) = y).
  { unfold YearFromTime. rewrite Day_MakeDate by assumption.
    apply YearFromDay_unique, B2. }
  assert (M : MonthFromTime (MakeDate (MakeDay y mn dt) tod) = mn).
  { unfold MonthFromTime, DayWithinYear, InLeapYear. rewrite Y, Day_MakeDate by assumption.
    fold (leap y). rewrite DaysInYear_leap in O.
    unfold MonthFromDayWithinYear.
    pose proof (leap_cases y) as [L|L]; rewrite L in *;
      month_cases Hm; simpl in O; cbn in B1 |- *;
      repeat match goal with
             | |- context [?a <? ?b] => destruct (Z.ltb_spec a b); try lia
             end; reflexivity. }
  repeat split; try assumption.
  - unfold DateFromTime. rewrite M. unfold DayWithinYear, InLeapYear.
    rewrite Y, Day_MakeDate by assumption. fold (leap y).
    rewrite MakeDay_in_year by assumption. lia.
  - apply TimeWithinDay_MakeDate, Ht.
  - apply Day_MakeDate, Ht.
Qed.

Lemma MonthFromDayWithinYear_spec dwy l :
  0 <= dwy < 365 + l -> (l = 0 \/ l = 1) ->
  let mn := MonthFromDayWithinYear dwy l in
  0 <= mn <= 11 /\
  DaysBeforeMonth mn l <= dwy <
    (if mn =? 11 then 365 + l else DaysBeforeMonth (mn + 1) l).
Proof.
  intros H L. unfold MonthFromDayWithinYear.
  repeat match goal with
         | |- context [?a <? ?b] => destruct (Z.ltb_spec a b)
         end; destruct L; subst; simpl; lia.
Qed.

Lemma civil_exists t :
  civil t (YearFromTime t) (MonthFromTime t) (DateFromTime t) (TimeWithinDay t).
Proof.
  pose proof (YearFromDay_spec (Day t)) as S. fold (YearFromTime t) in S.
  rewrite DayFromYear_succ, DaysInYear_leap in S.
  set (y := YearFromTime t) in *.
  assert (D : 0 <= DayWithinYear t < 365 + leap y) by (unfold DayWithinYear; fold y; lia).
  pose proof (MonthFromDayWithinYear_spec _ _ D (leap_cases y)) as [Hm Hb].
  cbv zeta in Hm, Hb.
  assert (EM : MonthFromTime t = MonthFromDayWithinYear (DayWithinYear t) (leap y)) by reflexivity.
  rewrite <- EM in Hm, Hb.
  destruct (monthLength_some y _ Hm) as (len & Hl & _).
  pose proof (monthLength_offsets _ _ _ Hm Hl) as O. rewrite DaysInYear_leap in O.
  assert (ED : DateFromTime t =
               DayWithinYear t - DaysBeforeMonth (MonthFromTime t) (leap y) + 1) by reflexivity.
  split; [exact Hm|]. split; [|split; [apply TimeWithinDay_bound|]].
  - exists len. split; [exact Hl|]. rewrite ED.
    destruct (MonthFromTime t =? 11); lia.
  - rewrite MakeDay_in_year by assumption. rewrite ED. unfold DayWithinYear. fold y.
    rewrite <- (MakeDate_Day t) at 1. f_equal. lia.
Qed.

End JsDateFacts.

(** ** Facts about [DateTime] *)

Module DateTimeFacts.
Import JsDate JsDateFacts.

(** The years all of whose instants are time values of a [Date]
    (the range of [TimeClip] ends inside the years -271821 and 275760). *)
Definition year_in_range (y : Z) : Prop := -271820 <= y <= 275759.

(** What the constructor establishes for every [DateTime]. *)
Definition wf (d : DateTime.t) : Prop :=
  0 <= DateTime.duration d /\
  DateTime.timezone d <> Some EmptyString /\
  Z.abs (DateTime.date d) <= maxTime.

(** The length of a month as the specification words it: February has
    29 days exactly in the years divisible by 400, or by 4 and not by
    100. *)
Definition days_in_month (m y : Z) : Z :=
  match m with
  | 2 => if (y mod 400 =? 0) || ((y mod 4 =? 0) && negb (y mod 100 =? 0))
         then 29 else 28
  | 4 | 6 | 9 | 11 => 30
  | _ => 31
  end.

Lemma monthLength_days_in_month m y :
  1 <= m <= 12 -> DateTime.monthLength m y = Some (days_in_month m y).
Proof.
  intros Hm. assert (Hm' : 0 <= m - 1 <= 11) by lia.
  pose proof (month_index_cases _ Hm') as C.
  repeat (destruct C as [C|C]); replace m with (m - 1 + 1) by lia; rewrite C; reflexivity.
Qed.

Lemma new_ok v tz dur gens :
  0 <= dur -> tz <> Some EmptyString -> Z.abs v <= maxTime ->
  DateTime.new (Some v) tz (Some dur) gens
  = Ok (DateTime.mk v tz dur (default [] gens)) /\
  wf (DateTime.mk v tz dur (default [] gens)).
Proof.
  intros Hd Htz Hv. unfold DateTime.new.
  change (default 0 (Some dur)) with dur.
  destruct (Z.ltb_spec dur 0); [lia|].
  split; [|repeat split; assumption].
  destruct tz as [[|]|]; try reflexivity. congruence.
Qed.

Lemma new_wf date tz dur gens d :
  (forall v, date = Some v -> Z.abs v <= maxTime) ->
  DateTime.new date tz dur gens = Ok d -> wf d.
Proof.
  intros Hv. unfold DateTime.new.
  destruct (Z.ltb_spec (default 0 dur) 0); [discriminate|].
  destruct date as [v|]; [|discriminate]. intros [= <-].
  repeat split; cbn; [assumption| |auto].
  destruct tz as [[|]|]; congruence.
Qed.

Lemma TimeClip_Some t v : TimeClip t = Some v -> v = t /\ Z.abs t <= maxTime.
Proof.
  unfold TimeClip. destruct (Z.gtb_spec (Z.abs t) maxTime); [discriminate|].
  intros [= <-]. split; [reflexivity|lia].
Qed.

Lemma TimeClip_in t : Z.abs t <= maxTime -> TimeClip t = Some t.
Proof.
  intros H. unfold TimeClip. destruct (Z.gtb_spec (Z.abs t) maxTime); [lia|reflexivity].
Qed.

Lemma forkDateTime_ok d v :
  wf d -> Z.abs v <= maxTime ->
  DateTime.forkDateTime d (Some v)
  = Ok (DateTime.mk v (DateTime.timezone d) (DateTime.duration d) []) /\
  wf (DateTime.mk v (DateTime.timezone d) (DateTime.duration d) []).
Proof.
  intros (Hd & Htz & _) Hv. unfold DateTime.forkDateTime.
  apply (new_ok v _ _ None); assumption.
Qed.

Lemma range_ends :
  -100000000 <= DayFromYear (-271820) /\ DayFromYear (275759 + 1) <= 100000000.
Proof. split; vm_compute; discriminate. Qed.

Lemma civil_in_range t y mn dt tod :
  civil t y mn dt tod -> year_in_range y -> Z.abs t <= maxTime.
Proof.
  intros C [Y1 Y2]. pose proof C as (Hm & (len & Hl & Hd) & Ht & ->).
  pose proof (civil_day_bounds _ _ _ _ Hm Hl Hd) as [_ B].
  pose proof (DayFromYear_le _ _ Y1). 
  assert (DayFromYear (y + 1) <= DayFromYear (275759 + 1)) by (apply DayFromYear_le; lia).
  pose proof range_ends. unfold MakeDate, maxTime, msPerDay in *. lia.
Qed.

(** The time of day of a time value determines its clock fields. *)
Lemma clock_fields t :
  HourFromTime t = TimeWithinDay t / msPerHour /\
  MinFromTime t = (TimeWithinDay t / msPerMinute) mod 60 /\
  SecFromTime t = (TimeWithinDay t / msPerSecond) mod 60 /\
  msFromTime t = TimeWithinDay t mod msPerSecond.
Proof.
  unfold HourFromTime, MinFromTime, SecFromTime, msFromTime, TimeWithinDay,
    msPerDay, msPerHour, msPerMinute, msPerSecond.
  repeat split; Z.div_mod_to_equations; lia.
Qed.

Lemma clock_fields_eq t t' :
  TimeWithinDay t' = TimeWithinDay t ->
  HourFromTime t' = HourFromTime t /\ MinFromTime t' = MinFromTime t /\
  SecFromTime t' = SecFromTime t /\ msFromTime t' = msFromTime t.
Proof.
  intros E. pose proof (clock_fields t) as (-> & -> & -> & ->).
  pose proof (clock_fields t') as (-> & -> & -> & ->). rewrite E. auto.
Qed.

Lemma setUTCMonth_civil t y mn dt tod m' len :
  civil t y mn dt tod -> 0 <= m' <= 11 ->
  DateTime.monthLength (m' + 1) y = Some len -> dt <= len -> year_in_range y ->
  let t' := MakeDate (MakeDay y m' dt) tod in
  setUTCMonth (Some t) m' None = Some t' /\ civil t' y m' dt tod.
Proof.
  intros C Hm' Hl Hd Hy t'.
  pose proof (civil_fields _ _ _ _ _ C) as (Y & M & D & T & _).
  assert (C' : civil t' y m' dt tod).
  { destruct C as (_ & (len0 & _ & Hd0) & Ht & _).
    split; [assumption|]. split; [exists len; split; [assumption|lia]|]. split; [assumption|reflexivity]. }
  split; [|exact C'].
  unfold setUTCMonth. cbn. rewrite Y, D, T. apply TimeClip_in.
  eapply civil_in_range; eassumption.
Qed.

Lemma setUTCDate_civil t y mn dt tod dt' len :
  civil t y mn dt tod ->
  DateTime.monthLength (mn + 1) y = Some len -> 1 <= dt' <= len -> year_in_range y ->
  let t' := MakeDate (MakeDay y mn dt') tod in
  setUTCDate (Some t) dt' = Some t' /\ civil t' y mn dt' tod.
Proof.
  intros C Hl Hd Hy t'.
  pose proof (civil_fields _ _ _ _ _ C) as (Y & M & D & T & _).
  assert (C' : civil t' y mn dt' tod).
  { destruct C as (Hm & _ & Ht & _).
    split; [assumption|]. split; [exists len; split; assumption|]. split; [assumption|reflexivity]. }
  split; [|exact C'].
  unfold setUTCDate. cbn. rewrite Y, M, T. apply TimeClip_in.
  eapply civil_in_range; eassumption.
Qed.

(** The last day of a month is the day before the first of the next. *)
Lemma day_before_first y mn len tod :
  0 <= mn <= 10 -> DateTime.monthLength (mn + 1) y = Some len ->
  MakeDate (MakeDay y (mn + 1) 1) tod + - (1) * DateTime.MILLISECONDS_IN_DAY
  = MakeDate (MakeDay y mn len) tod.
Proof.
  intros Hm Hl.
  pose proof (monthLength_offsets y mn len ltac:(lia) Hl) as O.
  destruct (Z.eqb_spec mn 11); [lia|].
  rewrite !MakeDay_in_year by lia. unfold MakeDate, msPerDay. 
  change DateTime.MILLISECONDS_IN_DAY with 86400000. lia.
Qed.

(** [set('month', m)] on a date whose year lies in the range. *)
Lemma set_month_civil d y mn dt tod m :
  wf d -> civil (DateTime.date d) y mn dt tod -> 1 <= m <= 12 -> year_in_range y ->
  let dt' := Z.min dt (days_in_month m y) in
  let t' := MakeDate (MakeDay y (m - 1) dt') tod in
  DateTime.set d DateTime.month m
  = Ok (DateTime.mk t' (DateTime.timezone d) (DateTime.duration d) []) /\
  wf (DateTime.mk t' (DateTime.timezone d) (DateTime.duration d) []) /\
  civil t' y (m - 1) dt' tod.
Proof.
  intros W C Hm Hy dt' t'.
  pose proof (civil_fields _ _ _ _ _ C) as (Y & M & D & T & _).
  pose proof (monthLength_days_in_month m y Hm) as L.
  pose proof C as (Hmn & (len0 & Hl0 & Hd0) & Htod & _).
  destruct (monthLength_some y (m - 1) ltac:(lia)) as (len & Hl & Hlen).
  replace (m - 1 + 1) with m in Hl by lia.
  assert (len = days_in_month m y) by congruence. subst len.
  unfold DateTime.set. rewrite Y, D, L. cbn [from_option].
  destruct (Z.gtb_spec dt (days_in_month m y)) as [G|G].
  - (* the day does not fit: first of the next month, minus one day *)
    assert (Hm11 : m <= 11).
    { destruct (Z.eq_dec m 12) as [->|]; [|lia]. cbn in G. 
      assert (len0 <= 31); [|lia].
      destruct (monthLength_some y mn Hmn) as (l' & Hl' & ?).
      assert (len0 = l') by congruence. lia. }
    destruct (setUTCDate_civil _ _ _ _ _ 1 _ C Hl0 ltac:(lia) Hy) as [E1 C1].
    rewrite E1.
    destruct (monthLength_some y m ltac:(lia)) as (lenm & Hlm & ?).
    destruct (setUTCMonth_civil _ _ _ _ _ m _ C1 ltac:(lia) Hlm ltac:(lia) Hy) as [E2 C2].
    rewrite E2.
    unfold DateTime.subUTCDays, DateTime.addUTCDays, DateTime.addUTCMilliseconds,
      DateTime.toInteger, getTime, ofNumber. cbn [mbind option_bind].
    replace (MakeDay y m 1) with (MakeDay y (m - 1 + 1) 1) by (f_equal; lia).
    rewrite (day_before_first y (m - 1) (days_in_month m y) tod) by (try lia; replace (m - 1 + 1) with m by lia; assumption).
    assert (Edt : dt' = days_in_month m y) by (unfold dt'; lia).
    fold t'. rewrite <- Edt. 
    assert (C' : civil (MakeDate (MakeDay y (m - 1) dt') tod) y (m - 1) dt' tod).
    { split; [lia|]. split; [|split; [assumption|reflexivity]].
      exists (days_in_month m y). replace (m - 1 + 1) with m by lia. split; [assumption|lia]. }
    pose proof (civil_in_range _ _ _ _ _ C' Hy) as R.
    rewrite (TimeClip_in _ R).
    destruct (forkDateTime_ok d _ W R) as [F1 F2]. exact (conj F1 (conj F2 C')).
  - assert (Edt : dt' = dt) by (unfold dt'; lia).
    destruct (setUTCMonth_civil _ _ _ _ _ (m - 1) (days_in_month m y) C ltac:(lia)
                ltac:(replace (m - 1 + 1) with m by lia; assumption) ltac:(lia) Hy) as [E2 C2].
    rewrite E2. rewrite <- Edt in C2 |- *. fold t' in C2 |- *.
    pose proof (civil_in_range _ _ _ _ _ C2 Hy) as R.
    destruct (forkDateTime_ok d _ W R) as [F1 F2]. exact (conj F1 (conj F2 C2)).
Qed.

End DateTimeFacts.

(** ** Comparing instants *)

Module Comparisons.

(** C3.  Comparing two instants whose time zone labels differ raises
    the comparison error ([InvalidDateTimeError], thrown by
    [assertSameTimeZone]) in each of [isEqual], [isBefore],
    [isBeforeOrEqual], [isAfter] and [isAfterOrEqual]; when the labels
    are the same, each comparison returns the comparison of the two
    millisecond time stamps and raises nothing. *)
Theorem comparisons_check_timezone (x y : DateTime.t) :
  (DateTime.timezone x <> DateTime.timezone y ->
     DateTime.isEqual x (Some y) = Throw InvalidDateTimeError /\
     DateTime.isBefore x (Some y) = Throw InvalidDateTimeError /\
     DateTime.isBeforeOrEqual x (Some y) = Throw InvalidDateTimeError /\
     DateTime.isAfter x (Some y) = Throw InvalidDateTimeError /\
     DateTime.isAfterOrEqual x (Some y) = Throw InvalidDateTimeError) /\
  (DateTime.timezone x = DateTime.timezone y ->
     DateTime.isEqual x (Some y) = Ok (DateTime.valueOf x =? DateTime.valueOf y) /\
     DateTime.isBefore x (Some y) = Ok (DateTime.valueOf x <? DateTime.valueOf y) /\
     DateTime.isBeforeOrEqual x (Some y) = Ok (DateTime.valueOf x <=? DateTime.valueOf y) /\
     DateTime.isAfter x (Some y) = Ok (DateTime.valueOf x >? DateTime.valueOf y) /\
     DateTime.isAfterOrEqual x (Some y) = Ok (DateTime.valueOf x >=? DateTime.valueOf y)).
Proof.
  unfold DateTime.isEqual, DateTime.isBefore, DateTime.isBeforeOrEqual,
    DateTime.isAfter, DateTime.isAfterOrEqual, DateTime.assertSameTimeZone.
  split; intros Htz; destruct (decide (DateTime.timezone x = DateTime.timezone y));
    try contradiction; repeat split; reflexivity.
Qed.

Definition utc (v : Z) : DateTime.t := DateTime.mk v (Some "UTC"%string) 0 [].
Definition floating (v : Z) : DateTime.t := DateTime.mk v None 0 [].

Lemma comparisons_check_timezone_witness :
  DateTime.isBefore (utc 5) (Some (floating 7)) = Throw InvalidDateTimeError /\
  DateTime.isBefore (utc 5) (Some (utc 7)) = Ok true.
Proof.
  split.
  - apply (comparisons_check_timezone (utc 5) (floating 7)). discriminate.
  - apply (comparisons_check_timezone (utc 5) (utc 7)). reflexivity.
Defined.

(** C10.  [isEqual] with no argument returns [false] and raises
    nothing, in both versions of [DateTime]: the check for a missing
    argument comes before the time zone check.  It is the only
    comparison with that behaviour: every other comparison raises when
    its argument is absent, and [isEqual] itself raises once an
    argument with another time zone label is present. *)
Theorem isEqual_absent (d : DateTime.t) (l : LibDateTime.t) :
  DateTime.isEqual d None = Ok false /\
  LibDateTime.isEqual l None = Ok false /\
  (forall cmp, 
     In cmp [DateTime.isBefore; DateTime.isBeforeOrEqual; DateTime.isAfter;
             DateTime.isAfterOrEqual] ->
     exists e, cmp d None = Throw e) /\
  (forall cmp,
     In cmp [LibDateTime.isBefore; LibDateTime.isBeforeOrEqual; LibDateTime.isAfter;
             LibDateTime.isAfterOrEqual] ->
     exists e, cmp l None = Throw e) /\
  (exists o, DateTime.isEqual d (Some o) = Throw InvalidDateTimeError) /\
  (exists o, LibDateTime.isEqual l (Some o) = Throw ComparisonError).
Proof.
  split; [reflexivity|]. split; [reflexivity|].
  split; [|split; [|split]].
  - intros cmp Hc. exists TypeError. cbn in Hc.
    repeat (destruct Hc as [<-|Hc]; [reflexivity|]). contradiction.
  - intros cmp Hc. exists TypeError. cbn in Hc.
    repeat (destruct Hc as [<-|Hc]; [reflexivity|]). contradiction.
  - destruct (DateTime.timezone d) as [tz|] eqn:E.
    + exists (DateTime.mk 0 None 0 []). unfold DateTime.isEqual, DateTime.assertSameTimeZone.
      rewrite E. cbn. destruct (decide _); [discriminate|reflexivity].
    + exists (DateTime.mk 0 (Some "UTC"%string) 0 []).
      unfold DateTime.isEqual, DateTime.assertSameTimeZone.
      rewrite E. cbn. destruct (decide _); [discriminate|reflexivity].
  - destruct (LibDateTime.timezone l) as [tz|] eqn:E.
    + exists (LibDateTime.mk 0 None []). unfold LibDateTime.isEqual.
      rewrite E. cbn. destruct (decide _); [discriminate|reflexivity].
    + exists (LibDateTime.mk 0 (Some "UTC"%string) []). unfold LibDateTime.isEqual.
      rewrite E. cbn. destruct (decide _); [discriminate|reflexivity].
Qed.

End Comparisons.

(** ** [set('month', m)] *)

Module SetMonth.
Import JsDate JsDateFacts DateTimeFacts.

(** C4, as the code has it.  For a [DateTime] [d] whose year lies in
    -271820..275759 (the years that are entirely inside the range of
    [Date]) and a month [m] from 1 to 12, [d.set('month', m)] returns a
    [DateTime] in month [m] of the same year, with the day of the month
    of [d] when month [m] has that many days and the last day of month
    [m] otherwise, and with the time of day, the time zone and the
    duration of [d]; February has 29 days exactly when the year is
    divisible by 400, or by 4 and not by 100. *)
Theorem set_month_clamps (d : DateTime.t) (m : Z) :
  wf d -> 1 <= m <= 12 -> year_in_range (DateTime.get d DateTime.year) ->
  exists d',
    DateTime.set d DateTime.month m = Ok d' /\
    DateTime.get d' DateTime.year = DateTime.get d DateTime.year /\
    DateTime.get d' DateTime.month = m /\
    DateTime.get d' DateTime.day =
      (if DateTime.get d DateTime.day <=? days_in_month m (DateTime.get d DateTime.year)
       then DateTime.get d DateTime.day
       else days_in_month m (DateTime.get d DateTime.year)) /\
    DateTime.get d' DateTime.hour = DateTime.get d DateTime.hour /\
    DateTime.get d' DateTime.minute = DateTime.get d DateTime.minute /\
    DateTime.get d' DateTime.second = DateTime.get d DateTime.second /\
    DateTime.get d' DateTime.millisecond = DateTime.get d DateTime.millisecond /\
    DateTime.timezone d' = DateTime.timezone d /\
    DateTime.duration d' = DateTime.duration d.
Proof.
  intros W Hm Hy. cbn [DateTime.get] in *.
  pose proof (civil_exists (DateTime.date d)) as C.
  destruct (set_month_civil d _ _ _ _ m W C Hm Hy) as (E & W' & C').
  cbv zeta in E, W', C'. eexists. split; [exact E|].
  pose proof (civil_fields _ _ _ _ _ C') as (Y & M & D & T & _).
  cbn [DateTime.date DateTime.timezone DateTime.duration].
  destruct (clock_fields_eq (DateTime.date d) _ T) as (-> & -> & -> & ->).
  rewrite Y, M, D.
  repeat split; try reflexivity; try lia.
  destruct (Z.leb_spec (DateFromTime (DateTime.date d))
              (days_in_month m (YearFromTime (DateTime.date d)))); lia.
Qed.

Definition jan31 : DateTime.t := DateTime.mk 1548930030400 None 0 [].

Lemma set_month_clamps_witness :
  exists d',
    DateTime.set jan31 DateTime.month 2 = Ok d' /\
    DateTime.get d' DateTime.year = 2019 /\
    DateTime.get d' DateTime.month = 2 /\
    DateTime.get d' DateTime.day = 28.
Proof.
  destruct (set_month_clamps jan31 2) as (d' & E & Y & M & D & _).
  - repeat split; cbn; [lia|discriminate|]. vm_compute. discriminate.
  - lia.
  - vm_compute. split; discriminate.
  - exists d'. repeat split; assumption.
Defined.

(** The last instant a [Date] can hold: 275760-09-13T00:00:00.000Z. *)
Definition last_instant : DateTime.t := DateTime.mk 8640000000000000 None 0 [].

(** C4 as stated fails at the edge of the range of [Date]: day 13 fits
    into December, but December 275760 is past the last time value, and
    [set] raises [InvalidDateTimeError]. *)
Lemma set_month_past_range :
  wf last_instant /\
  DateTime.get last_instant DateTime.year = 275760 /\
  DateTime.get last_instant DateTime.day = 13 /\
  days_in_month 12 275760 = 31 /\
  DateTime.set last_instant DateTime.month 12 = Throw InvalidDateTimeError.
Proof.
  repeat split; try reflexivity; cbn; try lia; discriminate.
Qed.

End SetMonth.

(** ** The by-month stage *)

Module ByMonthFacts.
Import JsDate JsDateFacts DateTimeFacts.

(** Setting a clock field to 0 keeps the calendar date and zeroes the
    time of day field by field. *)
Lemma set_clock_civil d y mn dt tod (u : DateTime.TimeUnit) :
  wf d -> civil (DateTime.date d) y mn dt tod -> year_in_range y ->
  u = DateTime.hour \/ u = DateTime.minute \/ u = DateTime.second \/
    u = DateTime.millisecond ->
  exists tod',
    DateTime.set d u 0
    = Ok (DateTime.mk (MakeDate (MakeDay y mn dt) tod')
            (DateTime.timezone d) (DateTime.duration d) []) /\
    wf (DateTime.mk (MakeDate (MakeDay y mn dt) tod')
          (DateTime.timezone d) (DateTime.duration d) []) /\
    civil (MakeDate (MakeDay y mn dt) tod') y mn dt tod' /\
    (u = DateTime.hour -> tod' < msPerHour) /\
    (u = DateTime.minute -> tod < msPerHour -> tod' < msPerMinute) /\
    (u = DateTime.second -> tod < msPerMinute -> tod' < msPerSecond) /\
    (u = DateTime.millisecond -> tod < msPerSecond -> tod' = 0).
Proof.
  intros W C Hy Hu.
  pose proof (civil_fields _ _ _ _ _ C) as (_ & _ & _ & T & Dy).
  pose proof (clock_fields (DateTime.date d)) as (Eh & Em & Es & Ems).
  rewrite T in Eh, Em, Es, Ems.
  pose proof C as (Hmn & Hlen & Htod & _).
  set (tod' := match u with
               | DateTime.hour =>
                   MakeTime 0 ((tod / msPerMinute) mod 60) ((tod / msPerSecond) mod 60)
                     (tod mod msPerSecond)
               | DateTime.minute =>
                   MakeTime (tod / msPerHour) 0 ((tod / msPerSecond) mod 60)
                     (tod mod msPerSecond)
               | DateTime.second =>
                   MakeTime (tod / msPerHour) ((tod / msPerMinute) mod 60) 0
                     (tod mod msPerSecond)
               | _ =>
                   MakeTime (tod / msPerHour) ((tod / msPerMinute) mod 60)
                     ((tod / msPerSecond) mod 60) 0
               end).
  assert (B : 0 <= tod' < msPerDay /\
              (u = DateTime.hour -> tod' < msPerHour) /\
              (u = DateTime.minute -> tod < msPerHour -> tod' < msPerMinute) /\
              (u = DateTime.second -> tod < msPerMinute -> tod' < msPerSecond) /\
              (u = DateTime.millisecond -> tod < msPerSecond -> tod' = 0)).
  { subst tod'. unfold MakeTime, msPerDay, msPerHour, msPerMinute, msPerSecond in *.
    destruct Hu as [-> | [-> | [-> | ->]]];
      (repeat split; intros; try congruence; Z.div_mod_to_equations; lia). }
  destruct B as (Bt & B).
  assert (C' : civil (MakeDate (MakeDay y mn dt) tod') y mn dt tod').
  { split; [assumption|]. split; [assumption|]. split; [assumption|reflexivity]. }
  pose proof (civil_in_range _ _ _ _ _ C' Hy) as R.
  destruct (forkDateTime_ok d _ W R) as [F1 F2].
  exists tod'. split; [|split; [exact F2|split; [exact C'|exact B]]].
  rewrite <- F1. unfold DateTime.set.
  destruct Hu as [-> | [-> | [-> | ->]]]; cbn [mbind option_bind default from_option id
    setUTCHours setUTCMinutes setUTCSeconds setUTCMilliseconds];
    rewrite ?Eh, ?Em, ?Es, ?Ems, Dy; fold tod'; rewrite (TimeClip_in _ R); reflexivity.
Qed.


(** [granularity('year')]: midnight on the first of January. *)
Lemma granularity_year_civil d y mn dt tod :
  wf d -> civil (DateTime.date d) y mn dt tod -> year_in_range y ->
  let t' := MakeDate (MakeDay y 0 1) 0 in
  DateTime.granularity d DateTime.year
  = Ok (DateTime.mk t' (DateTime.timezone d) (DateTime.duration d) []) /\
  wf (DateTime.mk t' (DateTime.timezone d) (DateTime.duration d) []) /\
  civil t' y 0 1 0.
Proof.
  intros W C Hy t'. unfold DateTime.granularity.
  pose proof C as (Hmn & (len & Hl & Hd) & Htod & _).
  destruct (monthLength_some y mn Hmn) as (len' & Hl' & Hlen).
  assert (len' = len) by congruence. subst len'.
  (* forkDateTime *)
  destruct W as (W1 & W2 & W3).
  destruct (forkDateTime_ok d (DateTime.date d) (conj W1 (conj W2 W3)) W3) as [F W0].
  rewrite F. cbn [mbind result_bind].
  (* set('month', 1) *)
  destruct (set_month_civil _ y mn dt tod 1 W0 C ltac:(lia) Hy) as (E1 & W1' & C1).
  cbv zeta in E1, W1', C1. cbn [DateTime.timezone DateTime.duration] in E1, W1'.
  change (days_in_month 1 y) with 31 in *. rewrite Z.min_l in * by lia.
  change (1 - 1) with 0 in *.
  rewrite E1. cbn [mbind result_bind].
  (* set('day', 1) *)
  assert (E2 : DateTime.set (DateTime.mk (MakeDate (MakeDay y 0 dt) tod)
                 (DateTime.timezone d) (DateTime.duration d) []) DateTime.day 1
          = Ok (DateTime.mk (MakeDate (MakeDay y 0 1) tod)
                 (DateTime.timezone d) (DateTime.duration d) []) /\
          wf (DateTime.mk (MakeDate (MakeDay y 0 1) tod)
                 (DateTime.timezone d) (DateTime.duration d) []) /\
          civil (MakeDate (MakeDay y 0 1) tod) y 0 1 tod).
  { destruct (setUTCDate_civil _ _ _ _ _ 1 31 C1 eq_refl ltac:(lia) Hy) as [S C2].
    pose proof (civil_in_range _ _ _ _ _ C2 Hy) as R.
    destruct (forkDateTime_ok _ _ W1' R) as [F2 W2'].
    unfold DateTime.set. cbn [DateTime.date]. rewrite S. auto. }
  destruct E2 as (E2 & W2' & C2). rewrite E2. cbn [mbind result_bind].
  (* the clock fields *)
  destruct (set_clock_civil _ _ _ _ _ DateTime.hour W2' C2 Hy ltac:(auto))
    as (tod1 & E3 & W3' & C3 & B3 & _).
  cbn [DateTime.timezone DateTime.duration] in E3, W3'. rewrite E3. cbn [mbind result_bind].
  destruct (set_clock_civil _ _ _ _ _ DateTime.minute W3' C3 Hy ltac:(auto))
    as (tod2 & E4 & W4' & C4 & _ & B4 & _).
  cbn [DateTime.timezone DateTime.duration] in E4, W4'. rewrite E4. cbn [mbind result_bind].
  destruct (set_clock_civil _ _ _ _ _ DateTime.second W4' C4 Hy ltac:(auto))
    as (tod3 & E5 & W5' & C5 & _ & _ & B5 & _).
  cbn [DateTime.timezone DateTime.duration] in E5, W5'. rewrite E5. cbn [mbind result_bind].
  destruct (set_clock_civil _ _ _ _ _ DateTime.millisecond W5' C5 Hy ltac:(auto))
    as (tod4 & E6 & W6' & C6 & _ & _ & _ & B6).
  cbn [DateTime.timezone DateTime.duration] in E6, W6'.
  assert (tod4 = 0) by auto. subst tod4.
  rewrite E6. auto.
Qed.

(** [add(1, 'year')] on midnight of the first of January. *)
Lemma addUTCMonths_12_january t y :
  civil t y 0 1 0 -> year_in_range (y + 1) ->
  DateTime.addUTCMonths (Some t) 12 = Some (MakeDate (MakeDay (y + 1) 0 1) 0).
Proof.
  intros C Hy.
  pose proof (civil_fields _ _ _ _ _ C) as (Y & M & D & T & _).
  set (t' := MakeDate (MakeDay (y + 1) 0 1) 0).
  assert (C' : civil t' (y + 1) 0 1 0).
  { split; [lia|]. split; [exists 31; split; [reflexivity|lia]|].
    split; [unfold msPerDay; lia|reflexivity]. }
  pose proof (civil_in_range _ _ _ _ _ C' Hy) as R.
  pose proof (civil_fields _ _ _ _ _ C') as (Y' & M' & D' & T' & Dy').
  assert (S1 : setUTCFullYear (ofNumber 0) y (Some (0 + 12)) (Some 1) = Some t').
  { change (ofNumber 0) with (Some 0). unfold setUTCFullYear.
    cbn [default from_option id]. change (id 0) with 0. change (id 1) with 1.
    change (id (0 + 12)) with (0 + 12).
    change (TimeWithinDay 0) with 0. rewrite MakeDay_carry. apply TimeClip_in, R. }
  assert (S2 : setUTCHours (Some t') 0 (Some 0) (Some 0) (Some 0) = Some t').
  { unfold setUTCHours. cbn [mbind option_bind default from_option id].
    change (id 0) with 0. rewrite Dy'. change (MakeTime 0 0 0 0) with 0.
    apply TimeClip_in, R. }
  assert (S3 : setUTCMonth (Some t) (0 + 12) (Some 1) = Some t').
  { unfold setUTCMonth. cbn [mbind option_bind default from_option id].
    change (id 1) with 1. rewrite Y, T, MakeDay_carry. apply TimeClip_in, R. }
  cbv [DateTime.addUTCMonths DateTime.toInteger getUTCMonth getUTCFullYear
         getUTCDate fmap option_fmap option_map mbind option_bind].
  rewrite Y, M, D, S1, S2, Y', M'.
  rewrite (monthLength_days_in_month (0 + 1) (y + 1)) by lia.
  replace (days_in_month (0 + 1) (y + 1) `min` 1) with 1 by reflexivity.
  exact S3.
Qed.

Lemma add_year_civil d y :
  wf d -> civil (DateTime.date d) y 0 1 0 -> year_in_range (y + 1) ->
  let t' := MakeDate (MakeDay (y + 1) 0 1) 0 in
  DateTime.add d 1 (DateTime.unit DateTime.year)
  = Ok (DateTime.mk t' (DateTime.timezone d) (DateTime.duration d) []) /\
  wf (DateTime.mk t' (DateTime.timezone d) (DateTime.duration d) []) /\
  civil t' (y + 1) 0 1 0.
Proof.
  intros W C Hy t'.
  assert (C' : civil t' (y + 1) 0 1 0).
  { split; [lia|]. split; [exists 31; split; [reflexivity|lia]|].
    split; [unfold msPerDay; lia|reflexivity]. }
  pose proof (civil_in_range _ _ _ _ _ C' Hy) as R.
  destruct (forkDateTime_ok d _ W R) as [F W'].
  split; [|split; assumption]. rewrite <- F.
  unfold DateTime.add, DateTime.addUTCYears, DateTime.toInteger.
  change (1 * 12) with 12.
  rewrite (addUTCMonths_12_january _ _ C Hy). reflexivity.
Qed.

(** *** Instants in calendar order *)

Lemma DaysBeforeMonth_mono l m1 m2 :
  0 <= m1 -> m1 <= m2 -> m2 <= 11 -> l = 0 \/ l = 1 ->
  DaysBeforeMonth m1 l <= DaysBeforeMonth m2 l.
Proof.
  intros H1 H12 H2 L.
  assert (Hm1 : 0 <= m1 <= 11) by lia. assert (Hm2 : 0 <= m2 <= 11) by lia.
  destruct L; subst l; month_cases Hm1; month_cases Hm2; simpl; lia.
Qed.

Lemma civil_month_le t1 y1 m1 d1 tod1 t2 y2 m2 d2 tod2 :
  civil t1 y1 m1 d1 tod1 -> civil t2 y2 m2 d2 tod2 -> t1 <= t2 ->
  y1 < y2 \/ (y1 = y2 /\ m1 <= m2).
Proof.
  intros (Hm1 & (l1 & Hl1 & Hd1) & Ht1 & ->) (Hm2 & (l2 & Hl2 & Hd2) & Ht2 & ->) Hle.
  pose proof (civil_day_bounds _ _ _ _ Hm1 Hl1 Hd1) as [A1 B1].
  pose proof (civil_day_bounds _ _ _ _ Hm2 Hl2 Hd2) as [A2 B2].
  assert (D : MakeDay y1 m1 d1 <= MakeDay y2 m2 d2)
    by (unfold MakeDate, msPerDay in *; lia).
  destruct (Z.lt_trichotomy y1 y2) as [L|[E|G]]; [left; exact L| |].
  - right. split; [exact E|]. subst y2.
    destruct (Z_le_gt_dec m1 m2) as [|G]; [assumption|exfalso].
    pose proof (monthLength_offsets _ _ _ Hm2 Hl2) as O.
    destruct (Z.eqb_spec m2 11); [lia|].
    pose proof (DaysBeforeMonth_mono (leap y1) (m2 + 1) m1 ltac:(lia) ltac:(lia)
                  ltac:(lia) (leap_cases y1)).
    lia.
  - exfalso.
    assert (DayFromYear (y2 + 1) <= DayFromYear y1) by (apply DayFromYear_le; lia).
    lia.
Qed.

(** An instant before midnight of the first of a month lies in an
    earlier month. *)
Lemma civil_month_lt t1 y1 m1 d1 tod1 t2 y2 m2 :
  civil t1 y1 m1 d1 tod1 -> civil t2 y2 m2 1 0 -> t1 < t2 ->
  y1 < y2 \/ (y1 = y2 /\ m1 < m2).
Proof.
  intros C1 C2 Hlt.
  destruct (civil_month_le _ _ _ _ _ _ _ _ _ _ C1 C2 ltac:(lia)) as [L|[E Hm]];
    [left; exact L|right].
  split; [exact E|]. subst y2.
  destruct (Z.eq_dec m1 m2) as [->|]; [exfalso|lia].
  destruct C1 as (Hm1 & (l1 & Hl1 & Hd1) & Ht1 & ->). destruct C2 as (_ & _ & _ & ->).
  rewrite !MakeDay_in_year in Hlt by assumption.
  unfold MakeDate, msPerDay in *. lia.
Qed.

(** *** The loop over the listed months *)

Lemma run_loop_find date cm months :
  ByMonthOfYearRule.run_loop date cm months =
  match List.find (fun month => cm <=? month) months with
  | None => None
  | Some month =>
      Some (if cm =? month then Ok (ByMonthOfYearRule.ValidDateTime date)
            else d ← DateTime.granularity date DateTime.year;
                 d ← DateTime.set d DateTime.month month;
                 Ok (ByMonthOfYearRule.InvalidDateTime d))
  end.
Proof.
  induction months as [|month rest IH]; [reflexivity|].
  cbn [ByMonthOfYearRule.run_loop List.find].
  destruct (Z.gtb_spec cm month), (Z.leb_spec cm month); try lia; [exact IH|].
  destruct (cm =? month); reflexivity.
Qed.

Lemma find_none_below cm months :
  List.find (fun month => cm <=? month) months = None ->
  forall x, In x months -> x < cm.
Proof.
  intros F x Hx. pose proof (find_none _ _ F x Hx) as E. cbv beta in E.
  apply Z.leb_gt in E. exact E.
Qed.

Lemma find_sorted_least cm months m :
  StronglySorted Z.le months ->
  List.find (fun month => cm <=? month) months = Some m ->
  In m months /\ cm <= m /\ forall x, In x months -> cm <= x -> m <= x.
Proof.
  intros S. induction S as [|a l S IH Ha]; [discriminate|].
  cbn [List.find]. destruct (Z.leb_spec cm a) as [L|L].
  - intros [= <-]. split; [left; reflexivity|]. split; [exact L|].
    intros x [<-|Hx] _; [lia|]. rewrite Forall_forall in Ha. apply Ha.
    apply list_elem_of_In, Hx.
  - intros F. destruct (IH F) as (I & C & Least). split; [right; exact I|].
    split; [exact C|]. intros x [<-|Hx] Hc; [lia|auto].
Qed.

Lemma sorted_head_least first rest :
  StronglySorted Z.le (first :: rest) -> forall x, In x (first :: rest) -> first <= x.
Proof.
  intros S x [<-|Hx]; [lia|]. apply StronglySorted_inv in S as [_ Ha].
  rewrite Forall_forall in Ha. apply Ha, list_elem_of_In, Hx.
Qed.

(** Midnight on the first of month [M] of year [Y]. *)
Definition midnight_on_first (d : DateTime.t) (Y M : Z) : Prop :=
  DateTime.get d DateTime.year = Y /\ DateTime.get d DateTime.month = M /\
  DateTime.get d DateTime.day = 1 /\ DateTime.get d DateTime.hour = 0 /\
  DateTime.get d DateTime.minute = 0 /\ DateTime.get d DateTime.second = 0 /\
  DateTime.get d DateTime.millisecond = 0.

Lemma civil_midnight_on_first t tz dur gens Y M :
  civil t Y (M - 1) 1 0 -> midnight_on_first (DateTime.mk t tz dur gens) Y M.
Proof.
  intros C. pose proof (civil_fields _ _ _ _ _ C) as (Y' & M' & D' & T' & _).
  pose proof (clock_fields t) as (Eh & Em & Es & Ems). rewrite T' in *.
  unfold midnight_on_first. cbn [DateTime.get DateTime.date].
  rewrite Y', M', D', Eh, Em, Es, Ems. repeat split; try reflexivity. lia.
Qed.

(** The repair of the stage when the candidate's month is not listed. *)
Lemma repair_civil date y mn dt tod Y M :
  wf date -> civil (DateTime.date date) y mn dt tod ->
  year_in_range y -> year_in_range Y -> 1 <= M <= 12 ->
  Y = y \/ Y = y + 1 ->
  let t' := MakeDate (MakeDay Y (M - 1) 1) 0 in
  (d ← DateTime.granularity date DateTime.year;
   d ← (if decide (Y = y) then Ok d else DateTime.add d 1 (DateTime.unit DateTime.year));
   DateTime.set d DateTime.month M)
  = Ok (DateTime.mk t' (DateTime.timezone date) (DateTime.duration date) []) /\
  civil t' Y (M - 1) 1 0.
Proof.
  intros W C Hy HY HM HYy t'.
  destruct (granularity_year_civil _ _ _ _ _ W C Hy) as (G & WG & CG).
  cbv zeta in G, WG, CG. rewrite G. cbn [mbind result_bind].
  assert (S : forall d0, wf d0 -> civil (DateTime.date d0) Y 0 1 0 ->
              DateTime.timezone d0 = DateTime.timezone date ->
              DateTime.duration d0 = DateTime.duration date ->
              DateTime.set d0 DateTime.month M
              = Ok (DateTime.mk t' (DateTime.timezone date) (DateTime.duration date) []) /\
              civil t' Y (M - 1) 1 0).
  { intros d0 W0 C0 Etz Edur.
    destruct (set_month_civil _ _ _ _ _ M W0 C0 HM HY) as (E & _ & C').
    cbv zeta in E, C'.
    pose proof (monthLength_some Y (M - 1) ltac:(lia)) as (len & Hl & Hlen).
    rewrite (monthLength_days_in_month (M - 1 + 1) Y) in Hl by lia.
    replace (M - 1 + 1) with M in Hl by lia. injection Hl as <-.
    rewrite Z.min_l in E, C' by lia. rewrite Etz, Edur in E. split; assumption. }
  destruct (decide (Y = y)) as [->|NE].
  - cbn [mbind result_bind]. apply S; [exact WG|exact CG|reflexivity|reflexivity].
  - assert (Y = y + 1) by (destruct HYy; [contradiction|assumption]). subst Y.
    destruct (add_year_civil _ _ WG CG HY) as (A & WA & CA). cbv zeta in A, WA, CA.
    cbn [DateTime.timezone DateTime.duration] in A, WA. rewrite A.
    cbn [mbind result_bind]. apply S; [exact WA|exact CA|reflexivity|reflexivity].
Qed.

(** What [run] hands to [validateDate], for a candidate whose year lies
    in -271820..275758 and a non-empty ascending list of months. *)
Lemma run_result_spec (months : list Z) (date : DateTime.t) :
  wf date -> months <> [] -> StronglySorted Z.le months ->
  (forall m, In m months -> 1 <= m <= 12) ->
  -271820 <= DateTime.get date DateTime.year <= 275758 ->
  let cm := DateTime.get date DateTime.month in
  let y := DateTime.get date DateTime.year in
  (ByMonthOfYearRule.run_result months date
     = Ok (ByMonthOfYearRule.ValidDateTime date) <-> In cm months) /\
  (~ In cm months ->
   exists d' Y M,
     ByMonthOfYearRule.run_result months date
       = Ok (ByMonthOfYearRule.InvalidDateTime d') /\
     In M months /\
     ((Y = y /\ cm < M /\ forall x, In x months -> cm < x -> M <= x) \/
      (Y = y + 1 /\ (forall x, In x months -> x < cm) /\ head months = Some M)) /\
     midnight_on_first d' Y M /\
     DateTime.timezone d' = DateTime.timezone date /\
     DateTime.duration d' = DateTime.duration date /\
     DateTime.valueOf date < DateTime.valueOf d' /\
     forall t, DateTime.valueOf date <= t < DateTime.valueOf d' ->
               ~ In (MonthFromTime t + 1) months).
Proof.
  intros W Hne S Hrange Hy cm y.
  pose proof (civil_exists (DateTime.date date)) as C.
  fold (DateTime.get date DateTime.year) in C. fold y in C.
  assert (Ecm : MonthFromTime (DateTime.date date) = cm - 1)
    by (unfold cm; cbn [DateTime.get]; lia).
  rewrite Ecm in C.
  assert (Hyr : year_in_range y) by (unfold year_in_range; lia).
  assert (Hyr1 : year_in_range (y + 1)) by (unfold year_in_range; lia).
  unfold ByMonthOfYearRule.run_result. fold cm. rewrite run_loop_find.
  destruct (List.find (fun month => cm <=? month) months) as [M|] eqn:F.
  - (* a listed month is left in this year *)
    destruct (find_sorted_least _ _ _ S F) as (IM & CM & Least).
    destruct (Z.eqb_spec cm M) as [->|NE].
    + split; [tauto|]. intros N. contradiction.
    + destruct (repair_civil date y _ _ _ y M W C Hyr Hyr (Hrange _ IM) ltac:(auto))
        as (R & CR).
      cbv zeta in R, CR. destruct (decide (y = y)) as [_|N]; [|contradiction].
      assert (R' : (d ← DateTime.granularity date DateTime.year;
                    d0 ← DateTime.set d DateTime.month M;
                    Ok (ByMonthOfYearRule.InvalidDateTime d0))
                   = Ok (ByMonthOfYearRule.InvalidDateTime
                           (DateTime.mk (MakeDate (MakeDay y (M - 1) 1) 0)
                              (DateTime.timezone date) (DateTime.duration date) []))).
      { destruct (DateTime.granularity date DateTime.year) as [g|e]; [|discriminate].
        cbn [mbind result_bind] in R |- *. rewrite R. reflexivity. }
      rewrite R'.
      assert (NI : ~ In cm months).
      { intros I. specialize (Least cm I ltac:(lia)). lia. }
      split; [split; [discriminate|contradiction]|]. intros _.
      eexists _, y, M. split; [reflexivity|]. split; [exact IM|].
      split; [left; split; [reflexivity|split; [lia|]]|].
      { intros x Hx Hc. apply Least; [exact Hx|lia]. }
      split; [apply civil_midnight_on_first, CR|].
      split; [reflexivity|]. split; [reflexivity|].
      cbn [DateTime.valueOf DateTime.date].
      assert (Lt : DateTime.date date < MakeDate (MakeDay y (M - 1) 1) 0).
      { destruct (Z_lt_ge_dec (DateTime.date date) (MakeDate (MakeDay y (M - 1) 1) 0))
          as [|G]; [assumption|exfalso].
        destruct (civil_month_le _ _ _ _ _ _ _ _ _ _ CR C ltac:(lia)); lia. }
      split; [exact Lt|]. intros t [T1 T2] I.
      pose proof (civil_exists t) as Ct.
      destruct (civil_month_le _ _ _ _ _ _ _ _ _ _ C Ct T1) as [L1|[E1 L1]];
        destruct (civil_month_lt _ _ _ _ _ _ _ _ Ct CR T2) as [L2|[E2 L2]]; try lia.
      specialize (Least _ I ltac:(lia)). lia.
  - (* no listed month is left in this year *)
    pose proof (find_none_below _ _ F) as Below.
    assert (NI : ~ In cm months) by (intros I; specialize (Below _ I); lia).
    destruct months as [|first rest]; [contradiction|].
    assert (I1 : In first (first :: rest)) by (left; reflexivity).
    destruct (repair_civil date y _ _ _ (y + 1) first W C Hyr Hyr1 (Hrange _ I1)
                ltac:(auto)) as (R & CR).
    cbv zeta in R, CR. destruct (decide (y + 1 = y)) as [N|_]; [lia|].
    assert (R' : (d ← DateTime.granularity date DateTime.year;
                  d0 ← DateTime.add d 1 (DateTime.unit DateTime.year);
                  d1 ← DateTime.set d0 DateTime.month first;
                  Ok (ByMonthOfYearRule.InvalidDateTime d1))
                 = Ok (ByMonthOfYearRule.InvalidDateTime
                         (DateTime.mk (MakeDate (MakeDay (y + 1) (first - 1) 1) 0)
                            (DateTime.timezone date) (DateTime.duration date) []))).
    { destruct (DateTime.granularity date DateTime.year) as [g|e]; [|discriminate].
      cbn [mbind result_bind] in R |- *.
      destruct (DateTime.add g 1 (DateTime.unit DateTime.year)) as [a|e]; [|discriminate].
      cbn [mbind result_bind] in R |- *. rewrite R. reflexivity. }
    rewrite R'.
    split; [split; [discriminate|contradiction]|]. intros _.
    eexists _, (y + 1), first. split; [reflexivity|]. split; [exact I1|].
    split; [right; split; [reflexivity|split; [exact Below|reflexivity]]|].
    split; [apply civil_midnight_on_first, CR|].
    split; [reflexivity|]. split; [reflexivity|].
    cbn [DateTime.valueOf DateTime.date].
    assert (Lt : DateTime.date date < MakeDate (MakeDay (y + 1) (first - 1) 1) 0).
    { destruct (Z_lt_ge_dec (DateTime.date date)
                  (MakeDate (MakeDay (y + 1) (first - 1) 1) 0)) as [|G];
        [assumption|exfalso].
      destruct (civil_month_le _ _ _ _ _ _ _ _ _ _ CR C ltac:(lia)); lia. }
    split; [exact Lt|]. intros t [T1 T2] I.
    pose proof (civil_exists t) as Ct.
    pose proof (sorted_head_least _ _ S _ I) as Hd. pose proof (Below _ I) as Bl.
    destruct (civil_month_le _ _ _ _ _ _ _ _ _ _ C Ct T1) as [L1|[E1 L1]];
      destruct (civil_month_lt _ _ _ _ _ _ _ _ Ct CR T2) as [L2|[E2 L2]]; lia.
Qed.


(** C6, as the code has it.  For a candidate whose year lies in
    -271820..275758 (so that the dates the stage computes are inside the
    range of [Date]) and a non-empty ascending list of months between 1
    and 12, the forward by-month stage returns what [validateDate]
    makes of its result, whatever [validateDate] is: of the candidate
    itself, valid and unchanged, exactly when the candidate's month is
    listed; otherwise of an invalid result whose date is midnight on the
    first of the smallest listed month after the candidate's month in
    the same year or, when no listed month is left in that year, of the
    first listed month of the next year; the date keeps the time zone
    and the duration, lies after the candidate, and no instant from the
    candidate up to it falls in a listed month.  When [validateDate]
    returns its argument, the stage returns the candidate valid exactly
    when its month is listed. *)
Theorem by_month_stage (months : list Z) (date : DateTime.t) :
  wf date -> months <> [] -> StronglySorted Z.le months ->
  (forall m, In m months -> 1 <= m <= 12) ->
  -271820 <= DateTime.get date DateTime.year <= 275758 ->
  let cm := DateTime.get date DateTime.month in
  let y := DateTime.get date DateTime.year in
  (In cm months <->
   forall validateDate,
     ByMonthOfYearRule.run validateDate months date
     = validateDate (ByMonthOfYearRule.ValidDateTime date)) /\
  (~ In cm months ->
   exists d' Y M,
     (forall validateDate,
        ByMonthOfYearRule.run validateDate months date
        = validateDate (ByMonthOfYearRule.InvalidDateTime d')) /\
     In M months /\
     ((Y = y /\ cm < M /\ forall x, In x months -> cm < x -> M <= x) \/
      (Y = y + 1 /\ (forall x, In x months -> x < cm) /\ head months = Some M)) /\
     midnight_on_first d' Y M /\
     DateTime.timezone d' = DateTime.timezone date /\
     DateTime.duration d' = DateTime.duration date /\
     DateTime.valueOf date < DateTime.valueOf d' /\
     forall t, DateTime.valueOf date <= t < DateTime.valueOf d' ->
               ~ In (MonthFromTime t + 1) months) /\
  (forall validateDate,
     (forall arg, validateDate arg = Ok arg) ->
     (ByMonthOfYearRule.run validateDate months date
      = Ok (ByMonthOfYearRule.ValidDateTime date) <-> In cm months)).
Proof.
  intros W Hne S Hrange Hy cm y.
  destruct (run_result_spec months date W Hne S Hrange Hy) as (V & R).
  fold cm in V, R. fold y in R.
  assert (Pass : forall validateDate,
            (forall arg, validateDate arg = Ok arg) ->
            ByMonthOfYearRule.run validateDate months date
            = ByMonthOfYearRule.run_result months date).
  { intros v P. unfold ByMonthOfYearRule.run.
    destruct (ByMonthOfYearRule.run_result months date) as [arg|e]; [apply P|reflexivity]. }
  split; [|split].
  - split.
    + intros I v. unfold ByMonthOfYearRule.run. rewrite (proj2 V I). reflexivity.
    + intros A. apply V. rewrite <- (Pass Ok) by reflexivity. apply A.
  - intros N. destruct (R N) as (d' & Y & M & E & Rest). exists d', Y, M.
    split; [|exact Rest]. intros v. unfold ByMonthOfYearRule.run. rewrite E. reflexivity.
  - intros v P. rewrite (Pass v P). exact V.
Qed.

Definition may15 : DateTime.t := DateTime.mk 1557915030400 (Some "UTC"%string) 0 [].

Lemma by_month_stage_witness :
  exists d',
    (forall validateDate,
       ByMonthOfYearRule.run validateDate [2; 9] may15
       = validateDate (ByMonthOfYearRule.InvalidDateTime d')) /\
    midnight_on_first d' 2019 9.
Proof.
  destruct (by_month_stage [2; 9] may15) as (_ & R & _).
  - repeat split; cbn; [lia|discriminate|]. vm_compute. discriminate.
  - discriminate.
  - repeat constructor; lia.
  - cbn. intros m [<-|[<-|[]]]; lia.
  - vm_compute. split; discriminate.
  - destruct R as (d' & Y & M & E & IM & [(-> & Hc & _)|(_ & B & _)] & Mid & _).
    + vm_compute. intros [H|[H|[]]]; discriminate.
    + exists d'. split; [exact E|].
      assert (M = 9); [|subst M; exact Mid].
      change (DateTime.get may15 DateTime.month) with 5 in Hc.
      cbn in IM. destruct IM as [<-|[<-|[]]]; [lia|reflexivity].
    + exfalso. specialize (B 9 ltac:(cbn; auto)).
      change (DateTime.get may15 DateTime.month) with 5 in B. lia.
Defined.

(** C6 as stated fails at the edge of the range of [Date]: for a
    candidate in September 275760 and the list [[10]], the first of
    October is past the last time value and the stage raises
    [InvalidDateTimeError] where the claim promises a repair. *)
Lemma by_month_stage_past_range :
  wf SetMonth.last_instant /\
  DateTime.get SetMonth.last_instant DateTime.month = 9 /\
  ByMonthOfYearRule.run_result [10] SetMonth.last_instant
    = Throw InvalidDateTimeError /\
  forall validateDate,
    ByMonthOfYearRule.run validateDate [10] SetMonth.last_instant
    = Throw InvalidDateTimeError.
Proof.
  repeat split; try reflexivity; cbn; try lia; discriminate.
Qed.

End ByMonthFacts.

(** ** The terminal pipe *)

Module ResultPipeFacts.
Import ResultPipe.

Section Pipe.
Context {T : Type} `{DateAdapter T}.

(** The candidate does not lie past the end bound of the rule. *)
Definition within_end (cfg : Config T) (date : T) : Prop :=
  match end_ cfg with
  | Some e => isAfter date e = Ok false
  | None => True
  end.

Lemma run_invalid cfg st args :
  controller_invalid cfg = false -> within_end cfg (date args) ->
  invalidDate args = true ->
  run cfg st args =
    let st' := mkState (invalidIterationCount st + 1) (previousIterationDate st) in
    (st', if invalidIterationCount st + 1 >? 50 then Throw PipeError
          else Ok (FocusedPipeRun (mkArgs (date args) false))).
Proof.
  intros Hc He Hi. unfold run, within_end in *. rewrite Hc, Hi.
  destruct (end_ cfg) as [e|]; [rewrite He|];
    cbn [invalidIterationCount]; destruct (_ >? 50); reflexivity.
Qed.

(** The result pipe calls the focused pipe only for an invalid date,
    and counts the call. *)
Lemma run_focused cfg st args st' args' :
  run cfg st args = (st', Ok (FocusedPipeRun args')) ->
  invalidIterationCount st' = invalidIterationCount st + 1 /\
  invalidIterationCount st' <= 50.
Proof.
  unfold run. destruct (controller_invalid cfg); [discriminate|].
  destruct (match end_ cfg with Some e => isAfter (date args) e | None => Ok false end)
    as [[|]|]; try discriminate.
  destruct (invalidDate args).
  - cbn [invalidIterationCount].
    destruct (Z.gtb_spec (invalidIterationCount st + 1) 50); [discriminate|].
    intros [= <- _]. cbn. lia.
  - destruct (match previousIterationDate st with
              | Some p => isAfterOrEqual p (date args) | None => Ok false end)
      as [[|]|]; discriminate.
Qed.

(** However the stages behave, the chain of calls that starts at the
    result pipe visits it at most 51 times. *)
Lemma iterate_total {S} (stages : S -> IPipeRunFn T -> S * IPipeRunFn T) cfg :
  forall (fuel : nat) s st args,
    51 <= invalidIterationCount st + Z.of_nat fuel -> (0 < fuel)%nat ->
    exists r, iterate stages fuel cfg s st args = Some r.
Proof.
  induction fuel as [|fuel IH]; intros s st args Hf Hpos; [lia|].
  cbn [iterate]. destruct (run cfg st args) as [st' [[v|args']|e]] eqn:R; eauto.
  destruct (run_focused _ _ _ _ _ R) as [E L].
  destruct (stages s args') as [s' args'']. apply IH; lia.
Qed.

(** When every candidate the stages produce is invalid and within the
    end bound, the chain ends in [PipeError]. *)
Lemma iterate_invalid {S} (stages : S -> IPipeRunFn T -> S * IPipeRunFn T) cfg :
  controller_invalid cfg = false ->
  (forall s a, invalidDate (snd (stages s a)) = true /\
               within_end cfg (date (snd (stages s a)))) ->
  forall (fuel : nat) s st args,
    invalidDate args = true -> within_end cfg (date args) ->
    51 <= invalidIterationCount st + Z.of_nat fuel -> (0 < fuel)%nat ->
    exists st', iterate stages fuel cfg s st args = Some (st', Throw PipeError).
Proof.
  intros Hc Hs. induction fuel as [|fuel IH]; intros s st args Hi He Hf Hpos; [lia|].
  cbn [iterate]. rewrite (run_invalid _ _ _ Hc He Hi). cbv zeta.
  destruct (Z.gtb_spec (invalidIterationCount st + 1) 50); [eauto|].
  specialize (Hs s (mkArgs (date args) false)).
  destruct (stages s (mkArgs (date args) false)) as [s' args'']. cbn [snd] in Hs.
  destruct Hs as [Hi' He']. apply IH; cbn [invalidIterationCount]; try assumption; lia.
Qed.

(** C1.  The result pipe bounds non-convergence.  A candidate past the
    end bound makes [run] return [null].  Otherwise an invalid date is
    counted, and the count only restarts when a valid occurrence is
    returned: the first 50 invalid dates in a row are handed back to the
    focused pipe, the next one raises [PipeError].  So the chain of calls
    of one traversal step visits the result pipe at most 51 times
    whatever the stages do, and ends in [PipeError] by then when every
    candidate they produce is invalid (a rule that cannot be satisfied). *)
Theorem result_pipe_bounds_nonconvergence (cfg : Config T) :
  controller_invalid cfg = false ->
  (forall st args e,
     end_ cfg = Some e -> isAfter (date args) e = Ok true ->
     run cfg st args = (st, Ok (Return None))) /\
  (forall st args,
     within_end cfg (date args) -> invalidDate args = true ->
     let n := invalidIterationCount st + 1 in
     run cfg st args =
       (mkState n (previousIterationDate st),
        if n >? 50 then Throw PipeError
        else Ok (FocusedPipeRun (mkArgs (date args) false)))) /\
  (forall st args st' o,
     run cfg st args = (st', o) ->
     invalidIterationCount st' = invalidIterationCount st \/
     invalidIterationCount st' = invalidIterationCount st + 1 \/
     (invalidIterationCount st' = 0 /\ invalidDate args = false /\
      o = Ok (Return (Some (date args))))) /\
  (forall S (stages : S -> IPipeRunFn T -> S * IPipeRunFn T) s st args,
     0 <= invalidIterationCount st ->
     (exists r, iterate stages 51 cfg s st args = Some r) /\
     ((forall s a, invalidDate (snd (stages s a)) = true /\
                   within_end cfg (date (snd (stages s a)))) ->
      invalidDate args = true -> within_end cfg (date args) ->
      exists st', iterate stages 51 cfg s st args = Some (st', Throw PipeError))).
Proof.
  intros Hc. split; [|split; [|split]].
  - intros st args e He Ha. unfold run. rewrite Hc, He, Ha. reflexivity.
  - intros st args He Hi. apply run_invalid; assumption.
  - intros st args st' o. unfold run. rewrite Hc.
    destruct (match end_ cfg with Some e => isAfter (date args) e | None => Ok false end)
      as [[|]|]; try (intros [= <- <-]; auto).
    destruct (invalidDate args).
    + cbn [invalidIterationCount].
      destruct (_ >? 50); intros [= <- <-]; cbn; auto.
    + destruct (match previousIterationDate st with
                | Some p => isAfterOrEqual p (date args) | None => Ok false end)
        as [[|]|]; intros [= <- <-]; cbn; auto.
  - intros S stages s st args Hn. split.
    + apply iterate_total; lia.
    + intros Hs Hi He. apply iterate_invalid; try assumption; lia.
Qed.

End Pipe.

(** A rule without end bound (asking, say, for the 30th of February)
    whose stages repair every candidate to the next day. *)
Definition open_rule : Config LibDateTime.t := mkConfig false None.

Definition next_day (s : unit) (a : IPipeRunFn LibDateTime.t)
    : unit * IPipeRunFn LibDateTime.t :=
  (s, mkArgs (LibDateTime.mk (LibDateTime.date (date a) + 86400000) None []) true).

Lemma result_pipe_bounds_nonconvergence_witness :
  exists st',
    iterate next_day 51 open_rule tt initial
      (mkArgs (LibDateTime.mk 1551398400000 None []) true)
    = Some (st', Throw PipeError).
Proof.
  destruct (result_pipe_bounds_nonconvergence open_rule eq_refl) as (_ & _ & _ & I).
  apply (I unit next_day tt initial).
  - cbn. lia.
  - intros s a. split; reflexivity.
  - reflexivity.
  - exact Logic.I.
Defined.

(** *** Order of the returned occurrences *)

(** The occurrences that successive calls of [run] return in one
    traversal; a [null] or an exception ends the traversal. *)
Fixpoint returned (cfg : Config LibDateTime.t) (st : State LibDateTime.t)
    (calls : list (IPipeRunFn LibDateTime.t)) : list LibDateTime.t :=
  match calls with
  | [] => []
  | args :: calls =>
      match run cfg st args with
      | (st, Ok (Return (Some d))) => d :: returned cfg st calls
      | (st, Ok (FocusedPipeRun _)) => returned cfg st calls
      | _ => []
      end
  end.

Definition before (a b : LibDateTime.t) : Prop :=
  LibDateTime.valueOf a < LibDateTime.valueOf b.

Lemma run_returns cfg st args st' d :
  run cfg st args = (st', Ok (Return (Some d))) ->
  d = date args /\ previousIterationDate st' = Some (LibDateTime.clone d) /\
  forall p, previousIterationDate st = Some p -> before p d.
Proof.
  unfold run. destruct (controller_invalid cfg); [discriminate|].
  destruct (match end_ cfg with Some e => isAfter (date args) e | None => Ok false end)
    as [[|]|]; try discriminate.
  destruct (invalidDate args).
  - cbn [invalidIterationCount]. destruct (_ >? 50); discriminate.
  - destruct (previousIterationDate st) as [p|] eqn:P.
    + cbn [isAfterOrEqual LibDateTime_adapter].
      unfold LibDateTime.isAfterOrEqual, LibDateTime.compare_with.
      destruct (decide _); [|discriminate].
      destruct (Z.geb_spec (LibDateTime.valueOf p) (LibDateTime.valueOf (date args)));
        [discriminate|].
      intros [= <- <-]. repeat split; try reflexivity.
      intros p' [= <-]. unfold before. lia.
    + intros [= <- <-]. repeat split; try reflexivity. discriminate.
Qed.

Lemma run_keeps_previous cfg st args st' args' :
  run cfg st args = (st', Ok (FocusedPipeRun args')) ->
  previousIterationDate st' = previousIterationDate st.
Proof.
  unfold run. destruct (controller_invalid cfg); [discriminate|].
  destruct (match end_ cfg with Some e => isAfter (date args) e | None => Ok false end)
    as [[|]|]; try discriminate.
  destruct (invalidDate args).
  - cbn [invalidIterationCount]. destruct (_ >? 50); [discriminate|].
    intros [= <- _]. reflexivity.
  - destruct (match previousIterationDate st with
              | Some p => isAfterOrEqual p (date args) | None => Ok false end)
      as [[|]|]; discriminate.
Qed.

Lemma returned_increasing cfg calls :
  forall st,
    StronglySorted before (returned cfg st calls) /\
    forall p, previousIterationDate st = Some p ->
              Forall (before p) (returned cfg st calls).
Proof.
  induction calls as [|args calls IH]; intros st; [split; constructor|].
  cbn [returned]. destruct (run cfg st args) as [st' [[[d|]|args']|e]] eqn:R.
  - destruct (run_returns _ _ _ _ _ R) as (-> & P' & Lt).
    destruct (IH st') as [S F]. specialize (F _ P').
    assert (F' : Forall (before (date args)) (returned cfg st' calls)).
    { eapply Forall_impl; [exact F|]. unfold before. cbn. auto. }
    split; [constructor; assumption|].
    intros p Hp. specialize (Lt p Hp). constructor; [exact Lt|].
    eapply Forall_impl; [exact F'|]. unfold before in *. intros; lia.
  - split; [constructor|]. intros; constructor.
  - rewrite <- (run_keeps_previous _ _ _ _ _ R). apply IH.
  - split; [constructor|]. intros; constructor.
Qed.

End ResultPipeFacts.

(** ** Normalization of [byDayOfMonth] *)

Module ByDayOfMonthFacts.
Import ByDayOfMonthRuleModule.

(** A value that [byDayOfMonth] does not accept. *)
Definition out_of_range (num : Z) : Prop := num = 0 \/ num < -31 \/ num > 31.

(** What the stages may rely on when they read [byDayOfMonth] from the
    normalized options: no value that normalization rejects. *)
Definition accepted (days : option (list Z)) : Prop :=
  match days with
  | Some days => Forall (fun num => ~ out_of_range num) days
  | None => True
  end.

Lemma existsb_out_of_range days :
  existsb (fun num => (num =? 0) || (num <? -31) || (num >? 31)) days = true
  <-> exists num, In num days /\ out_of_range num.
Proof.
  rewrite existsb_exists. unfold out_of_range.
  split; intros (num & I & O); exists num; (split; [exact I|]).
  - destruct (Z.eqb_spec num 0), (Z.ltb_spec num (-31)), (Z.gtb_spec num 31);
      try discriminate; lia.
  - destruct (Z.eqb_spec num 0), (Z.ltb_spec num (-31)), (Z.gtb_spec num 31);
      try reflexivity; lia.
Qed.

Lemma day_of_month_accepted (d : DateTime.t) :
  ~ out_of_range (DateTime.get d DateTime.day).
Proof.
  destruct (JsDateFacts.civil_exists (DateTime.date d)) as (Hm & (len & Hl & Hd) & _).
  destruct (JsDateFacts.monthLength_some (JsDate.YearFromTime (DateTime.date d)) _ Hm)
    as (len' & Hl' & B).
  assert (len' = len) by congruence. subst len'.
  unfold out_of_range. cbn [DateTime.get]. lia.
Qed.

Section Construction.
Context `{Environment}.

(** [new Rule(...)] normalizes the options: it throws what the
    normalization throws, and the [Rule] it makes holds the normalized
    options. *)
Lemma new_Rule_normalizes options data timezone (h : gmap Store.loc Store.Object) :
  let prepared := apply_defaultWeekStart (cloneRuleOptions options) in
  (forall e, normalizeRuleOptions prepared = Throw e ->
             Store.new_Rule options data timezone h = Throw e) /\
  (forall l h', Store.new_Rule options data timezone h = Ok (l, h') ->
     exists o, h' !! l = Some (Store.ARule o) /\
               normalizeRuleOptions prepared = Ok (Store.rule_processedOptions o)).
Proof.
  cbv zeta. unfold Store.new_Rule, Store.bind, Store.lift, Store.alloc. split.
  - intros e ->. reflexivity.
  - intros l h'.
    destruct (normalizeRuleOptions _) as [processedOptions|]; [|discriminate].
    intros [= <- <-]. eexists. split; [unfold Store.heap; apply lookup_insert_eq|reflexivity].
Qed.

End Construction.

(** C5, as the code has it.  [normalizeOptions] raises
    [RuleOptionError] exactly when [byDayOfMonth] is present and the
    frequency is WEEKLY, or it is not an array, or one of its values is
    out of range (0, below -31 or above 31); it raises nothing else.
    When neither [byDayOfMonth] nor [byDayOfWeek] is given and the
    frequency is YEARLY or MONTHLY, the normalized options get
    [byDayOfMonth = [day of the month of start]]; a given, accepted
    [byDayOfMonth] is copied; in every other case the normalized options
    are left as they are.  The error belongs to construction, not to
    iteration: what normalization lets through holds no value it would
    reject, the start stays as it is, and the [Rule] constructor throws
    what the normalization of the options throws, so that a [Rule] that
    exists holds options normalized without error. *)
Theorem normalizeOptions_spec (options : Options) (norm : Norm) :
  (normalizeOptions options norm = Throw RuleOptionError <->
   exists value,
     byDayOfMonth options = Some value /\
     (frequency options = WEEKLY \/ value = not_an_array \/
      exists days num, value = an_array days /\ In num days /\ out_of_range num)) /\
  (forall e, normalizeOptions options norm = Throw e -> e = RuleOptionError) /\
  (byDayOfMonth options = None -> byDayOfWeek options = None ->
   frequency options = YEARLY \/ frequency options = MONTHLY ->
   normalizeOptions options norm
   = Ok (mkNorm (start norm) (Some [DateTime.get (start norm) DateTime.day]))) /\
  (forall days, byDayOfMonth options = Some (an_array days) ->
   forall norm', normalizeOptions options norm = Ok norm' ->
   norm' = mkNorm (start norm) (Some days)) /\
  (byDayOfMonth options = None ->
   ~ (byDayOfWeek options = None /\
      (frequency options = YEARLY \/ frequency options = MONTHLY)) ->
   normalizeOptions options norm = Ok norm) /\
  (forall norm', normalizeOptions options norm = Ok norm' ->
   start norm' = start norm /\
   (accepted (norm_byDayOfMonth norm) -> accepted (norm_byDayOfMonth norm'))) /\
  (forall (E : Environment) (provided : RuleOptions) (data : option Data)
          (timezone : option string) (h : gmap Store.loc Store.Object),
     let prepared := apply_defaultWeekStart (cloneRuleOptions provided) in
     (forall e, normalizeRuleOptions prepared = Throw e ->
                Store.new_Rule provided data timezone h = Throw e) /\
     (forall l h', Store.new_Rule provided data timezone h = Ok (l, h') ->
        exists o, h' !! l = Some (Store.ARule o) /\
                  normalizeRuleOptions prepared = Ok (Store.rule_processedOptions o))).
Proof.
  assert (Construction :
    forall (E : Environment) (provided : RuleOptions) (data : option Data)
           (timezone : option string) (h : gmap Store.loc Store.Object),
      let prepared := apply_defaultWeekStart (cloneRuleOptions provided) in
      (forall e, normalizeRuleOptions prepared = Throw e ->
                 Store.new_Rule provided data timezone h = Throw e) /\
      (forall l h', Store.new_Rule provided data timezone h = Ok (l, h') ->
         exists o, h' !! l = Some (Store.ARule o) /\
                   normalizeRuleOptions prepared = Ok (Store.rule_processedOptions o)))
    by (intros E provided data timezone h; apply new_Rule_normalizes).
  assert (Kept : forall norm', normalizeOptions options norm = Ok norm' ->
            start norm' = start norm /\
            (accepted (norm_byDayOfMonth norm) -> accepted (norm_byDayOfMonth norm'))).
  { intros norm'. unfold normalizeOptions.
    destruct (byDayOfMonth options) as [[days|]|].
    - destruct (bool_decide _); [discriminate|].
      pose proof (existsb_out_of_range days) as X.
      destruct (existsb _ days); [discriminate|]. intros [= <-].
      split; [reflexivity|]. intros _. cbn [norm_byDayOfMonth accepted].
      apply Forall_forall. intros num I O.
      assert (false = true) by (apply X; exists num; split;
                                [apply list_elem_of_In, I|exact O]).
      discriminate.
    - destruct (bool_decide _); discriminate.
    - destruct (_ && _); intros [= <-]; (split; [reflexivity|]); [|tauto].
      intros _. cbn [norm_byDayOfMonth accepted].
      repeat constructor. apply day_of_month_accepted. }
  split; [|split; [|split; [|split; [|split; [|split; [exact Kept|exact Construction]]]]]];
    clear Kept Construction; unfold normalizeOptions.
  - (* when it raises *)
    destruct (byDayOfMonth options) as [value|] eqn:D.
    + destruct (bool_decide_reflect (frequency options = WEEKLY)) as [W|W].
      { split; [|reflexivity]. intros _. eauto. }
      destruct value as [days|].
      * pose proof (existsb_out_of_range days) as X.
        destruct (existsb _ days).
        -- split; [|reflexivity]. intros _. exists (an_array days).
           split; [reflexivity|]. right. right.
           destruct (proj1 X eq_refl) as (num & I & O). eauto.
        -- split; [discriminate|].
           intros (value & [= <-] & [F|[F|(days' & num & [= <-] & I & O)]]);
             [contradiction|discriminate|].
           assert (false = true) by (apply X; eauto). discriminate.
      * split; [|reflexivity]. intros _. eauto.
    + split.
      * destruct (_ && _); discriminate.
      * intros (value & [=] & _).
  - (* nothing else is raised *)
    intros e. destruct (byDayOfMonth options) as [[days|]|].
    + destruct (bool_decide _); [congruence|]. destruct (existsb _ days); congruence.
    + destruct (bool_decide _); congruence.
    + destruct (_ && _); discriminate.
  - (* the implicit constraint *)
    intros -> -> F. cbn [truthy orb negb andb].
    rewrite bool_decide_eq_true_2; [reflexivity|].
    destruct F as [-> | ->]; repeat constructor.
  - (* an accepted array is copied *)
    intros days -> norm'. destruct (bool_decide _); [discriminate|].
    destruct (existsb _ days); [discriminate|]. intros [= <-]. reflexivity.
  - (* otherwise nothing changes *)
    intros -> N. cbn [truthy orb].
    destruct (byDayOfWeek options) as [w|] eqn:Wk; cbn [truthy negb andb]; [reflexivity|].
    destruct (bool_decide_reflect (frequency options ∈ [YEARLY; MONTHLY])) as [I|I];
      [|reflexivity].
    exfalso. apply N. split; [reflexivity|].
    apply elem_of_cons in I as [I|I]; [auto|].
    apply elem_of_cons in I as [I|I]; [auto|]. inversion I.
Qed.

(** [{ frequency: 'DAILY', byDayOfMonth: 15 }]: a number where an array is
    expected. *)
Definition daily_on_a_number : Options := mkOptions DAILY (Some not_an_array) None.

(** C5 as stated fails: a [byDayOfMonth] that is not an array is
    rejected with a [RuleOptionError] although the frequency is not
    WEEKLY and no value is out of range. *)
Lemma not_an_array_is_rejected :
  frequency daily_on_a_number <> WEEKLY /\
  (forall days, byDayOfMonth daily_on_a_number = Some (an_array days) ->
                Forall (fun num => ~ out_of_range num) days) /\
  normalizeOptions daily_on_a_number (mkNorm (DateTime.mk 0 None 0 []) None)
  = Throw RuleOptionError.
Proof. repeat split; [discriminate|discriminate]. Qed.

End ByDayOfMonthFacts.

(** ** The [Dates] generator *)

Module DatesFacts.

(** *** The array helpers *)

Lemma filterM_pure {A} (p : A -> result bool) (q : A -> bool) l :
  (forall x, In x l -> p x = Ok (q x)) -> filterM p l = Ok (List.filter q l).
Proof.
  induction l as [|x xs IH]; intros Hp; [reflexivity|].
  cbn [filterM List.filter]. rewrite (Hp x) by (left; reflexivity).
  rewrite IH by (intros y Hy; apply Hp; right; exact Hy).
  destruct (q x); reflexivity.
Qed.

(** A filter that did not throw kept a sublist. *)
Lemma filterM_Ok {A} (p : A -> result bool) l r :
  filterM p l = Ok r ->
  r = List.filter (fun x => match p x with Ok true => true | _ => false end) l.
Proof.
  revert r. induction l as [|x xs IH]; intros r; cbn [filterM List.filter].
  - intros [= <-]. reflexivity.
  - destruct (p x) as [b|]; [|discriminate].
    destruct (filterM p xs) as [r'|]; [|discriminate].
    intros [= <-]. rewrite <- (IH r' eq_refl). destruct b; reflexivity.
Qed.

Lemma filter_and {A} (p q : A -> bool) l :
  List.filter q (List.filter p l) = List.filter (fun x => p x && q x) l.
Proof.
  induction l as [|x xs IH]; [reflexivity|]. cbn [List.filter].
  destruct (p x); cbn [List.filter andb]; [destruct (q x)|]; rewrite IH; reflexivity.
Qed.

Lemma filter_map_comm {A B} (f : A -> B) (q : B -> bool) l :
  List.filter q (map f l) = map f (List.filter (fun x => q (f x)) l).
Proof.
  induction l as [|x xs IH]; [reflexivity|]. cbn [List.filter map].
  destruct (q (f x)); cbn [map]; rewrite IH; reflexivity.
Qed.

Section Sorting.
Context {A : Type} (R : relation A).

Lemma StronglySorted_filter (q : A -> bool) l :
  StronglySorted R l -> StronglySorted R (List.filter q l).
Proof.
  induction 1 as [|x l S IH F]; [constructor|]. cbn [List.filter].
  destruct (q x); [|exact IH]. constructor; [exact IH|].
  rewrite Forall_forall in *. intros y Hy. apply F.
  apply list_elem_of_In in Hy. apply filter_In in Hy as [Hy _].
  apply list_elem_of_In, Hy.
Qed.

Lemma StronglySorted_firstn n l :
  StronglySorted R l -> StronglySorted R (firstn n l).
Proof.
  intros S. rewrite <- (firstn_skipn n l) in S.
  eapply StronglySorted_app_1_l, S.
Qed.

Lemma StronglySorted_rev l :
  StronglySorted R l -> StronglySorted (flip R) (rev l).
Proof.
  induction 1 as [|x l S IH F]; [constructor|]. cbn [rev].
  apply StronglySorted_app_2; [|exact IH|repeat constructor].
  intros y z Hy Hz. apply list_elem_of_singleton in Hz as ->.
  rewrite Forall_forall in F. apply F.
  apply list_elem_of_In. apply in_rev. apply list_elem_of_In, Hy.
Qed.

Lemma StronglySorted_suffix l k :
  StronglySorted R l -> k `suffix_of` l -> StronglySorted R k.
Proof. intros S [pre ->]. eapply StronglySorted_app_1_r, S. Qed.

End Sorting.

(** *** Sorting instants *)

Definition at_or_before (a b : DateTime.t) : Prop :=
  DateTime.valueOf a <= DateTime.valueOf b.

Lemma comparer_same_zone a b :
  DateTime.timezone a = DateTime.timezone b ->
  exists c, DateTime.dateTimeSortComparer a b = Ok c /\
            (c <= 0 -> at_or_before a b) /\ (0 < c -> at_or_before b a).
Proof.
  intros Z. unfold DateTime.dateTimeSortComparer, DateTime.isAfter, DateTime.isBefore,
    DateTime.assertSameTimeZone, at_or_before.
  cbn [mbind result_bind from_option]. rewrite decide_True by exact Z.
  cbn [mbind result_bind].
  destruct (Z.gtb_spec (DateTime.valueOf a) (DateTime.valueOf b));
    [eexists; split; [reflexivity|lia]|].
  destruct (Z.ltb_spec (DateTime.valueOf a) (DateTime.valueOf b));
    [eexists; split; [reflexivity|lia]|].
  destruct (negb _ && negb _);
    [destruct (_ >? _); [|destruct (_ <? _)]|]; eexists; (split; [reflexivity|lia]).
Qed.

Lemma insert_sorted_same_zone tz x l :
  DateTime.timezone x = tz -> Forall (fun d => DateTime.timezone d = tz) l ->
  StronglySorted at_or_before l ->
  exists l', insert_sorted DateTime.dateTimeSortComparer x l = Ok l' /\
             Permutation (x :: l) l' /\ StronglySorted at_or_before l'.
Proof.
  intros Zx Zl S. induction S as [|y l S IH F]; cbn [insert_sorted].
  - exists [x]. repeat split; [reflexivity|repeat constructor].
  - apply Forall_cons in Zl as [Zy Zl].
    destruct (comparer_same_zone x y ltac:(congruence)) as (c & -> & Cle & Cgt).
    destruct (Z.leb_spec c 0).
    + exists (x :: y :: l). split; [reflexivity|]. split; [reflexivity|].
      constructor; [constructor; assumption|].
      constructor; [auto|]. eapply Forall_impl; [exact F|].
      intros z Hz. specialize (Cle ltac:(lia)). unfold at_or_before in *. lia.
    + destruct (IH Zl) as (l' & -> & P & S').
      exists (y :: l'). split; [reflexivity|]. split.
      * rewrite perm_swap. constructor. exact P.
      * constructor; [exact S'|]. rewrite <- P. constructor; [auto|exact F].
Qed.

Lemma sort_same_zone tz l :
  Forall (fun d => DateTime.timezone d = tz) l ->
  exists l', sort DateTime.dateTimeSortComparer l = Ok l' /\
             Permutation l l' /\ StronglySorted at_or_before l'.
Proof.
  induction l as [|x xs IH]; intros Zl; cbn [sort].
  - exists []. repeat split; constructor.
  - apply Forall_cons in Zl as [Zx Zl]. destruct (IH Zl) as (s & -> & P & S).
    assert (Zs : Forall (fun d => DateTime.timezone d = tz) s) by (rewrite <- P; exact Zl).
    destruct (insert_sorted_same_zone tz x s Zx Zs S) as (l' & E & P' & S').
    exists l'. split; [exact E|]. split; [|exact S'].
    rewrite <- P'. constructor. exact P.
Qed.

(** *** Running the generator *)

Section Run.
Context `{DateAdapterCtor}.

(** What the constructor establishes: every stored instant is a
    well-formed [DateTime] in the time zone of the generator. *)
Definition stored (this : Dates.t) (d : DateTime.t) : Prop :=
  DateTime.timezone d = Dates.timezone this /\ DateTimeFacts.wf d.

Definition wf (this : Dates.t) : Prop := Forall (stored this) (Dates.datetimes this).

(** A stored instant as the generator yields it: with the generator
    added in front of its generators. *)
Definition stamp (this : Dates.t) (d : DateTime.t) : DateTime.t :=
  DateTime.mk (DateTime.date d) (DateTime.timezone d) (DateTime.duration d)
    (Dates.this_ref this :: DateTime.generators d).

Lemma yield_stored this d :
  stored this d ->
  (date ← DateTime.add_generator d (Dates.this_ref this);
   normalizeRunOutput (Dates.timezone this) date) = Ok (stamp this d).
Proof.
  intros [Z (W1 & W2 & W3)]. unfold DateTime.add_generator.
  destruct (DateTimeFacts.new_ok (DateTime.date d) (DateTime.timezone d)
              (DateTime.duration d)
              (Some (Dates.this_ref this :: DateTime.generators d)) W1 W2 W3) as [-> _].
  cbn [mbind result_bind default from_option]. unfold normalizeRunOutput.
  cbn [DateTime.timezone]. rewrite decide_True by exact Z. reflexivity.
Qed.

(** The bounds of the run arguments, as a test on time stamps. *)
Definition in_window (start end_ : option DateTime.t) (d : DateTime.t) : bool :=
  match start with
  | Some s => DateTime.valueOf s <=? DateTime.valueOf d
  | None => true
  end &&
  match end_ with
  | Some e => DateTime.valueOf d <=? DateTime.valueOf e
  | None => true
  end.

Definition in_zone (tz : option string) (o : option DateTime.t) : Prop :=
  match o with
  | Some d => DateTime.timezone d = tz
  | None => True
  end.

(** The array that [_run] iterates when no [take] is given and the
    bounds are in the generator's time zone. *)
Lemma run_dates_window this start end_ reverse :
  wf this -> in_zone (Dates.timezone this) start -> in_zone (Dates.timezone this) end_ ->
  exists sorted,
    sort DateTime.dateTimeSortComparer (Dates.datetimes this) = Ok sorted /\
    Permutation (Dates.datetimes this) sorted /\
    StronglySorted at_or_before sorted /\
    Dates.run_dates this (IRunArgs.mk start end_ None reverse)
    = Ok (let dates := List.filter (in_window start end_) sorted in
          if reverse then rev dates else dates).
Proof.
  intros W Zs Ze.
  assert (Zl : Forall (fun d => DateTime.timezone d = Dates.timezone this)
                 (Dates.datetimes this))
    by (eapply Forall_impl; [exact W|]; intros d [Z _]; exact Z).
  destruct (sort_same_zone _ _ Zl) as (sorted & E & P & S).
  exists sorted. split; [exact E|]. split; [exact P|]. split; [exact S|].
  assert (Zsorted : forall d, In d sorted -> DateTime.timezone d = Dates.timezone this).
  { intros d Hd. rewrite <- P in Hd. rewrite Forall_forall in Zl.
    apply Zl, list_elem_of_In, Hd. }
  unfold Dates.run_dates. rewrite E.
  cbn [mbind result_bind IRunArgs.start IRunArgs.end_ IRunArgs.reverse IRunArgs.take].
  set (qs := fun d : DateTime.t =>
               match start with
               | Some s => DateTime.valueOf s <=? DateTime.valueOf d
               | None => true
               end).
  set (qe := fun d : DateTime.t =>
               match end_ with
               | Some e => DateTime.valueOf d <=? DateTime.valueOf e
               | None => true
               end).
  assert (E1 : match start with
               | Some start =>
                   filterM (fun date => DateTime.isAfterOrEqual date (Some start)) sorted
               | None => Ok sorted
               end = Ok (List.filter qs sorted)).
  { destruct start as [s|].
    - apply filterM_pure. intros d Hd.
      unfold DateTime.isAfterOrEqual, DateTime.assertSameTimeZone.
      cbn in Zs. rewrite decide_True by (rewrite Zs; apply Zsorted, Hd).
      cbn [mbind result_bind from_option]. subst qs. cbv beta. f_equal.
      rewrite Z.geb_leb. reflexivity.
    - subst qs. cbv beta. clear. induction sorted as [|x xs IH]; [reflexivity|].
      cbn [List.filter]. congruence. }
  rewrite E1. cbn [mbind result_bind].
  assert (E2 : match end_ with
               | Some end_ =>
                   filterM (fun date => DateTime.isBeforeOrEqual date (Some end_))
                     (List.filter qs sorted)
               | None => Ok (List.filter qs sorted)
               end = Ok (List.filter qe (List.filter qs sorted))).
  { destruct end_ as [e|].
    - apply filterM_pure. intros d Hd. apply filter_In in Hd as [Hd _].
      unfold DateTime.isBeforeOrEqual, DateTime.assertSameTimeZone.
      cbn in Ze. rewrite decide_True by (rewrite Ze; apply Zsorted, Hd).
      reflexivity.
    - subst qe. cbv beta. clear. induction (List.filter qs sorted) as [|x xs IH];
        [reflexivity|]. cbn [List.filter]. congruence. }
  rewrite E2. cbn [mbind result_bind]. rewrite filter_and. reflexivity.
Qed.

(** A plain traversal yields the remaining dates in order and
    finishes, given one call of [next] per date. *)
Lemma run_loop_plain this args dates :
  forall (n : nat) date dateCache,
    Forall (stored this) (date :: dateCache) -> (length dateCache < n)%nat ->
    Dates.run_loop this args dates (plain n) (Some date) dateCache None
    = (map (stamp this) (date :: dateCache), Finished).
Proof.
  induction n as [|n IH]; intros date dateCache F L; [lia|].
  apply Forall_cons in F as [Fd Fc].
  cbn [Dates.run_loop plain repeat reply_skipToDate]. rewrite (yield_stored _ _ Fd).
  destruct dateCache as [|next rest]; cbn [head tail].
  - destruct n; reflexivity.
  - rewrite IH by (try assumption; cbn in L; lia). reflexivity.
Qed.

Lemma run_plain this start end_ reverse (n : nat) :
  wf this -> in_zone (Dates.timezone this) start -> in_zone (Dates.timezone this) end_ ->
  (length (Dates.datetimes this) <= n)%nat ->
  exists sorted,
    sort DateTime.dateTimeSortComparer (Dates.datetimes this) = Ok sorted /\
    Dates._run this (IRunArgs.mk start end_ None reverse) (plain n)
    = (map (stamp this)
         (let dates := List.filter (in_window start end_) sorted in
          if reverse then rev dates else dates), Finished).
Proof.
  intros W Zs Ze L.
  destruct (run_dates_window this start end_ reverse W Zs Ze) as (sorted & E & P & S & R).
  exists sorted. split; [exact E|].
  unfold Dates._run. rewrite R. cbv zeta.
  set (dates := if reverse then _ else _).
  assert (F : Forall (stored this) dates).
  { assert (Fs : Forall (stored this) (List.filter (in_window start end_) sorted)).
    { rewrite Forall_forall. intros d Hd. apply list_elem_of_In, filter_In in Hd as [Hd _].
      rewrite <- P in Hd. unfold wf in W. rewrite Forall_forall in W.
      apply W, list_elem_of_In, Hd. }
    subst dates. destruct reverse; [|exact Fs].
    rewrite Forall_forall in *. intros d Hd. apply Fs.
    apply list_elem_of_In. apply in_rev. apply list_elem_of_In, Hd. }
  assert (Ll : (length dates <= n)%nat).
  { assert (length (List.filter (in_window start end_) sorted) <= n)%nat.
    { etransitivity; [apply filter_length_le|]. rewrite <- (Permutation_length P). exact L. }
    subst dates. destruct reverse; [rewrite length_rev|]; assumption. }
  destruct dates as [|date dateCache]; cbn [head tail].
  - destruct n; reflexivity.
  - apply run_loop_plain; [exact F|cbn in Ll; lia].
Qed.

(** C8.  For a [Dates] generator and bounds in its time zone, the run
    with [{start, end}] yields exactly the values of the run without
    bounds that satisfy [start <= d <= end], in the same order, in
    either direction; both runs finish. *)
Theorem bounded_window (this : Dates.t) (start end_ : DateTime.t)
    (reverse : bool) (n : nat) :
  wf this ->
  DateTime.timezone start = Dates.timezone this ->
  DateTime.timezone end_ = Dates.timezone this ->
  (length (Dates.datetimes this) <= n)%nat ->
  exists all,
    Dates._run this (IRunArgs.mk None None None reverse) (plain n) = (all, Finished) /\
    Dates._run this (IRunArgs.mk (Some start) (Some end_) None reverse) (plain n)
    = (List.filter (fun d => (DateTime.valueOf start <=? DateTime.valueOf d)
                             && (DateTime.valueOf d <=? DateTime.valueOf end_)) all,
       Finished).
Proof.
  intros W Zs Ze L.
  destruct (run_plain this None None reverse n W Logic.I Logic.I L) as (sorted & E & R).
  destruct (run_plain this (Some start) (Some end_) reverse n W Zs Ze L)
    as (sorted' & E' & R').
  assert (sorted' = sorted) by congruence. subst sorted'.
  eexists. split; [exact R|]. rewrite R'. f_equal. cbv zeta.
  assert (T : List.filter (in_window None None) sorted = sorted).
  { clear. induction sorted as [|x xs IH]; [reflexivity|]. cbn. congruence. }
  rewrite T, filter_map_comm. f_equal.
  change (fun x => (DateTime.valueOf start <=? DateTime.valueOf (stamp this x))
                   && (DateTime.valueOf (stamp this x) <=? DateTime.valueOf end_))
    with (in_window (Some start) (Some end_)).
  destruct reverse; [|reflexivity].
  rewrite <- filter_rev. reflexivity.
Qed.

End Run.

(** *** Order of the yielded instants *)

(** [b] is at [a] or further along in the direction of the traversal. *)
Definition ahead (reverse : bool) (a b : DateTime.t) : Prop :=
  if reverse then DateTime.valueOf b <= DateTime.valueOf a
  else DateTime.valueOf a <= DateTime.valueOf b.

(** Two values yielded one after the other, with the reply the
    consumer gave in between: without [skipToDate] the second is not
    behind the first; with it the second is not behind [skipToDate]
    (and so not behind the first, unless [skipToDate] is). *)
Definition step_in_order (reverse : bool) (x : DateTime.t) (r : Reply)
    (y : DateTime.t) : Prop :=
  match reply_skipToDate r with
  | None => ahead reverse x y
  | Some s => ahead reverse s y /\ (ahead reverse x s -> ahead reverse x y)
  end.

Fixpoint in_order (reverse : bool) (yielded : list DateTime.t)
    (replies : list Reply) : Prop :=
  match yielded with
  | [] => True
  | x :: rest =>
      match rest, replies with
      | y :: _, r :: replies => step_in_order reverse x r y /\ in_order reverse rest replies
      | _, _ => True
      end
  end.

Lemma ahead_trans reverse a b c :
  ahead reverse a b -> ahead reverse b c -> ahead reverse a c.
Proof. unfold ahead. destruct reverse; lia. Qed.

Section Order.
Context `{DateAdapterCtor}.

Lemma run_dates_sorted this args dates :
  wf this -> Dates.run_dates this args = Ok dates ->
  StronglySorted (ahead (IRunArgs.reverse args)) dates /\ Forall (stored this) dates.
Proof.
  intros W. unfold Dates.run_dates.
  assert (Zl : Forall (fun d => DateTime.timezone d = Dates.timezone this)
                 (Dates.datetimes this))
    by (eapply Forall_impl; [exact W|]; intros d [Z _]; exact Z).
  destruct (sort_same_zone _ _ Zl) as (sorted & -> & P & S).
  cbn [mbind result_bind].
  assert (Fs : Forall (stored this) sorted) by (rewrite <- P; exact W).
  assert (K : forall (q : DateTime.t -> bool) l,
            StronglySorted at_or_before l /\ Forall (stored this) l ->
            StronglySorted at_or_before (List.filter q l) /\
            Forall (stored this) (List.filter q l)).
  { intros q l [Sl Fl]. split; [apply StronglySorted_filter, Sl|].
    rewrite Forall_forall in *. intros d Hd. apply Fl.
    apply list_elem_of_In, filter_In in Hd as [Hd _]. apply list_elem_of_In, Hd. }
  destruct (match IRunArgs.start args with
            | Some start => filterM _ sorted
            | None => Ok sorted
            end) as [l1|] eqn:E1; [|discriminate].
  assert (S1 : StronglySorted at_or_before l1 /\ Forall (stored this) l1).
  { destruct (IRunArgs.start args); [|injection E1 as <-; auto].
    apply filterM_Ok in E1 as ->. apply K. auto. }
  cbn [mbind result_bind].
  destruct (match IRunArgs.end_ args with
            | Some end_ => filterM _ l1
            | None => Ok l1
            end) as [l2|] eqn:E2; [|discriminate].
  assert (S2 : StronglySorted at_or_before l2 /\ Forall (stored this) l2).
  { destruct (IRunArgs.end_ args); [|injection E2 as <-; auto].
    apply filterM_Ok in E2 as ->. apply K. auto. }
  cbn [mbind result_bind]. intros [= <-].
  set (l3 := if IRunArgs.reverse args then rev l2 else l2).
  assert (S3 : StronglySorted (ahead (IRunArgs.reverse args)) l3 /\
               Forall (stored this) l3).
  { subst l3. destruct S2 as [S2 F2]. destruct (IRunArgs.reverse args).
    - split; [apply (StronglySorted_rev at_or_before), S2|].
      rewrite Forall_forall in *. intros d Hd. apply F2.
      apply list_elem_of_In. apply in_rev. apply list_elem_of_In, Hd.
    - split; assumption. }
  destruct (IRunArgs.take args) as [take|]; [|exact S3].
  destruct (take =? 0); [exact S3|].
  destruct S3 as [S3 F3]. unfold slice_to.
  destruct (take <? 0); (split; [apply StronglySorted_firstn, S3|]);
    apply Forall_take, F3.
Qed.

Lemma skip_spec reverse s dateCache :
  forall date d' cache',
    Dates.skip reverse s date dateCache = Ok (Some (d', cache')) ->
    (d' :: cache') `suffix_of` (date :: dateCache) /\ ahead reverse s d'.
Proof.
  induction dateCache as [|next rest IH]; intros date d' cache'; cbn [Dates.skip].
  - destruct (if reverse then _ else _) as [[|]|] eqn:C; try discriminate.
    intros [= <- <-]. split; [reflexivity|].
    unfold ahead, DateTime.isBefore, DateTime.isAfter, DateTime.assertSameTimeZone in *.
    destruct reverse; destruct (decide _); try discriminate;
      cbn [mbind result_bind from_option] in C; injection C as C; lia.
  - destruct (if reverse then _ else _) as [[|]|] eqn:C; try discriminate.
    + intros E. destruct (IH _ _ _ E) as [Sx A]. split; [|exact A].
      apply suffix_cons_r, Sx.
    + intros [= <- <-]. split; [reflexivity|].
      unfold ahead, DateTime.isBefore, DateTime.isAfter, DateTime.assertSameTimeZone in *.
      destruct reverse; destruct (decide _); try discriminate;
        cbn [mbind result_bind from_option] in C; injection C as C; lia.
Qed.

Lemma suffix_head_elem {A} (x : A) k l : (x :: k) `suffix_of` l -> x ∈ l.
Proof. intros [pre ->]. apply elem_of_app. right. left. Qed.

Lemma run_loop_done this args dates replies dateCache yieldArgs :
  Dates.run_loop this args dates replies None dateCache yieldArgs = ([], Finished).
Proof. destruct replies; reflexivity. Qed.

Lemma run_loop_in_order this args dates :
  StronglySorted (ahead (IRunArgs.reverse args)) dates -> Forall (stored this) dates ->
  forall replies date dateCache yieldArgs,
    (date :: dateCache) `suffix_of` dates ->
    let yielded_ :=
      fst (Dates.run_loop this args dates replies (Some date) dateCache yieldArgs) in
    (forall y, head yielded_ = Some y ->
       match reply_skipToDate yieldArgs with
       | None => DateTime.valueOf y = DateTime.valueOf date
       | Some s => ahead (IRunArgs.reverse args) s y
       end) /\
    in_order (IRunArgs.reverse args) yielded_ replies.
Proof.
  intros S F. induction replies as [|r replies IH]; intros date dateCache yieldArgs Sx;
    cbn [Dates.run_loop].
  - (* the consumer stops after the first value *)
    destruct (reply_skipToDate yieldArgs) as [s|] eqn:Ys.
    + destruct (Dates.skip _ s date dateCache) as [[[d' cache']|]|] eqn:K;
        try (split; [discriminate|exact Logic.I]).
      destruct (skip_spec _ _ _ _ _ _ K) as [Sx' A].
      assert (Fd : stored this d').
      { rewrite Forall_forall in F. apply F.
        eapply suffix_head_elem. etransitivity; eassumption. }
      rewrite (yield_stored _ _ Fd). cbn. split; [|exact Logic.I].
      intros y [= <-]. exact A.
    + assert (Fd : stored this date).
      { rewrite Forall_forall in F. eapply F, suffix_head_elem, Sx. }
      rewrite (yield_stored _ _ Fd). cbn. split; [|exact Logic.I].
      intros y [= <-]. reflexivity.
  - assert (Main : forall d' cache',
              (d' :: cache') `suffix_of` dates ->
              match reply_skipToDate yieldArgs with
              | None => d' = date
              | Some s => ahead (IRunArgs.reverse args) s d'
              end ->
              let tr := yielded (stamp this d')
                          (Dates.run_loop this args dates replies
                             (head match reply_skipToDate r with
                                   | Some _ => dates | None => cache' end)
                             (tail match reply_skipToDate r with
                                   | Some _ => dates | None => cache' end) r) in
              (forall y, head (fst tr) = Some y ->
                 match reply_skipToDate yieldArgs with
                 | None => DateTime.valueOf y = DateTime.valueOf date
                 | Some s => ahead (IRunArgs.reverse args) s y
                 end) /\
              in_order (IRunArgs.reverse args) (fst tr) (r :: replies)).
    { intros d' cache' Sx' Hd'. cbv zeta. cbn [yielded fst head].
      split.
      { intros y [= <-]. destruct (reply_skipToDate yieldArgs); [exact Hd'|].
        subst d'. reflexivity. }
      cbn [in_order].
      set (next := match reply_skipToDate r with Some _ => dates | None => cache' end).
      destruct next as [|date' dateCache'] eqn:N; cbn [head tail];
        [rewrite run_loop_done; exact Logic.I|].
      assert (Sx'' : (date' :: dateCache') `suffix_of` dates).
      { subst next. destruct (reply_skipToDate r); [rewrite N; reflexivity|].
        rewrite <- N. eapply suffix_cons_l, Sx'. }
      destruct (IH date' dateCache' r Sx'') as [Hh Ho]. cbv zeta in Hh, Ho.
      destruct (fst (Dates.run_loop this args dates replies (Some date') dateCache' r))
        as [|y rest] eqn:Y; [exact Logic.I|].
      split; [|exact Ho]. specialize (Hh y eq_refl).
      unfold step_in_order. subst next.
      destruct (reply_skipToDate r) as [s|].
      - split; [exact Hh|]. intros A. eapply ahead_trans; [exact A|exact Hh].
      - (* the next date follows [d'] in the sorted array *)
        pose proof (StronglySorted_suffix _ _ _ S Sx') as Sd.
        apply StronglySorted_inv in Sd as [_ Fd']. rewrite N in Fd'.
        apply Forall_cons in Fd' as [Fd' _].
        unfold ahead in *. cbn [stamp DateTime.valueOf DateTime.date] in *.
        unfold DateTime.valueOf in *. destruct (IRunArgs.reverse args); lia. }
    destruct (reply_skipToDate yieldArgs) as [s|] eqn:Ys.
    + destruct (Dates.skip _ s date dateCache) as [[[d' cache']|]|] eqn:K;
        try (split; [discriminate|exact Logic.I]).
      destruct (skip_spec _ _ _ _ _ _ K) as [Sx' A].
      assert (Sxd : (d' :: cache') `suffix_of` dates) by (etransitivity; eassumption).
      assert (Fd : stored this d').
      { rewrite Forall_forall in F. eapply F, suffix_head_elem, Sxd. }
      rewrite (yield_stored _ _ Fd). apply (Main d' cache' Sxd A).
    + assert (Fd : stored this date).
      { rewrite Forall_forall in F. eapply F, suffix_head_elem, Sx. }
      rewrite (yield_stored _ _ Fd). apply (Main date dateCache Sx eq_refl).
Qed.

Lemma run_in_order this args replies :
  wf this ->
  in_order (IRunArgs.reverse args) (fst (Dates._run this args replies)) replies.
Proof.
  intros W. unfold Dates._run.
  destruct (Dates.run_dates this args) as [dates|] eqn:R; [|exact Logic.I].
  destruct (run_dates_sorted _ _ _ W R) as [S F].
  destruct dates as [|date dateCache]; cbn [head tail];
    [rewrite run_loop_done; exact Logic.I|].
  apply (run_loop_in_order this args (date :: dateCache) S F replies date dateCache None).
  reflexivity.
Qed.

End Order.

(** A backend without time zone support: converting only relabels. *)
#[local] Instance relabel : DateAdapterCtor := {
  convert d tz :=
    Ok (DateTime.mk (DateTime.date d) tz (DateTime.duration d) (DateTime.generators d));
}.

Definition at_ms (v : Z) : DateTime.t := DateTime.mk v None 0 [].

Definition three_dates : Dates.t := Dates.mk None [at_ms 30; at_ms 10; at_ms 20] 1%nat.

Lemma bounded_window_witness :
  Dates._run three_dates
    (IRunArgs.mk (Some (at_ms 15)) (Some (at_ms 30)) None false) (plain 3)
  = ([stamp three_dates (at_ms 20); stamp three_dates (at_ms 30)], Finished).
Proof.
  destruct (bounded_window three_dates (at_ms 15) (at_ms 30) false 3)
    as (all & R & R').
  - repeat constructor; cbn; try lia; discriminate.
  - reflexivity.
  - reflexivity.
  - cbn. lia.
  - rewrite R'. vm_compute in R. injection R as <-. reflexivity.
Defined.

(** C2, as the code has it.  The instants a [Dates] generator yields
    in one traversal are in the order of the traversal, but not
    strictly: an instant that is listed twice is yielded twice.  After
    a reply without [skipToDate] the next instant is not behind the
    previous one; after a reply with [skipToDate] the next instant is
    not behind [skipToDate], hence not behind the previous instant
    unless [skipToDate] itself is (the generator starts over from its
    first date on every skip).  The occurrences that [ResultPipe.run]
    returns in one traversal of a rule are strictly increasing. *)
Theorem traversal_order `{DateAdapterCtor} (this : Dates.t) (args : IRunArgs.t)
    (replies : list Reply) (cfg : ResultPipe.Config LibDateTime.t)
    (st : ResultPipe.State LibDateTime.t)
    (calls : list (ResultPipe.IPipeRunFn LibDateTime.t)) :
  wf this ->
  in_order (IRunArgs.reverse args) (fst (Dates._run this args replies)) replies /\
  StronglySorted ResultPipeFacts.before (ResultPipeFacts.returned cfg st calls).
Proof.
  intros W. split; [apply run_in_order, W|apply ResultPipeFacts.returned_increasing].
Qed.

Lemma traversal_order_witness :
  in_order false
    (fst (Dates._run three_dates IRunArgs.none
            [None; Some (mkYieldArgs (Some (at_ms 25)))]))
    [None; Some (mkYieldArgs (Some (at_ms 25)))].
Proof.
  apply (traversal_order three_dates IRunArgs.none
           [None; Some (mkYieldArgs (Some (at_ms 25)))]
           ResultPipeFacts.open_rule ResultPipe.initial []).
  repeat constructor; cbn; try lia; discriminate.
Defined.

Definition listed_twice : Dates.t := Dates.mk None [at_ms 10; at_ms 10] 1%nat.

(** C2 as stated fails for a [Dates] set: a date that is listed twice
    is yielded twice, and a [skipToDate] behind the last instant makes
    the generator go back. *)
Lemma traversal_not_strict :
  wf listed_twice /\
  Dates._run listed_twice IRunArgs.none (plain 2)
    = ([stamp listed_twice (at_ms 10); stamp listed_twice (at_ms 10)], Finished) /\
  ~ DateTime.valueOf (stamp listed_twice (at_ms 10))
      < DateTime.valueOf (stamp listed_twice (at_ms 10)) /\
  Dates._run three_dates IRunArgs.none
      [None; Some (mkYieldArgs (Some (at_ms 10))); None]
    = ([stamp three_dates (at_ms 10); stamp three_dates (at_ms 20);
        stamp three_dates (at_ms 10); stamp three_dates (at_ms 20)], Suspended).
Proof.
  split; [repeat constructor; cbn; try lia; discriminate|].
  split; [reflexivity|]. split; [cbn; lia|reflexivity].
Qed.

End DatesFacts.

(** ** The [unique] operator *)

Module UniqueFacts.
Import DatesFacts.

(** The pending value lies beyond the bound of the traversal. *)
Definition past_end (args : IRunArgs.t) (value : DateTime.t) : bool :=
  if IRunArgs.reverse args then
    match IRunArgs.start args with
    | Some start => DateTime.valueOf value <? DateTime.valueOf start
    | None => false
    end
  else
    match IRunArgs.end_ args with
    | Some end_ => DateTime.valueOf value >? DateTime.valueOf end_
    | None => false
    end.

(** The values of a stream that follow [lastValue], with the values
    equal to the one before them left out (a value beyond the bound is
    never left out). *)
Fixpoint collapse (args : IRunArgs.t) (lastValue : DateTime.t)
    (stream : list DateTime.t) : list DateTime.t :=
  match stream with
  | [] => []
  | value :: rest =>
      if past_end args value
         || negb (DateTime.valueOf value =? DateTime.valueOf lastValue)
      then value :: collapse args value rest
      else collapse args lastValue rest
  end.

(** A stream with its runs of equal values collapsed into one value. *)
Definition collapsed (args : IRunArgs.t) (stream : list DateTime.t)
    : list DateTime.t :=
  match stream with
  | [] => []
  | value :: rest => value :: collapse args value rest
  end.

Definition zone (tz : option string) (stream : list DateTime.t) : Prop :=
  Forall (fun d => DateTime.timezone d = tz) stream.

Definition strictly_before (a b : DateTime.t) : Prop :=
  DateTime.valueOf a < DateTime.valueOf b.

Lemma collapse_idempotent args stream :
  forall lastValue,
    collapse args lastValue (collapse args lastValue stream)
    = collapse args lastValue stream.
Proof.
  induction stream as [|value rest IH]; intros lastValue; [reflexivity|].
  cbn [collapse]. destruct (past_end args value || _) eqn:K.
  - cbn [collapse]. rewrite K, IH. reflexivity.
  - apply IH.
Qed.

Lemma collapsed_idempotent args stream :
  collapsed args (collapsed args stream) = collapsed args stream.
Proof.
  destruct stream as [|value rest]; [reflexivity|]. cbn [collapsed].
  rewrite collapse_idempotent. reflexivity.
Qed.

Lemma collapse_elem args stream :
  forall lastValue d, In d (collapse args lastValue stream) -> In d stream.
Proof.
  induction stream as [|value rest IH]; intros lastValue d; [contradiction|].
  cbn [collapse]. destruct (past_end args value || _).
  - intros [<-|I]; [left; reflexivity|right; eapply IH, I].
  - intros I. right. eapply IH, I.
Qed.

Lemma collapsed_elem args stream d : In d (collapsed args stream) -> In d stream.
Proof.
  destruct stream as [|value rest]; [contradiction|].
  intros [<-|I]; [left; reflexivity|right; eapply collapse_elem, I].
Qed.

Lemma collapsed_length args stream :
  (length (collapsed args stream) <= length stream)%nat.
Proof.
  assert (L : forall l last, (length (collapse args last l) <= length l)%nat).
  { induction l as [|v l IH]; intros last; [reflexivity|]. cbn [collapse].
    destruct (past_end args v || _); cbn [length]; [specialize (IH v)|specialize (IH last)];
      lia. }
  destruct stream as [|v rest]; [reflexivity|]. cbn [collapsed length].
  specialize (L rest v). lia.
Qed.

Lemma collapsed_zone tz args stream : zone tz stream -> zone tz (collapsed args stream).
Proof.
  unfold zone. rewrite !Forall_forall. intros Z d Hd. apply Z.
  apply list_elem_of_In, collapsed_elem in Hd. apply list_elem_of_In, Hd.
Qed.

(** Without bounds, a sorted stream collapses to a strictly increasing
    stream that still has every instant of the original. *)
Lemma collapse_sorted stream :
  forall lastValue,
    StronglySorted at_or_before (lastValue :: stream) ->
    StronglySorted strictly_before (lastValue :: collapse IRunArgs.none lastValue stream) /\
    forall d, In d stream ->
      exists u, In u (lastValue :: collapse IRunArgs.none lastValue stream) /\
                DateTime.valueOf u = DateTime.valueOf d.
Proof.
  induction stream as [|value rest IH]; intros lastValue S.
  - split; [repeat constructor|contradiction].
  - apply StronglySorted_inv in S as [S F]. apply Forall_cons in F as [Lv F].
    cbn [collapse past_end IRunArgs.reverse IRunArgs.end_ IRunArgs.none orb].
    destruct (Z.eqb_spec (DateTime.valueOf value) (DateTime.valueOf lastValue)) as [E|N];
      cbn [negb].
    + apply StronglySorted_inv in S as [S' _].
      destruct (IH lastValue ltac:(constructor; assumption)) as [S2 C].
      split; [exact S2|]. intros d [<-|I]; [|apply C, I].
      exists lastValue. split; [left; reflexivity|congruence].
    + destruct (IH value S) as [S2 C]. split.
      * constructor; [exact S2|]. constructor; [unfold strictly_before, at_or_before in *; lia|].
        rewrite Forall_forall. intros x Hx.
        apply list_elem_of_In, collapse_elem in Hx.
        apply StronglySorted_inv in S as [_ Fv]. rewrite Forall_forall in Fv.
        specialize (Fv x ltac:(apply list_elem_of_In, Hx)).
        unfold strictly_before, at_or_before in *. lia.
      * intros d I. destruct I as [<-|I].
        -- exists value. split; [right; left; reflexivity|reflexivity].
        -- destruct (C d I) as (u & Hu & Eu). exists u. split; [right; exact Hu|exact Eu].
Qed.

Section Run.
Context `{DateAdapterCtor}.

Lemma streamPastEnd_zone tz args value rest :
  in_zone tz (IRunArgs.start args) -> in_zone tz (IRunArgs.end_ args) ->
  DateTime.timezone value = tz ->
  UniqueOperator.streamPastEnd (value :: rest) args = Ok (past_end args value).
Proof.
  intros Zs Ze Zv. unfold UniqueOperator.streamPastEnd, past_end.
  destruct (IRunArgs.reverse args).
  - destruct (IRunArgs.start args) as [s|]; [|reflexivity]. cbn in Zs.
    unfold DateTime.isBefore, DateTime.assertSameTimeZone.
    rewrite decide_True by congruence. reflexivity.
  - destruct (IRunArgs.end_ args) as [e|]; [|reflexivity]. cbn in Ze.
    unfold DateTime.isAfter, DateTime.assertSameTimeZone.
    rewrite decide_True by congruence. reflexivity.
Qed.

Lemma drop_equal_collapse tz args lastValue :
  in_zone tz (IRunArgs.start args) -> in_zone tz (IRunArgs.end_ args) ->
  DateTime.timezone lastValue = tz ->
  forall stream, zone tz stream ->
    exists stream',
      UniqueOperator.drop_equal args lastValue stream = Ok stream' /\
      collapsed args stream' = collapse args lastValue stream /\
      zone tz stream' /\ (length stream' <= length stream)%nat.
Proof.
  intros Zs Ze Zl. induction stream as [|value rest IH]; intros Z.
  - exists []. repeat split; [constructor|reflexivity].
  - apply Forall_cons in Z as [Zv Zr]. cbn [UniqueOperator.drop_equal collapse].
    rewrite (streamPastEnd_zone tz) by assumption.
    destruct (past_end args value); cbn [orb].
    + exists (value :: rest). repeat split; [constructor; assumption|reflexivity].
    + unfold DateTime.isEqual, DateTime.assertSameTimeZone.
      rewrite decide_True by congruence. cbn [mbind result_bind].
      destruct (DateTime.valueOf value =? DateTime.valueOf lastValue); cbn [negb].
      * destruct (IH Zr) as (stream' & E & C & Z' & L).
        exists stream'. repeat split; try assumption. cbn [length]. lia.
      * exists (value :: rest). repeat split; [constructor; assumption|reflexivity].
Qed.

(** A plain traversal of the operator yields the collapsed stream and
    finishes, given one call of [next] per value of the base. *)
Lemma run_loop_collapsed tz args :
  in_zone tz (IRunArgs.start args) -> in_zone tz (IRunArgs.end_ args) ->
  forall (n : nat) stream,
    zone tz stream -> (length stream <= n)%nat ->
    UniqueOperator.run_loop tz args (plain n) stream = (collapsed args stream, Finished).
Proof.
  intros Zs Ze. induction n as [|n IH]; intros stream Z L.
  - destruct stream; [reflexivity|cbn in L; lia].
  - destruct stream as [|value rest]; [reflexivity|].
    apply Forall_cons in Z as [Zv Zr].
    cbn [UniqueOperator.run_loop plain repeat reply_skipToDate].
    unfold normalizeRunOutput. rewrite decide_True by exact Zv.
    cbn [mbind result_bind].
    destruct (drop_equal_collapse tz args value Zs Ze Zv rest Zr)
      as (stream' & -> & C & Z' & L').
    rewrite IH by (try assumption; cbn in L; lia).
    cbn [yielded fst snd collapsed]. rewrite C. reflexivity.
Qed.

(** The values [unique] yields in a plain traversal of [n] calls of
    [next] over the generator [base]. *)
Definition through_unique (tz : option string)
    (base : IRunArgs.t -> list DateTime.t) (n : nat)
    : IRunArgs.t -> list DateTime.t :=
  fun args =>
    fst (UniqueOperator._run (UniqueOperator.mkConfig tz (Some base)) args (plain n)).

Definition first_of_2019 : DateTime.t :=
  DateTime.mk 1546304461001 (Some "UTC"%string) 0 [].

Definition third_of_march_2020 : DateTime.t :=
  DateTime.mk 1583204583003 (Some "UTC"%string) 0 [].

(** A date set that lists 2019-01-01T01:01:01.001 twice. *)
Definition duplicated : Dates.t :=
  Dates.mk (Some "UTC"%string) [first_of_2019; third_of_march_2020; first_of_2019] 1%nat.

Lemma scenario_instants :
  DateTime.fromJSON (Some "UTC"%string) None 2019 1 1 1 1 1 1 = Ok first_of_2019 /\
  DateTime.fromJSON (Some "UTC"%string) None 2020 3 3 3 3 3 3 = Ok third_of_march_2020.
Proof. split; reflexivity. Qed.

(** C7: in a plain traversal the [unique] operator yields its base
    stream with every run of equal values collapsed into one value, and
    finishes; applied to its own output it yields the same values again
    (it is idempotent); without bounds, over a base sorted in ascending
    order, its output is strictly increasing and has exactly the
    instants of the base; and the date set that lists
    2019-01-01T01:01:01.001 twice and 2020-03-03T03:03:03.003 once
    yields, through [unique], the first and then the second, once each.
    The base values and the bounds of the traversal carry the time zone
    of the operator. *)
Theorem unique_idempotent tz args (base : IRunArgs.t -> list DateTime.t) (n : nat) :
  in_zone tz (IRunArgs.start args) -> in_zone tz (IRunArgs.end_ args) ->
  zone tz (base args) -> (length (base args) <= n)%nat ->
  UniqueOperator._run (UniqueOperator.mkConfig tz (Some base)) args (plain n)
    = (collapsed args (base args), Finished) /\
  UniqueOperator._run
      (UniqueOperator.mkConfig tz (Some (through_unique tz base n))) args (plain n)
    = UniqueOperator._run (UniqueOperator.mkConfig tz (Some base)) args (plain n) /\
  (args = IRunArgs.none -> StronglySorted at_or_before (base args) ->
   StronglySorted strictly_before (through_unique tz base n args) /\
   (forall d, In d (base args) ->
      exists u, In u (through_unique tz base n args) /\
                DateTime.valueOf u = DateTime.valueOf d) /\
   (forall u, In u (through_unique tz base n args) -> In u (base args))) /\
  UniqueOperator._run
      (UniqueOperator.mkConfig (Some "UTC"%string)
         (Some (fun a => fst (Dates._run duplicated a (plain 3)))))
      IRunArgs.none (plain 3)
    = ([stamp duplicated first_of_2019; stamp duplicated third_of_march_2020], Finished).
Proof.
  intros Zs Ze Z L.
  assert (R : UniqueOperator._run (UniqueOperator.mkConfig tz (Some base)) args (plain n)
              = (collapsed args (base args), Finished)).
  { unfold UniqueOperator._run. cbn [UniqueOperator.base UniqueOperator.timezone].
    apply run_loop_collapsed; assumption. }
  assert (T : through_unique tz base n args = collapsed args (base args)).
  { unfold through_unique. rewrite R. reflexivity. }
  split; [exact R|]. split; [|split].
  - rewrite R. unfold UniqueOperator._run.
    cbn [UniqueOperator.base UniqueOperator.timezone]. rewrite T.
    rewrite run_loop_collapsed; try assumption.
    + rewrite collapsed_idempotent. reflexivity.
    + apply collapsed_zone, Z.
    + pose proof (collapsed_length args (base args)). lia.
  - intros -> S. rewrite T. clear R T L Z Zs Ze.
    destruct (base IRunArgs.none) as [|value rest].
    + repeat split; [constructor|contradiction|contradiction].
    + destruct (collapse_sorted rest value S) as [S' C]. cbn [collapsed].
      split; [exact S'|]. split.
      * intros d [<-|I]; [exists value; split; [left|]; reflexivity|apply C, I].
      * intros u I. apply (collapsed_elem IRunArgs.none (value :: rest)), I.
  - vm_compute. reflexivity.
Qed.

End Run.

(** The set [three_dates] with its last date listed once more. *)
Definition four_dates : list DateTime.t := [at_ms 10; at_ms 20; at_ms 20; at_ms 30].

Lemma unique_idempotent_witness :
  UniqueOperator._run (H := relabel)
      (UniqueOperator.mkConfig None
         (Some (through_unique (H := relabel) None (fun _ => four_dates) 4)))
      IRunArgs.none (plain 4)
    = ([at_ms 10; at_ms 20; at_ms 30], Finished).
Proof.
  destruct (unique_idempotent (H := relabel) None IRunArgs.none (fun _ => four_dates) 4)
    as (R & -> & _).
  - exact I.
  - exact I.
  - repeat constructor.
  - cbn. lia.
  - exact R.
Defined.

End UniqueFacts.

(** ** The update methods of [Rule], [Dates] and [Schedule] *)

Module StoreFacts.
Import Store.

Section Objects.
Context `{Environment}.

(** A computation that leaves every object of the store as it is. *)
Definition grows {A} (c : M A) : Prop :=
  forall (h : gmap loc Object) a (h' : gmap loc Object),
    c h = Ok (a, h') -> h ⊆ h'.

(** A computation that returns an object that did not exist before. *)
Definition allocates (c : M loc) : Prop :=
  forall (h : gmap loc Object) l (h' : gmap loc Object),
    c h = Ok (l, h') -> (h ⊆ h') /\ (l ∉ dom h) /\ (l ∈ dom h').

Lemma allocates_grows c : allocates c -> grows c.
Proof. intros A h l h' E. apply (A h l h' E). Qed.

Lemma grows_ret {A} (a : A) : grows (ret a).
Proof. intros h a' h' [= _ <-]. reflexivity. Qed.

Lemma grows_lift {A} (r : result A) : grows (lift r).
Proof. intros h a h'. unfold lift. destruct r; [intros [= _ <-]; reflexivity|discriminate]. Qed.

Lemma grows_throw {A} e : grows (fun _ : heap => @Throw (A * heap) e).
Proof. intros h a h'. discriminate. Qed.

Lemma grows_bind {A B} (c : M A) (k : A -> M B) :
  grows c -> (forall a, grows (k a)) -> grows (bind c k).
Proof.
  intros G K h b h'. unfold bind. destruct (c h) as [[a h1]|e] eqn:E; [|discriminate].
  intros E'. transitivity h1; [eapply G, E|eapply K, E'].
Qed.

Lemma allocates_bind {A} (c : M A) (k : A -> M loc) :
  grows c -> (forall a, allocates (k a)) -> allocates (bind c k).
Proof.
  intros G K h l h'. unfold bind. destruct (c h) as [[a h1]|e] eqn:E; [|discriminate].
  intros E'. destruct (K a h1 l h' E') as (S & N & I). apply G in E.
  split; [transitivity h1; assumption|]. split; [|exact I].
  intros D. apply N. eapply subseteq_dom; [exact E|exact D].
Qed.

Lemma allocates_alloc o : allocates (alloc o).
Proof.
  intros h l h'. unfold alloc, heap. intros [= <- <-].
  pose proof (is_fresh (dom h)) as F. split; [|split].
  - apply insert_subseteq, not_elem_of_dom, F.
  - exact F.
  - apply elem_of_dom. rewrite lookup_insert_eq. eauto.
Qed.

Lemma grows_read_rule l : grows (read_rule l).
Proof.
  intros h a h' E. unfold read_rule in E.
  repeat case_match; simplify_eq. reflexivity.
Qed.

Lemma grows_read_dates l : grows (read_dates l).
Proof.
  intros h a h' E. unfold read_dates in E.
  repeat case_match; simplify_eq. reflexivity.
Qed.

Lemma grows_read_schedule l : grows (read_schedule l).
Proof.
  intros h a h' E. unfold read_schedule in E.
  repeat case_match; simplify_eq. reflexivity.
Qed.

Lemma grows_isRule l : grows (isRule l).
Proof. intros h a h' [= _ <-]. reflexivity. Qed.

Lemma grows_isDates l : grows (isDates l).
Proof. intros h a h' [= _ <-]. reflexivity. Qed.

Lemma grows_mapM {A B} (f : A -> M B) l : (forall a, grows (f a)) -> grows (mapM f l).
Proof.
  intros F. induction l as [|x xs IH]; cbn [mapM]; [apply grows_ret|].
  apply grows_bind; [apply F|]. intros y. apply grows_bind; [exact IH|].
  intros ys. apply grows_ret.
Qed.

Lemma allocates_new_Rule options data timezone :
  allocates (new_Rule options data timezone).
Proof.
  unfold new_Rule. apply allocates_bind; [apply grows_lift|].
  intros a. apply allocates_alloc.
Qed.

Lemma allocates_new_Dates dates timezone data duration :
  allocates (new_Dates dates timezone data duration).
Proof.
  unfold new_Dates. apply allocates_bind; [apply grows_lift|]. intros adapters.
  apply allocates_bind; [apply grows_lift|]. intros datetimes. apply allocates_alloc.
Qed.

Lemma grows_Rule_set this arg : grows (Rule_set this arg).
Proof.
  unfold Rule_set. apply grows_bind; [apply grows_read_rule|]. intros self.
  destruct arg as [value|value|prop value].
  - destruct (decide _); [apply grows_ret|apply allocates_grows, allocates_new_Rule].
  - apply allocates_grows, allocates_new_Rule.
  - apply allocates_grows, allocates_new_Rule.
Qed.

Lemma allocates_Dates_add this value : allocates (Dates_add this value).
Proof.
  unfold Dates_add. apply allocates_bind; [apply grows_read_dates|].
  intros self. apply allocates_new_Dates.
Qed.

Lemma allocates_Dates_remove this value : allocates (Dates_remove this value).
Proof.
  unfold Dates_remove. apply allocates_bind; [apply grows_read_dates|].
  intros self. apply allocates_bind; [apply grows_lift|].
  intros input. apply allocates_new_Dates.
Qed.

Lemma grows_Dates_set this arg : grows (Dates_set this arg).
Proof.
  unfold Dates_set. apply grows_bind; [apply grows_read_dates|]. intros self.
  destruct arg as [value keepLocalTime|value|value].
  - destruct (decide _); [apply grows_ret|]. apply allocates_grows.
    apply allocates_bind; [apply grows_lift|]. intros dates. apply allocates_new_Dates.
  - apply allocates_grows, allocates_new_Dates.
  - apply allocates_grows.
    apply allocates_bind; [apply grows_lift|]. intros dates. apply allocates_new_Dates.
Qed.

Lemma grows_schedule_rule timezone ruleArgs : grows (schedule_rule timezone ruleArgs).
Proof.
  destruct ruleArgs as [rule|options]; cbn [schedule_rule].
  - apply grows_bind; [apply grows_isRule|]. intros [|];
      [apply grows_Rule_set|apply grows_throw].
  - apply allocates_grows, allocates_new_Rule.
Qed.

Lemma grows_schedule_dates timezone arg : grows (schedule_dates timezone arg).
Proof.
  destruct arg as [[dates|inputs]|]; cbn [schedule_dates].
  - apply grows_bind; [apply grows_isDates|]. intros [|];
      [apply grows_Dates_set|apply grows_throw].
  - apply allocates_grows, allocates_new_Dates.
  - apply allocates_grows, allocates_new_Dates.
Qed.

Lemma allocates_new_Schedule timezone data rrules exrules rdates exdates :
  allocates (new_Schedule timezone data rrules exrules rdates exdates).
Proof.
  unfold new_Schedule.
  apply allocates_bind; [apply grows_mapM, grows_schedule_rule|]. intros rs.
  apply allocates_bind; [apply grows_mapM, grows_schedule_rule|]. intros xs.
  apply allocates_bind; [apply grows_schedule_dates|]. intros rd.
  apply allocates_bind; [apply grows_schedule_dates|]. intros xd.
  apply allocates_bind; [apply grows_mapM, grows_read_rule|]. intros ros.
  apply allocates_bind; [apply grows_mapM, grows_read_rule|]. intros xos.
  apply allocates_bind; [apply grows_read_dates|]. intros rdo.
  apply allocates_bind; [apply grows_read_dates|]. intros xdo.
  apply allocates_alloc.
Qed.

Lemma allocates_Schedule_add this arg : allocates (Schedule_add this arg).
Proof.
  unfold Schedule_add. apply allocates_bind; [apply grows_read_schedule|]. intros self.
  apply allocates_bind.
  - destruct arg; try apply grows_ret;
      (apply grows_bind; [apply allocates_grows, allocates_Dates_add|]);
      intros d; apply grows_ret.
  - intros [[[rs xs] rd] xd]. apply allocates_new_Schedule.
Qed.

Lemma allocates_Schedule_remove this arg : allocates (Schedule_remove this arg).
Proof.
  unfold Schedule_remove. apply allocates_bind; [apply grows_read_schedule|]. intros self.
  apply allocates_bind.
  - destruct arg; try apply grows_ret;
      (apply grows_bind; [apply allocates_grows, allocates_Dates_remove|]);
      intros d; apply grows_ret.
  - intros [[[rs xs] rd] xd]. apply allocates_new_Schedule.
Qed.

(** The calls of [add], [remove] and [set]. *)
Inductive Update : Type :=
| rule_set (arg : RuleSet)
| dates_add (value : DateInput)
| dates_remove (value : DateInput)
| dates_set (arg : DatesSet)
| schedule_add (arg : ScheduleAdd)
| schedule_remove (arg : ScheduleAdd)
| schedule_set (arg : ScheduleSet).

Definition update (this : loc) (u : Update) : M loc :=
  match u with
  | rule_set arg => Rule_set this arg
  | dates_add value => Dates_add this value
  | dates_remove value => Dates_remove this value
  | dates_set arg => Dates_set this arg
  | schedule_add arg => Schedule_add this arg
  | schedule_remove arg => Schedule_remove this arg
  | schedule_set arg => Schedule_set this arg
  end.

(** The call sets the time zone to the one the receiver has (and, on a
    [Schedule], does not ask to keep the local time). *)
Definition keeps_timezone (h : heap) (this : loc) (u : Update) : bool :=
  match u, h !! this with
  | rule_set (rule_timezone_to value), Some (ARule self) =>
      bool_decide (value = rule_timezone self)
  | dates_set (dates_timezone_to value _), Some (ADates self) =>
      bool_decide (value = dates_timezone self)
  | schedule_set (schedule_timezone_to value keepLocalTime), Some (ASchedule self) =>
      bool_decide (value = schedule_timezone self) && negb keepLocalTime
  | _, _ => false
  end.

Lemma update_grows this u : grows (update this u).
Proof.
  destruct u; cbn [update].
  - apply grows_Rule_set.
  - apply allocates_grows, allocates_Dates_add.
  - apply allocates_grows, allocates_Dates_remove.
  - apply grows_Dates_set.
  - apply allocates_grows, allocates_Schedule_add.
  - apply allocates_grows, allocates_Schedule_remove.
  - unfold Schedule_set. apply grows_bind; [apply grows_read_schedule|]. intros self.
    destruct arg; try apply allocates_grows, allocates_new_Schedule.
    destruct (_ && _); [apply grows_ret|]. apply allocates_grows, allocates_bind.
    + destruct keepLocalTime; [|apply grows_ret].
      apply grows_bind; [apply grows_mapM; intros; apply grows_Rule_set|]. intros rs.
      apply grows_bind; [apply grows_mapM; intros; apply grows_Rule_set|]. intros xs.
      apply grows_bind; [apply grows_Dates_set|]. intros rd.
      apply grows_bind; [apply grows_Dates_set|]. intros xd. apply grows_ret.
    + intros [[[rs xs] rd] xd]. apply allocates_new_Schedule.
Qed.

Lemma update_receiver this u (h : gmap loc Object) r h' :
  update this u h = Ok (r, h') -> this ∈ dom h.
Proof.
  intros E. apply elem_of_dom.
  destruct u; cbn [update] in E;
    unfold Rule_set, Dates_add, Dates_remove, Dates_set, Schedule_add,
      Schedule_remove, Schedule_set, bind, read_rule, read_dates, read_schedule in E;
    match type of E with
    | context [@lookup ?K ?V ?T ?I this ?m] =>
        destruct (@lookup K V T I this m) as [o|] eqn:L
    end; try discriminate; exists o; exact L.
Qed.

(** C9: a call of [add], [remove] or [set] on a [Rule], a [Dates] or a
    [Schedule] that returns leaves every object of the store as it was,
    the receiver among them.  It returns an object that did not exist
    before the call, and so is not the receiver, except when it sets the
    time zone to the one the receiver has (without [keepLocalTime] on a
    [Schedule]): then it returns the receiver itself and creates
    nothing. *)
Theorem update_returns (this : loc) (u : Update) (h h' : gmap loc Object) (r : loc) :
  update this u h = Ok (r, h') ->
  (h ⊆ h') /\ (h' !! this = h !! this) /\ (this ∈ dom h) /\
  if keeps_timezone h this u then r = this /\ h' = h
  else r <> this /\ (r ∉ dom h) /\ (r ∈ dom h').
Proof.
  intros E.
  pose proof (update_grows this u h r h' E) as G.
  pose proof (update_receiver this u h r h' E) as D.
  split; [exact G|]. split.
  { apply elem_of_dom in D as [o L]. rewrite L. eapply lookup_weaken; eassumption. }
  split; [exact D|].
  assert (New : allocates (update this u) ->
                r <> this /\ (r ∉ dom h) /\ (r ∈ dom h')).
  { intros A. destruct (A h r h' E) as (_ & N & I).
    split; [intros ->; contradiction|split; assumption]. }
  destruct u as [arg|value|value|arg|arg|arg|arg].
  - destruct arg as [value|value|prop value];
      [|apply New, allocates_bind; [apply grows_read_rule|];
        intros self; apply allocates_new_Rule..].
    clear New. cbn [update] in E. unfold Rule_set, bind, read_rule, heap in E.
    unfold keeps_timezone, heap.
    destruct (h !! this) as [[self|self|self]|] eqn:L; try discriminate.
    destruct (decide (value = rule_timezone self)) as [Y|N].
    + rewrite bool_decide_eq_true_2 by exact Y. injection E as <- <-. split; reflexivity.
    + rewrite bool_decide_eq_false_2 by exact N.
      destruct (allocates_new_Rule _ _ _ _ _ _ E) as (_ & Nr & I).
      split; [intros ->; contradiction|split; assumption].
  - apply New, allocates_Dates_add.
  - apply New, allocates_Dates_remove.
  - destruct arg as [value keepLocalTime|value|value].
    + clear New. cbn [update] in E. unfold Dates_set, bind, read_dates, heap in E.
      unfold keeps_timezone, heap.
      destruct (h !! this) as [[self|self|self]|] eqn:L; try discriminate.
      destruct (decide (value = dates_timezone self)) as [Y|N].
      * rewrite bool_decide_eq_true_2 by exact Y. injection E as <- <-. split; reflexivity.
      * rewrite bool_decide_eq_false_2 by exact N.
        assert (A : allocates
                      (bind (lift (if keepLocalTime
                                   then map input_of_adapter <$>
                                        mapR (fun adapter =>
                                                adapter_with_json_timezone adapter value)
                                          (dates_adapters self)
                                   else Ok (map input_of_adapter (dates_adapters self))))
                         (fun dates => new_Dates (Some dates) value (dates_data self) None))).
        { apply allocates_bind; [apply grows_lift|]. intros d. apply allocates_new_Dates. }
        destruct (A _ _ _ E) as (_ & Nr & I).
        split; [intros ->; contradiction|split; assumption].
    + apply New, allocates_bind; [apply grows_read_dates|].
      intros self. apply allocates_new_Dates.
    + apply New, allocates_bind; [apply grows_read_dates|]. intros self.
      apply allocates_bind; [apply grows_lift|]. intros d. apply allocates_new_Dates.
  - apply New, allocates_Schedule_add.
  - apply New, allocates_Schedule_remove.
  - destruct arg as [value keepLocalTime|value|value|value|value];
      [|apply New, allocates_bind; [apply grows_read_schedule|];
        intros self; apply allocates_new_Schedule..].
    clear New. cbn [update] in E. unfold Schedule_set, bind at 1, read_schedule, heap in E.
    unfold keeps_timezone, heap.
    destruct (h !! this) as [[self|self|self]|] eqn:L; try discriminate.
    destruct (bool_decide (value = schedule_timezone self) && negb keepLocalTime).
    + injection E as <- <-. split; reflexivity.
    + revert E. match goal with |- ?c h = _ -> _ => assert (A : allocates c) end.
      { apply allocates_bind.
        - destruct keepLocalTime; [|apply grows_ret].
          apply grows_bind; [apply grows_mapM; intros; apply grows_Rule_set|]. intros rs.
          apply grows_bind; [apply grows_mapM; intros; apply grows_Rule_set|]. intros xs.
          apply grows_bind; [apply grows_Dates_set|]. intros rd.
          apply grows_bind; [apply grows_Dates_set|]. intros xd. apply grows_ret.
        - intros [[[rs xs] rd] xd]. apply allocates_new_Schedule. }
      intros E. destruct (A _ _ _ E) as (_ & Nr & I).
      split; [intros ->; contradiction|split; assumption].
Qed.

End Objects.
(** An environment whose adapters are the instants themselves and whose
    rule options are a table of numbers. *)
#[local] Instance plain_environment : Environment := {
  Adapter := DateTime.t;
  DateInput := DateTime.t;
  input_of_adapter d := d;
  normalizeDateInputToAdapter d := Ok d;
  adapter_duration := DateTime.duration;
  adapter_valueOf := DateTime.valueOf;
  adapter_set_duration := DateTime.set_duration;
  adapter_set_timezone d tz :=
    Ok (DateTime.mk (DateTime.date d) tz (DateTime.duration d) (DateTime.generators d));
  adapter_toDateTime d := Ok d;
  adapter_with_json_timezone d tz :=
    Ok (DateTime.mk (DateTime.date d) tz (DateTime.duration d) (DateTime.generators d));
  Data := string;
  RuleOptions := gmap string Z;
  OptionKey := string;
  OptionValue := Z;
  cloneRuleOptions options := options;
  assign_option options prop value := <[prop := value]> options;
  apply_defaultWeekStart options :=
    match options !! "weekStart"%string with
    | Some _ => options
    | None => <["weekStart"%string := 1]> options
    end;
  NormalizedRuleOptions := gmap string Z;
  normalizeRuleOptions options :=
    match options !! "start"%string with
    | Some _ => Ok options
    | None => Throw RuleOptionError
    end;
  options_duration options := options !! "duration"%string;
  norm_is_infinite options :=
    match options !! "count"%string, options !! "end"%string with
    | None, None => true
    | _, _ => false
    end;
}.

Definition utc_zone : option string := Some "UTC"%string.

Definition noon : @DateInput plain_environment := DateTime.mk 43200000 utc_zone 0 [].

Definition from_epoch : @RuleOptions plain_environment := {["start"%string := 0]}.

(** [new Schedule({ timezone: 'UTC', rrules: [rule], rdates: dates })]
    after [rule] and [dates] have been made, in an empty store. *)
Definition built : result (loc * gmap loc Object) :=
  bind (new_Rule from_epoch None utc_zone) (fun rule =>
  bind (new_Dates (Some [noon]) utc_zone None None) (fun dates =>
  new_Schedule utc_zone None (Some [a_rule rule]) None (Some (a_dates dates)) None)) ∅.

Definition store : gmap loc Object :=
  match built with
  | Ok (_, h) => h
  | Throw _ => ∅
  end.

Lemma built_store : built = Ok (3%nat, store) /\ dom store = {[0; 1; 2; 3]}%nat.
Proof. split; reflexivity. Qed.

(** The store after [dates.add(noon)] on the [Dates] of [store]. *)
Definition store_after_add : gmap loc Object :=
  match update 1%nat (dates_add noon) store with
  | Ok (_, h) => h
  | Throw _ => ∅
  end.

Lemma update_returns_witness :
  update 1%nat (dates_add noon) store = Ok (4%nat, store_after_add) /\
  4%nat <> 1%nat /\ store_after_add !! 1%nat = store !! 1%nat.
Proof.
  assert (E : update 1%nat (dates_add noon) store = Ok (4%nat, store_after_add))
    by reflexivity.
  destruct (update_returns 1%nat (dates_add noon) store store_after_add 4%nat E)
    as (_ & K & _ & N).
  cbn [keeps_timezone] in N. split; [exact E|]. split; [apply N|exact K].
Defined.

(** C9 as stated fails: setting the time zone a [Rule], a [Dates] or a
    [Schedule] already has returns the receiver itself. *)
Lemma set_same_timezone_returns_receiver :
  update 0%nat (rule_set (rule_timezone_to utc_zone)) store = Ok (0%nat, store) /\
  update 1%nat (dates_set (dates_timezone_to utc_zone false)) store = Ok (1%nat, store) /\
  update 3%nat (schedule_set (schedule_timezone_to utc_zone false)) store = Ok (3%nat, store).
Proof. repeat split; reflexivity. Qed.

End StoreFacts.

(** ** More of [DateTime] *)

Module CoreDateTimeFacts.
Import JsDate JsDateFacts DateTimeFacts.
Import DateTime CoreDateTime.

(** A [Date] whose time value, when it has one, is in the range of
    [Date]. *)
Definition clipped (d : Date) : Prop := forall v, d = Some v -> Z.abs v <= maxTime.

Lemma clipped_TimeClip t : clipped (TimeClip t).
Proof. intros v E. apply TimeClip_Some in E as [-> L]. exact L. Qed.

Lemma clipped_bind (d : Date) (f : Z -> Date) :
  (forall t, clipped (f t)) -> clipped (t ← d; f t).
Proof. intros F v. destruct d as [t|]; [apply F|discriminate]. Qed.

Lemma clipped_None : clipped None.
Proof. intros v. discriminate. Qed.

Create HintDb clipped.

#[local] Hint Resolve clipped_TimeClip clipped_bind clipped_None : clipped.

Lemma clipped_addUTCMilliseconds d n : clipped (addUTCMilliseconds d n).
Proof. unfold addUTCMilliseconds, getTime, ofNumber. auto with clipped. Qed.

Lemma clipped_addMilliseconds d n : clipped (addMilliseconds d n).
Proof. unfold addMilliseconds, getTime, ofNumber. auto with clipped. Qed.

Lemma clipped_setUTCMonth d m dt : clipped (setUTCMonth d m dt).
Proof. unfold setUTCMonth. auto with clipped. Qed.

Lemma clipped_addUTCMonths d n : clipped (addUTCMonths d n).
Proof.
  unfold addUTCMonths. cbv zeta.
  repeat (apply clipped_bind; intros ?). apply clipped_TimeClip.
Qed.

Lemma clipped_add_date d n u :
  clipped (match u with
           | unit year => addUTCYears d n
           | unit month => addUTCMonths d n
           | week => addUTCWeeks d n
           | unit day => addUTCDays d n
           | unit hour => addUTCHours d n
           | unit minute => addUTCMinutes d n
           | unit second => addUTCSeconds d n
           | unit millisecond => addUTCMilliseconds d n
           end).
Proof.
  destruct u as [[]|]; unfold addUTCYears, addUTCWeeks, addUTCDays, addUTCHours,
    addUTCMinutes, addUTCSeconds;
    auto using clipped_addUTCMonths, clipped_addUTCMilliseconds, clipped_addMilliseconds.
Qed.

Lemma clipped_set_date t u value :
  clipped (match u with
           | year => setUTCFullYear (Some t) value None None
           | month =>
               let length := monthLength value (YearFromTime t) in
               let day := DateFromTime t in
               if from_option (fun length => day >? length) false length then
                 subUTCDays (setUTCMonth (setUTCDate (Some t) 1) value None) 1
               else setUTCMonth (Some t) (value - 1) None
           | day => setUTCDate (Some t) value
           | hour => setUTCHours (Some t) value None None None
           | minute => setUTCMinutes (Some t) value
           | second => setUTCSeconds (Some t) value
           | millisecond => setUTCMilliseconds (Some t) value
           end).
Proof.
  destruct u; cbv zeta;
    unfold setUTCFullYear, setUTCDate, setUTCHours, setUTCMinutes, setUTCSeconds,
      setUTCMilliseconds; auto with clipped.
  destruct (from_option _ _ _).
  - apply clipped_addUTCMilliseconds.
  - apply clipped_setUTCMonth.
Qed.

(** What a method that ends in [forkDateTime] keeps. *)
Definition keeps (d d' : DateTime.t) : Prop :=
  timezone d' = timezone d /\ duration d' = duration d /\ generators d' = [] /\ wf d'.

Lemma forkDateTime_keeps d date d' :
  wf d -> clipped date -> forkDateTime d date = Ok d' ->
  date = Some (DateTime.date d') /\ keeps d d'.
Proof.
  intros W C. destruct date as [v|].
  - destruct (forkDateTime_ok d v W (C v eq_refl)) as [-> W']. intros [= <-].
    split; [reflexivity|]. repeat (split; [reflexivity|]). exact W'.
  - unfold forkDateTime, new, default, id. cbn [from_option].
    destruct (_ <? 0); discriminate.
Qed.

Lemma keeps_trans d1 d2 d3 : keeps d1 d2 -> keeps d2 d3 -> keeps d1 d3.
Proof. unfold keeps. intros (-> & -> & _ & _) (-> & -> & G & W). auto. Qed.

Lemma keeps_wf d d' : keeps d d' -> wf d'.
Proof. intros (_ & _ & _ & W). exact W. Qed.

Lemma add_keeps d n u d' : wf d -> add d n u = Ok d' -> keeps d d'.
Proof.
  intros W E. unfold add in E.
  assert (F : forkDateTime d
                (match u with
                 | unit year => addUTCYears (Some (date d)) n
                 | unit month => addUTCMonths (Some (date d)) n
                 | week => addUTCWeeks (Some (date d)) n
                 | unit day => addUTCDays (Some (date d)) n
                 | unit hour => addUTCHours (Some (date d)) n
                 | unit minute => addUTCMinutes (Some (date d)) n
                 | unit second => addUTCSeconds (Some (date d)) n
                 | unit millisecond => addUTCMilliseconds (Some (date d)) n
                 end) = Ok d') by (destruct u as [[]|]; exact E).
  eapply forkDateTime_keeps in F; [apply F|exact W|apply clipped_add_date].
Qed.

Lemma subtract_add d n u : subtract d n u = add d (- n) u.
Proof. destruct u as [[]|]; reflexivity. Qed.

Lemma subtract_keeps d n u d' : wf d -> subtract d n u = Ok d' -> keeps d d'.
Proof. rewrite subtract_add. apply add_keeps. Qed.

Lemma set_keeps d u value d' : wf d -> set d u value = Ok d' -> keeps d d'.
Proof.
  intros W E. unfold set in E. cbv zeta in E.
  eapply forkDateTime_keeps in E; [apply E|exact W|].
  pose proof (clipped_set_date (date d) u value) as C. cbv zeta in C.
  destruct u; exact C.
Qed.

Lemma set_step d0 x u value y : keeps d0 x -> set x u value = Ok y -> keeps d0 y.
Proof.
  intros K E. eapply keeps_trans; [exact K|]. eapply set_keeps; [|exact E].
  eapply keeps_wf, K.
Qed.

Lemma setDateToStartOfWeek_step d0 x ws y :
  keeps d0 x -> setDateToStartOfWeek x ws = Ok y -> keeps d0 y.
Proof.
  intros K E. eapply keeps_trans; [exact K|]. eapply subtract_keeps; [|exact E].
  eapply keeps_wf, K.
Qed.

Lemma setDateToEndOfWeek_step d0 x ws y :
  keeps d0 x -> setDateToEndOfWeek x ws = Ok y -> keeps d0 y.
Proof.
  intros K E. eapply keeps_trans; [exact K|]. eapply add_keeps; [|exact E].
  eapply keeps_wf, K.
Qed.

Lemma fork_self_keeps d x : wf d -> forkDateTime d (Some (date d)) = Ok x -> keeps d x.
Proof.
  intros W E. eapply forkDateTime_keeps in E; [apply E|exact W|].
  intros v [= <-]. apply W.
Qed.

(** Splits a chain of [date = date.method(...)] steps into its steps. *)
Ltac split_chain E :=
  unfold mbind, result_bind in E;
  repeat match goal with
         | H : match ?c with Ok _ => _ | Throw _ => _ end = Ok _ |- _ =>
             let x := fresh "x" in
             let S := fresh "S" in
             destruct c as [x|] eqn:S; [|discriminate]
         | H : match ?c with Some _ => _ | None => _ end = Ok _ |- _ =>
             destruct c; [|discriminate]
         end.

Ltac keeps_steps d :=
  repeat match goal with
         | S : forkDateTime d (Some (date d)) = Ok ?x, W : wf d |- _ =>
             apply (fork_self_keeps d x W) in S
         | K : keeps d ?x, S : set ?x _ _ = Ok ?y |- _ =>
             apply (set_step d x _ _ y K) in S
         | K : keeps d ?x, S : setDateToStartOfWeek ?x _ = Ok ?y |- _ =>
             apply (setDateToStartOfWeek_step d x _ y K) in S
         | K : keeps d ?x, S : setDateToEndOfWeek ?x _ = Ok ?y |- _ =>
             apply (setDateToEndOfWeek_step d x _ y K) in S
         end.

Lemma granularity_keeps d g ws d' : wf d -> granularity d g ws = Ok d' -> keeps d d'.
Proof.
  intros W E. unfold granularity in E.
  destruct g as [[]|]; split_chain E; keeps_steps d;
    first [assumption|injection E as <-; assumption].
Qed.

Lemma endGranularity_keeps d g ws d' : wf d -> endGranularity d g ws = Ok d' -> keeps d d'.
Proof.
  intros W E. unfold endGranularity, set_day_to in E.
  destruct g as [[]|]; split_chain E; keeps_steps d;
    first [assumption|injection E as <-; assumption].
Qed.

(** *** Errors of the methods *)

Lemma forkDateTime_throws d date e :
  forkDateTime d date = Throw e -> e = InvalidDateTimeError.
Proof.
  unfold forkDateTime, new. cbv zeta.
  destruct (_ <? 0); [congruence|]. destruct date; [discriminate|congruence].
Qed.

(** A computation that can only fail with [InvalidDateTimeError]. *)
Definition only_invalid {A} (c : result A) : Prop :=
  forall e, c = Throw e -> e = InvalidDateTimeError.

Lemma only_invalid_bind {A B} (c : result A) (k : A -> result B) :
  only_invalid c -> (forall x, only_invalid (k x)) -> only_invalid (x ← c; k x).
Proof.
  intros C K e. destruct c as [x|e']; cbn; [apply K|].
  intros [= <-]. apply C. reflexivity.
Qed.

Lemma only_invalid_Ok {A} (x : A) : only_invalid (Ok x).
Proof. intros e. discriminate. Qed.

Lemma only_invalid_fork d date : only_invalid (forkDateTime d date).
Proof. intros e. apply forkDateTime_throws. Qed.

Lemma only_invalid_add d n u : only_invalid (add d n u).
Proof. destruct u as [[]|]; apply only_invalid_fork. Qed.

Lemma only_invalid_subtract d n u : only_invalid (subtract d n u).
Proof. rewrite subtract_add. apply only_invalid_add. Qed.

Lemma only_invalid_set d u value : only_invalid (set d u value).
Proof. apply only_invalid_fork. Qed.

Lemma only_invalid_set_day_to d length : only_invalid (set_day_to d length).
Proof.
  destruct length; cbn; [apply only_invalid_set|]. intros e. congruence.
Qed.

Ltac only_invalid_chain :=
  repeat first
    [ apply only_invalid_Ok
    | apply only_invalid_fork
    | apply only_invalid_set
    | apply only_invalid_set_day_to
    | apply only_invalid_add
    | apply only_invalid_subtract
    | apply only_invalid_bind; [|intros ?] ].

Lemma only_invalid_granularity d g ws : only_invalid (granularity d g ws).
Proof.
  unfold granularity, setDateToStartOfWeek. destruct g as [[]|]; only_invalid_chain.
Qed.

Lemma only_invalid_endGranularity d g ws : only_invalid (endGranularity d g ws).
Proof.
  unfold endGranularity, setDateToEndOfWeek. destruct g as [[]|]; only_invalid_chain.
Qed.

(** The methods that return a changed copy of a [DateTime]. *)
Inductive Method : Type :=
| m_add (amount : Z) (u : AddUnit)
| m_subtract (amount : Z) (u : AddUnit)
| m_set (u : TimeUnit) (value : Z)
| m_granularity (g : AddUnit) (weekStart : option ByDayOfMonthRuleModule.Weekday)
| m_endGranularity (g : AddUnit) (weekStart : option ByDayOfMonthRuleModule.Weekday).

Definition call (d : DateTime.t) (m : Method) : result DateTime.t :=
  match m with
  | m_add amount u => add d amount u
  | m_subtract amount u => subtract d amount u
  | m_set u value => set d u value
  | m_granularity g weekStart => granularity d g weekStart
  | m_endGranularity g weekStart => endGranularity d g weekStart
  end.

(** X1.  [add], [subtract], [set], [granularity] and [endGranularity]
    never change the time zone or the duration of a [DateTime]; the
    copy they return has no generators and a date in the range of
    [Date]; and the only error they raise is [InvalidDateTimeError]. *)
Theorem methods_keep_zone_and_duration (d : DateTime.t) (m : Method) :
  wf d ->
  (forall d', call d m = Ok d' ->
     timezone d' = timezone d /\ duration d' = duration d /\
     generators d' = [] /\ wf d') /\
  (forall e, call d m = Throw e -> e = InvalidDateTimeError).
Proof.
  intros W. split.
  - intros d' E. destruct m; cbn [call] in E.
    + eapply add_keeps; eassumption.
    + eapply subtract_keeps; eassumption.
    + eapply set_keeps; eassumption.
    + eapply granularity_keeps; eassumption.
    + eapply endGranularity_keeps; eassumption.
  - intros e. destruct m; cbn [call].
    + apply only_invalid_add.
    + apply only_invalid_subtract.
    + apply only_invalid_set.
    + apply only_invalid_granularity.
    + apply only_invalid_endGranularity.
Qed.

Definition noon_2019 : DateTime.t :=
  DateTime.mk 1546344000000 (Some "UTC"%string) 3600000 [7%nat].

Lemma methods_keep_zone_and_duration_witness :
  call noon_2019 (m_endGranularity week (Some ByDayOfMonthRuleModule.MO))
    = Ok (DateTime.mk 1546819199999 (Some "UTC"%string) 3600000 []) /\
  generators (DateTime.mk 1546819199999 (Some "UTC"%string) 3600000 []) = [].
Proof.
  assert (E : call noon_2019 (m_endGranularity week (Some ByDayOfMonthRuleModule.MO))
              = Ok (DateTime.mk 1546819199999 (Some "UTC"%string) 3600000 []))
    by (vm_compute; reflexivity).
  split; [exact E|].
  destruct (methods_keep_zone_and_duration noon_2019
              (m_endGranularity week (Some ByDayOfMonthRuleModule.MO))) as [K _].
  - unfold wf, maxTime. cbn. split; [lia|split; [discriminate|lia]].
  - apply (K _ E).
Defined.

(** *** [add] and [subtract] on the units of fixed length *)

(** The length of a unit in milliseconds; months and years have none. *)
Definition unit_milliseconds (u : AddUnit) : option Z :=
  match u with
  | unit year | unit month => None
  | week => Some MILLISECONDS_IN_WEEK
  | unit day => Some MILLISECONDS_IN_DAY
  | unit hour => Some MILLISECONDS_IN_HOUR
  | unit minute => Some MILLISECONDS_IN_MINUTE
  | unit second => Some MILLISECONDS_IN_SECOND
  | unit millisecond => Some 1
  end.

Lemma add_fixed d n u len :
  unit_milliseconds u = Some len ->
  add d n u = forkDateTime d (TimeClip (date d + n * len)).
Proof.
  intros U. destruct u as [[]|]; try discriminate; injection U as <-;
    unfold add, addUTCWeeks, addUTCDays, addUTCHours, addUTCMinutes, addUTCSeconds,
      addUTCMilliseconds, addMilliseconds, toInteger, getTime, ofNumber;
    cbn [mbind option_bind]; f_equal; f_equal;
    unfold MILLISECONDS_IN_WEEK, MILLISECONDS_IN_DAY, MILLISECONDS_IN_HOUR,
      MILLISECONDS_IN_MINUTE, MILLISECONDS_IN_SECOND; lia.
Qed.

Lemma add_fixed_in_range d n u len :
  wf d -> unit_milliseconds u = Some len -> Z.abs (date d + n * len) <= maxTime ->
  add d n u = Ok (DateTime.mk (date d + n * len) (timezone d) (duration d) []).
Proof.
  intros W U R. rewrite (add_fixed d n u len U), TimeClip_in by exact R.
  apply forkDateTime_ok; assumption.
Qed.

Lemma add_fixed_out_of_range d n u len :
  wf d -> unit_milliseconds u = Some len -> maxTime < Z.abs (date d + n * len) ->
  add d n u = Throw InvalidDateTimeError.
Proof.
  intros (Hd & _) U R. rewrite (add_fixed d n u len U).
  unfold TimeClip. destruct (Z.gtb_spec (Z.abs (date d + n * len)) maxTime); [|lia].
  unfold forkDateTime, new, default, id. cbn [from_option].
  destruct (Z.ltb_spec (duration d) 0); [lia|reflexivity].
Qed.

(** X2.  On weeks, days, hours, minutes, seconds and milliseconds,
    [add] moves the time value by [amount] times the length of the unit
    and [subtract(amount, unit)] is [add(-amount, unit)], so that
    subtracting what was added gives the instant back (without its
    generators); a result outside the range of [Date] is an
    [InvalidDateTimeError]. *)
Theorem add_subtract_fixed_units (d : DateTime.t) (n : Z) (u : AddUnit) (len : Z) :
  wf d -> unit_milliseconds u = Some len ->
  subtract d n u = add d (- n) u /\
  (Z.abs (valueOf d + n * len) <= maxTime ->
   add d n u = Ok (DateTime.mk (valueOf d + n * len) (timezone d) (duration d) []) /\
   subtract (DateTime.mk (valueOf d + n * len) (timezone d) (duration d) []) n u
   = Ok (DateTime.mk (valueOf d) (timezone d) (duration d) [])) /\
  (maxTime < Z.abs (valueOf d + n * len) -> add d n u = Throw InvalidDateTimeError).
Proof.
  intros W U. unfold valueOf. split; [apply subtract_add|]. split.
  - intros R. split; [apply add_fixed_in_range; assumption|].
    rewrite subtract_add.
    set (d' := DateTime.mk (date d + n * len) (timezone d) (duration d) []).
    assert (W' : wf d') by (destruct W as (? & ? & ?); repeat split; assumption).
    rewrite (add_fixed_in_range d' (- n) u len W' U); cbn [date d'].
    + f_equal. f_equal. lia.
    + replace (date d + n * len + - n * len) with (date d) by lia. apply W.
  - apply add_fixed_out_of_range; assumption.
Qed.

Lemma add_subtract_fixed_units_witness :
  add noon_2019 3 week
    = Ok (DateTime.mk (1546344000000 + 3 * 604800000) (Some "UTC"%string) 3600000 []) /\
  subtract (DateTime.mk (1546344000000 + 3 * 604800000) (Some "UTC"%string) 3600000 [])
      3 week
    = Ok (DateTime.mk 1546344000000 (Some "UTC"%string) 3600000 []).
Proof.
  destruct (add_subtract_fixed_units noon_2019 3 week 604800000) as (_ & R & _).
  - unfold wf, maxTime. cbn. split; [lia|split; [discriminate|lia]].
  - reflexivity.
  - apply R. unfold maxTime. cbn. lia.
Defined.

(** *** [add] on months and years *)

Lemma MakeDay_normalize y q dt : MakeDay y q dt = MakeDay (y + q / 12) (q mod 12) dt.
Proof.
  unfold MakeDay. cbv zeta.
  rewrite Z.mod_mod by lia.
  replace (q mod 12 / 12) with 0
    by (symmetry; apply Z.div_small, Z.mod_pos_bound; lia).
  rewrite Z.add_0_r. reflexivity.
Qed.

Lemma addUTCMonths_civil t y mn dt tod n :
  civil t y mn dt tod ->
  let q := mn + n in
  let y' := y + q / 12 in
  let m' := q mod 12 in
  year_in_range y' ->
  let dt' := Z.min dt (days_in_month (m' + 1) y') in
  let t' := MakeDate (MakeDay y' m' dt') tod in
  addUTCMonths (Some t) n = Some t' /\ civil t' y' m' dt' tod.
Proof.
  intros C q y' m' Hy dt' t'.
  pose proof (civil_fields _ _ _ _ _ C) as (Y & M & D & T & _).
  assert (Hm' : 0 <= m' <= 11) by (unfold m'; pose proof (Z.mod_pos_bound q 12); lia).
  assert (L : monthLength (m' + 1) y' = Some (days_in_month (m' + 1) y'))
    by (apply monthLength_days_in_month; lia).
  destruct (monthLength_some y' m' Hm') as (len & L' & Hlen).
  assert (len = days_in_month (m' + 1) y') by congruence. subst len.
  destruct C as (Hm & (len0 & Hl0 & Hd0) & Ht & Et).
  set (t1 := MakeDate (MakeDay y' m' 1) 0).
  assert (C1 : civil t1 y' m' 1 0).
  { split; [exact Hm'|]. split; [eexists; split; [exact L|lia]|].
    split; [unfold msPerDay; lia|reflexivity]. }
  assert (C' : civil t' y' m' dt' tod).
  { split; [exact Hm'|]. split; [eexists; split; [exact L|unfold dt'; lia]|].
    split; [exact Ht|reflexivity]. }
  split; [|exact C'].
  pose proof (civil_in_range _ _ _ _ _ C1 Hy) as R1.
  pose proof (civil_in_range _ _ _ _ _ C' Hy) as R'.
  pose proof (civil_fields _ _ _ _ _ C1) as (Y1 & M1 & D1 & T1 & Dy1).
  assert (S1 : setUTCFullYear (ofNumber 0) y (Some q) (Some 1) = Some t1).
  { change (ofNumber 0) with (Some 0). unfold setUTCFullYear, default, id.
    cbn [from_option]. change (TimeWithinDay 0) with 0.
    rewrite MakeDay_normalize. apply TimeClip_in, R1. }
  assert (S2 : setUTCHours (Some t1) 0 (Some 0) (Some 0) (Some 0) = Some t1).
  { unfold setUTCHours, default, id. cbn [mbind option_bind from_option].
    rewrite Dy1. change (MakeTime 0 0 0 0) with 0. apply TimeClip_in, R1. }
  assert (S3 : setUTCMonth (Some t) q (Some dt') = Some t').
  { unfold setUTCMonth, default, id. cbn [mbind option_bind from_option].
    rewrite Y, T, MakeDay_normalize. apply TimeClip_in, R'. }
  cbv [addUTCMonths toInteger getUTCMonth getUTCFullYear
         getUTCDate fmap option_fmap option_map mbind option_bind].
  rewrite Y, M, D. fold q. rewrite S1, S2, Y1, M1, L.
  rewrite Z.min_comm. exact S3.
Qed.

(** The fields of the clock. *)
Definition same_clock (d d' : DateTime.t) : Prop :=
  get d' hour = get d hour /\ get d' minute = get d minute /\
  get d' second = get d second /\ get d' millisecond = get d millisecond.

Lemma civil_same_clock t t' y mn dt y' mn' dt' tod tz dur g tz' dur' g' :
  civil t y mn dt tod -> civil t' y' mn' dt' tod ->
  same_clock (DateTime.mk t tz dur g) (DateTime.mk t' tz' dur' g').
Proof.
  intros C C'.
  pose proof (civil_fields _ _ _ _ _ C) as (_ & _ & _ & T & _).
  pose proof (civil_fields _ _ _ _ _ C') as (_ & _ & _ & T' & _).
  unfold same_clock, get. cbn [date]. apply clock_fields_eq. congruence.
Qed.

Lemma add_month_civil d n :
  wf d ->
  let q := get d month - 1 + n in
  let y' := get d year + q / 12 in
  let m' := q mod 12 + 1 in
  year_in_range y' ->
  exists d',
    add d n (unit month) = Ok d' /\
    get d' year = y' /\ get d' month = m' /\
    get d' day = Z.min (get d day) (days_in_month m' y') /\
    same_clock d d' /\ keeps d d'.
Proof.
  intros W q y' m' Hy.
  pose proof (civil_exists (date d)) as C.
  assert (Q : MonthFromTime (date d) + n = q) by (unfold q, get; lia).
  assert (Hy' : year_in_range
                  (YearFromTime (date d) + (MonthFromTime (date d) + n) / 12))
    by (rewrite Q; exact Hy).
  destruct (addUTCMonths_civil _ _ _ _ _ n C Hy') as [E C'].
  rewrite Q in E, C'. change (YearFromTime (date d)) with (get d year) in E, C'.
  fold y' in E, C'. change (q mod 12 + 1) with m' in E, C'.
  set (t' := MakeDate _ _) in *.
  assert (R : Z.abs t' <= maxTime) by (eapply civil_in_range; eassumption).
  destruct (forkDateTime_ok d t' W R) as [F W'].
  eexists. split; [unfold add; rewrite E; exact F|].
  pose proof (civil_fields _ _ _ _ _ C') as (Y & M & D & _).
  unfold get at 1 2 3. cbn [date]. rewrite Y, M, D.
  split; [reflexivity|]. split; [reflexivity|]. split; [reflexivity|].
  split; [|repeat split; try reflexivity; apply W'].
  destruct d. eapply civil_same_clock; eassumption.
Qed.

(** X3.  When the month [n] months later lies in a year between
    -271820 and 275759 (the years that are entirely inside the range of
    [Date]), [add(n, 'month')] goes to that month and keeps the day of
    the month, unless that month is shorter: then it stops on the last
    day of the month; the time of day, the time zone and the duration
    are kept.  [add(n, 'year')] is [add(12 * n, 'month')]. *)
Theorem add_month_clamps (d : DateTime.t) (n : Z) :
  wf d ->
  let q := get d month - 1 + n in
  let y' := get d year + q / 12 in
  let m' := q mod 12 + 1 in
  -271820 <= y' <= 275759 ->
  add d n (unit year) = add d (n * 12) (unit month) /\
  exists d',
    add d n (unit month) = Ok d' /\
    get d' year = y' /\ get d' month = m' /\
    get d' day = Z.min (get d day) (days_in_month m' y') /\
    get d' hour = get d hour /\ get d' minute = get d minute /\
    get d' second = get d second /\ get d' millisecond = get d millisecond /\
    timezone d' = timezone d /\ duration d' = duration d.
Proof.
  intros W q y' m' Hy. split; [reflexivity|].
  destruct (add_month_civil d n W Hy) as (d' & E & Y & M & D & (H1 & H2 & H3 & H4) & K).
  exists d'. destruct K as (Z & Du & _). repeat split; assumption.
Qed.

Definition jan31_2019 : DateTime.t := DateTime.mk 1548936000000 None 0 [].

Lemma add_month_clamps_witness :
  add jan31_2019 1 (unit month) = Ok (DateTime.mk 1551355200000 None 0 []) /\
  get (DateTime.mk 1551355200000 None 0 []) day = 28.
Proof.
  destruct (add_month_clamps jan31_2019 1) as (_ & d' & E & _ & _ & D & _).
  - unfold wf, maxTime. cbn. split; [lia|split; [discriminate|lia]].
  - vm_compute. split; discriminate.
  - assert (E' : add jan31_2019 1 (unit month) = Ok (DateTime.mk 1551355200000 None 0 []))
      by (vm_compute; reflexivity).
    split; [exact E'|]. rewrite E' in E. injection E as <-. rewrite D. reflexivity.
Defined.

End CoreDateTimeFacts.

Module DateTimeFieldFacts.
Import JsDate JsDateFacts DateTimeFacts.
Import DateTime CoreDateTime CoreDateTimeFacts.

(** *** The fields of a time value *)

(** A time of day, given by the fields of the clock. *)
Definition clock (h mi s ms : Z) : Prop :=
  0 <= h < 24 /\ 0 <= mi < 60 /\ 0 <= s < 60 /\ 0 <= ms < 1000.

Lemma MakeTime_bound h mi s ms :
  clock h mi s ms -> 0 <= MakeTime h mi s ms < msPerDay.
Proof.
  unfold clock, MakeTime, msPerDay, msPerHour, msPerMinute, msPerSecond. lia.
Qed.

Lemma MakeTime_fields D h mi s ms :
  clock h mi s ms ->
  let t := MakeDate D (MakeTime h mi s ms) in
  Day t = D /\ HourFromTime t = h /\ MinFromTime t = mi /\ SecFromTime t = s /\
  msFromTime t = ms.
Proof.
  intros C t. pose proof (MakeTime_bound _ _ _ _ C) as B.
  pose proof (clock_fields t) as (H & M & S & L).
  pose proof (TimeWithinDay_MakeDate D _ B) as T. fold t in T.
  rewrite H, M, S, L, T. split; [apply Day_MakeDate, B|].
  unfold clock in C.
  unfold MakeTime, msPerHour, msPerMinute, msPerSecond.
  assert (Q1 : (h * 3600000 + mi * 60000 + s * 1000 + ms) / 3600000 = h)
    by (symmetry; apply (Z.div_unique _ _ _ (mi * 60000 + s * 1000 + ms)); lia).
  assert (Q2 : (h * 3600000 + mi * 60000 + s * 1000 + ms) / 60000 = h * 60 + mi)
    by (symmetry; apply (Z.div_unique _ _ _ (s * 1000 + ms)); lia).
  assert (Q3 : (h * 3600000 + mi * 60000 + s * 1000 + ms) / 1000
               = h * 3600 + mi * 60 + s)
    by (symmetry; apply (Z.div_unique _ _ _ ms); lia).
  rewrite Q1, Q2, Q3. split; [reflexivity|]. split; [|split].
  - symmetry. apply (Z.mod_unique _ _ h); lia.
  - symmetry. apply (Z.mod_unique _ _ (h * 60 + mi)); lia.
  - symmetry. apply (Z.mod_unique _ _ (h * 3600 + mi * 60 + s)); lia.
Qed.

Lemma MakeTime_of_fields t :
  clock (HourFromTime t) (MinFromTime t) (SecFromTime t) (msFromTime t) /\
  MakeTime (HourFromTime t) (MinFromTime t) (SecFromTime t) (msFromTime t)
  = TimeWithinDay t.
Proof.
  pose proof (clock_fields t) as (H & M & S & L).
  pose proof (TimeWithinDay_bound t) as B.
  rewrite H, M, S, L. unfold clock, MakeTime, msPerDay, msPerHour, msPerMinute,
    msPerSecond in *.
  repeat split; Z.div_mod_to_equations; lia.
Qed.

(** The calendar and clock fields of a [DateTime]; the month is
    base-1, as [get('month')] has it. *)
Definition fields (d : DateTime.t) (y m dt h mi s ms : Z) : Prop :=
  civil (date d) y (m - 1) dt (MakeTime h mi s ms) /\ clock h mi s ms.

Lemma fields_get d y m dt h mi s ms :
  fields d y m dt h mi s ms ->
  get d year = y /\ get d month = m /\ get d day = dt /\ get d hour = h /\
  get d minute = mi /\ get d second = s /\ get d millisecond = ms.
Proof.
  intros [C K]. pose proof (civil_fields _ _ _ _ _ C) as (Y & M & D & _ & _).
  destruct C as (_ & _ & _ & E).
  pose proof (MakeTime_fields (MakeDay y (m - 1) dt) h mi s ms K) as (_ & F).
  cbv zeta in F. rewrite <- E in F. unfold get. rewrite Y, M, D.
  repeat split; try apply F. lia.
Qed.

Lemma fields_of d :
  fields d (get d year) (get d month) (get d day) (get d hour) (get d minute)
    (get d second) (get d millisecond).
Proof.
  pose proof (MakeTime_of_fields (date d)) as [K E].
  split; [|exact K]. unfold get. rewrite E.
  replace (MonthFromTime (date d) + 1 - 1) with (MonthFromTime (date d)) by lia.
  apply civil_exists.
Qed.

Lemma fields_unique d y m dt h mi s ms y' m' dt' h' mi' s' ms' :
  fields d y m dt h mi s ms -> fields d y' m' dt' h' mi' s' ms' ->
  y = y' /\ m = m' /\ dt = dt' /\ h = h' /\ mi = mi' /\ s = s' /\ ms = ms'.
Proof.
  intros F F'. apply fields_get in F, F'.
  destruct F as (<- & <- & <- & <- & <- & <- & <-).
  destruct F' as (<- & <- & <- & <- & <- & <- & <-). repeat split.
Qed.

(** A [DateTime] with the fields given, built on [d]. *)
Definition with_fields (d : DateTime.t) (y m dt h mi s ms : Z) : DateTime.t :=
  DateTime.mk (MakeDate (MakeDay y (m - 1) dt) (MakeTime h mi s ms))
    (timezone d) (duration d) [].

Lemma with_fields_ok d y m dt h mi s ms :
  wf d -> 1 <= m <= 12 -> 1 <= dt <= days_in_month m y -> clock h mi s ms ->
  year_in_range y ->
  fields (with_fields d y m dt h mi s ms) y m dt h mi s ms /\
  keeps d (with_fields d y m dt h mi s ms).
Proof.
  intros W Hm Hd K Hy.
  assert (C : civil (MakeDate (MakeDay y (m - 1) dt) (MakeTime h mi s ms))
                y (m - 1) dt (MakeTime h mi s ms)).
  { split; [lia|]. split.
    - exists (days_in_month m y). split; [|exact Hd].
      replace (m - 1 + 1) with m by lia. apply monthLength_days_in_month, Hm.
    - split; [apply MakeTime_bound, K|reflexivity]. }
  split; [split; [exact C|exact K]|].
  unfold keeps, with_fields. cbn. repeat split; try apply W.
  cbn. eapply civil_in_range; eassumption.
Qed.

Lemma fork_with_fields d x y m dt h mi s ms :
  wf d -> keeps d x -> 1 <= m <= 12 -> 1 <= dt <= days_in_month m y ->
  clock h mi s ms -> year_in_range y ->
  forkDateTime x (Some (MakeDate (MakeDay y (m - 1) dt) (MakeTime h mi s ms)))
  = Ok (with_fields d y m dt h mi s ms).
Proof.
  intros W (Z & Du & _ & Wx) Hm Hd K Hy.
  destruct (with_fields_ok d y m dt h mi s ms W Hm Hd K Hy) as [_ (_ & _ & _ & Ww)].
  assert (R : Z.abs (MakeDate (MakeDay y (m - 1) dt) (MakeTime h mi s ms)) <= maxTime)
    by apply Ww.
  destruct (forkDateTime_ok x _ Wx R) as [-> _].
  unfold with_fields. rewrite Z, Du. reflexivity.
Qed.

Lemma fields_ranges d y m dt h mi s ms :
  fields d y m dt h mi s ms ->
  1 <= m <= 12 /\ 1 <= dt <= days_in_month m y /\ clock h mi s ms.
Proof.
  intros [(Hm & (len & L & Hd) & _) K].
  assert (M : 1 <= m <= 12) by lia.
  replace (m - 1 + 1) with m in L by lia.
  rewrite (monthLength_days_in_month m y M) in L. injection L as <-.
  repeat split; try assumption; try lia; apply K.
Qed.

(** [set] on each unit, in terms of the fields. *)
Lemma set_fields d0 x y m dt h mi s ms (u : TimeUnit) (v : Z) :
  wf d0 -> keeps d0 x -> fields x y m dt h mi s ms -> year_in_range y ->
  match u with
  | year => False
  | month => 1 <= v <= 12
  | day => 1 <= v <= days_in_month m y
  | hour => 0 <= v < 24
  | minute | second => 0 <= v < 60
  | millisecond => 0 <= v < 1000
  end ->
  set x u v =
  Ok (match u with
      | year => x
      | month => with_fields d0 y v (Z.min dt (days_in_month v y)) h mi s ms
      | day => with_fields d0 y m v h mi s ms
      | hour => with_fields d0 y m dt v mi s ms
      | minute => with_fields d0 y m dt h v s ms
      | second => with_fields d0 y m dt h mi v ms
      | millisecond => with_fields d0 y m dt h mi s v
      end).
Proof.
  intros W K F Hy Hv.
  pose proof (fields_ranges _ _ _ _ _ _ _ _ F) as (Hm & Hd & Kc).
  pose proof F as [C _].
  pose proof (civil_fields _ _ _ _ _ C) as (Y & M & D & T & Dy).
  pose proof (MakeTime_fields (MakeDay y (m - 1) dt) h mi s ms Kc) as (_ & Fh & Fm & Fs & Fl).
  cbv zeta in Fh, Fm, Fs, Fl.
  destruct C as (_ & _ & _ & E). rewrite <- E in Fh, Fm, Fs, Fl.
  destruct u; try contradiction.
  - (* month *)
    destruct (set_month_civil x y (m - 1) dt (MakeTime h mi s ms) v
                (keeps_wf _ _ K) (proj1 F) Hv Hy) as (S & _ & _).
    rewrite S. destruct K as (-> & -> & _). reflexivity.
  - (* day *)
    unfold set. cbv zeta.
    assert (L : monthLength (m - 1 + 1) y = Some (days_in_month m y)).
    { replace (m - 1 + 1) with m by lia. apply monthLength_days_in_month, Hm. }
    destruct (setUTCDate_civil _ _ _ _ _ v _ (proj1 F) L Hv Hy) as [-> _].
    apply fork_with_fields; assumption.
  - (* hour *)
    unfold set, setUTCHours, default, id. cbv zeta.
    cbn [mbind option_bind from_option]. rewrite Dy, Fm, Fs, Fl.
    assert (Kc' : clock v mi s ms) by (unfold clock in *; lia).
    destruct (with_fields_ok d0 y m dt v mi s ms W Hm Hd Kc' Hy) as [_ (_ & _ & _ & Ww)].
    rewrite TimeClip_in by apply Ww. apply fork_with_fields; assumption.
  - (* minute *)
    unfold set, setUTCMinutes. cbv zeta.
    cbn [mbind option_bind]. rewrite Dy, Fh, Fs, Fl.
    assert (Kc' : clock h v s ms) by (unfold clock in *; lia).
    destruct (with_fields_ok d0 y m dt h v s ms W Hm Hd Kc' Hy) as [_ (_ & _ & _ & Ww)].
    rewrite TimeClip_in by apply Ww. apply fork_with_fields; assumption.
  - (* second *)
    unfold set, setUTCSeconds. cbv zeta.
    cbn [mbind option_bind]. rewrite Dy, Fh, Fm, Fl.
    assert (Kc' : clock h mi v ms) by (unfold clock in *; lia).
    destruct (with_fields_ok d0 y m dt h mi v ms W Hm Hd Kc' Hy) as [_ (_ & _ & _ & Ww)].
    rewrite TimeClip_in by apply Ww. apply fork_with_fields; assumption.
  - (* millisecond *)
    unfold set, setUTCMilliseconds. cbv zeta.
    cbn [mbind option_bind]. rewrite Dy, Fh, Fm, Fs.
    assert (Kc' : clock h mi s v) by (unfold clock in *; lia).
    destruct (with_fields_ok d0 y m dt h mi s v W Hm Hd Kc' Hy) as [_ (_ & _ & _ & Ww)].
    rewrite TimeClip_in by apply Ww. apply fork_with_fields; assumption.
Qed.

(** *** [toJSON] and [fromJSON] *)

Lemma new_json d v :
  wf d -> Z.abs v <= maxTime ->
  new (Some v) (timezone d) (if duration d =? 0 then None else Some (duration d)) None
  = Ok (DateTime.mk v (timezone d) (duration d) []).
Proof.
  intros W R. destruct (Z.eqb_spec (duration d) 0) as [E|N].
  - destruct W as (Hd & Hz & _). unfold new, default, id. cbn [from_option].
    change (0 <? 0) with false. cbv iota. rewrite E.
    destruct (timezone d) as [[|]|]; [contradiction|reflexivity..].
  - destruct (new_ok v (timezone d) (duration d) None) as [-> _];
      [apply W|apply W|exact R|reflexivity].
Qed.

Lemma DayFromYear_1900_2000 : DayFromYear 1900 = -25567 /\ DayFromYear 2000 = 10957.
Proof. split; reflexivity. Qed.

Lemma DaysBeforeMonth_bound mn l :
  0 <= mn <= 11 -> l = 0 \/ l = 1 -> 0 <= DaysBeforeMonth mn l <= 335.
Proof. intros H L. month_cases H; cbn; lia. Qed.

Lemma fromJSON_toJSON d :
  fromJSON (toJSON d)
  = new (let yr := if (0 <=? get d year) && (get d year <=? 99)
                   then 1900 + get d year else get d year in
         TimeClip (MakeDate (MakeDay yr (get d month - 1) (get d day))
                     (MakeTime (get d hour) (get d minute) (get d second)
                        (get d millisecond))))
      (timezone d) (if duration d =? 0 then None else Some (duration d)) None.
Proof. reflexivity. Qed.

Lemma json_same_year d :
  wf d -> ~ 0 <= get d year <= 99 ->
  fromJSON (toJSON d) = Ok (DateTime.mk (date d) (timezone d) (duration d) []).
Proof.
  intros W N. rewrite fromJSON_toJSON. cbv zeta.
  assert (B : (0 <=? get d year) && (get d year <=? 99) = false).
  { destruct (Z.leb_spec 0 (get d year)), (Z.leb_spec (get d year) 99);
      try reflexivity. lia. }
  rewrite B. destruct (fields_of d) as [(_ & _ & _ & <-) _].
  rewrite TimeClip_in by apply W. apply new_json; [exact W|apply W].
Qed.

Lemma json_early_year d :
  wf d -> 0 <= get d year <= 99 ->
  let t' := MakeDate (MakeDay (1900 + get d year) (get d month - 1) (get d day))
              (MakeTime (get d hour) (get d minute) (get d second)
                 (get d millisecond)) in
  fromJSON (toJSON d) = Ok (DateTime.mk t' (timezone d) (duration d) []) /\
  1900 + get d year <= YearFromTime t' /\ date d < t'.
Proof.
  intros W Y t'. pose proof (fields_of d) as F.
  pose proof (fields_ranges _ _ _ _ _ _ _ _ F) as (Hm & Hd & Kc).
  assert (Et : t' = MakeDate (MakeDay (1900 + get d year) (get d month - 1) (get d day))
                      (MakeTime (get d hour) (get d minute) (get d second)
                         (get d millisecond))) by reflexivity.
  clearbody t'.
  set (y' := 1900 + get d year) in *.
  pose proof (MakeTime_bound _ _ _ _ Kc) as Bt.
  assert (Dm : MakeDay y' (get d month - 1) (get d day)
               = DayFromYear y' + DaysBeforeMonth (get d month - 1) (leap y')
                 + get d day - 1) by (apply MakeDay_in_year; lia).
  pose proof (DaysBeforeMonth_bound (get d month - 1) (leap y') ltac:(lia)
                (leap_cases y')) as Bm.
  assert (Hdt : 1 <= get d day <= 31).
  { destruct (monthLength_some (get d year) (get d month - 1) ltac:(lia))
      as (len & L & Hl).
    replace (get d month - 1 + 1) with (get d month) in L by lia.
    rewrite (monthLength_days_in_month _ _ Hm) in L.
    assert (L' : days_in_month (get d month) (get d year) = len) by congruence.
    lia. }
  pose proof (DayFromYear_le 1900 y' ltac:(lia)) as L1.
  pose proof (DayFromYear_le y' 2000 ltac:(lia)) as L2.
  destruct DayFromYear_1900_2000 as [V1 V2]. rewrite V1 in L1. rewrite V2 in L2.
  assert (T' : t' = (DayFromYear y' + DaysBeforeMonth (get d month - 1) (leap y')
                     + get d day - 1) * 86400000
                    + MakeTime (get d hour) (get d minute) (get d second)
                        (get d millisecond)).
  { rewrite Et. unfold MakeDate. rewrite Dm. unfold msPerDay. reflexivity. }
  clear Dm F.
  assert (Bt' : 0 <= MakeTime (get d hour) (get d minute) (get d second)
                       (get d millisecond) < 86400000) by exact Bt.
  assert (R : Z.abs t' <= 8640000000000000) by lia.
  split; [|split].
  - rewrite fromJSON_toJSON. cbv zeta.
    assert (B : (0 <=? get d year) && (get d year <=? 99) = true).
    { destruct (Z.leb_spec 0 (get d year)), (Z.leb_spec (get d year) 99);
        try reflexivity; lia. }
    rewrite B. fold y'. rewrite <- Et.
    rewrite TimeClip_in by exact R. apply new_json; [exact W|exact R].
  - apply (proj2 (YearFromDay_largest t')).
    unfold TimeFromYear, msPerDay. lia.
  - pose proof (YearFromDay_spec (Day (date d))) as [_ U].
    change (YearFromDay (Day (date d))) with (get d year) in U.
    pose proof (DayFromYear_le (get d year + 1) 1900 ltac:(lia)) as L3.
    rewrite V1 in L3.
    pose proof (MakeDate_Day (date d)) as Md.
    pose proof (TimeWithinDay_bound (date d)) as Bd.
    unfold MakeDate, msPerDay in Md, Bd. lia.
Qed.

(** X4.  [fromJSON(d.toJSON())] gives the instant [d] back (without
    its generators), except in the years 0 to 99: [Date.UTC] reads those
    as 1900 to 1999, and the result is a later instant in the year
    [1900 + year] or after it. *)
Theorem json_round_trip (d : DateTime.t) :
  wf d ->
  (~ 0 <= get d year <= 99 ->
   fromJSON (toJSON d) = Ok (DateTime.mk (valueOf d) (timezone d) (duration d) [])) /\
  (0 <= get d year <= 99 ->
   exists d',
     fromJSON (toJSON d) = Ok d' /\
     1900 + get d year <= get d' year /\ valueOf d < valueOf d').
Proof.
  intros W. split; [apply json_same_year, W|].
  intros Y. destruct (json_early_year d W Y) as (E & L & V).
  eexists. split; [exact E|]. split; [exact L|exact V].
Qed.

Definition year_50 : DateTime.t := DateTime.mk (-60589296000000) None 0 [].

Lemma json_round_trip_witness :
  get year_50 year = 50 /\
  fromJSON (toJSON year_50) = Ok (DateTime.mk (-631152000000) None 0 []) /\
  get (DateTime.mk (-631152000000) None 0 []) year = 1950 /\
  fromJSON (toJSON noon_2019)
  = Ok (DateTime.mk 1546344000000 (Some "UTC"%string) 3600000 []).
Proof.
  assert (W50 : wf year_50)
    by (unfold wf, maxTime; cbn; split; [lia|split; [discriminate|lia]]).
  assert (W19 : wf noon_2019)
    by (unfold wf, maxTime; cbn; split; [lia|split; [discriminate|lia]]).
  split; [reflexivity|]. split; [vm_compute; reflexivity|]. split; [reflexivity|].
  apply (proj1 (json_round_trip noon_2019 W19)). vm_compute. intros [_ H]. apply H.
  reflexivity.
Defined.

(** *** [get('yearday')] *)

Lemma UTC_first_of_year y :
  ~ 0 <= y <= 99 -> year_in_range y \/ y = 275760 ->
  UTC y 0 1 0 0 0 0 = Some (DayFromYear y * msPerDay).
Proof.
  intros N Hy. unfold UTC. cbv zeta.
  assert (B : (0 <=? y) && (y <=? 99) = false).
  { destruct (Z.leb_spec 0 y), (Z.leb_spec y 99); try reflexivity. lia. }
  rewrite B. rewrite MakeDay_in_year by lia. cbn [DaysBeforeMonth].
  change (MakeTime 0 0 0 0) with 0. unfold MakeDate.
  replace ((DayFromYear y + 0 + 1 - 1) * msPerDay + 0) with (DayFromYear y * msPerDay)
    by lia.
  apply TimeClip_in.
  assert (L : -100000000 <= DayFromYear y <= 100000000).
  { destruct range_ends as [R1 R2]. destruct Hy as [[Y1 Y2]| ->].
    - pose proof (DayFromYear_le _ _ Y1).
      pose proof (DayFromYear_le y (275759 + 1) ltac:(lia)). lia.
    - change (275760) with (275759 + 1). split; [vm_compute; discriminate|lia]. }
  unfold maxTime, msPerDay. lia.
Qed.

Lemma Day_shift t k : Day (t - k * msPerDay) = Day t - k.
Proof.
  unfold Day, msPerDay. replace (t - k * 86400000) with (t + (- k) * 86400000) by lia.
  rewrite Z.div_add by lia. lia.
Qed.

Lemma wf_year_bounds d : wf d -> -271821 <= get d year <= 275760.
Proof.
  intros (_ & _ & R). unfold get.
  pose proof (YearFromDay_spec (Day (date d))) as [L U].
  change (YearFromDay (Day (date d))) with (YearFromTime (date d)) in *.
  assert (D : -100000000 <= Day (date d) <= 100000000).
  { unfold Day, maxTime, msPerDay in *. Z.div_mod_to_equations. lia. }
  destruct range_ends as [R1 R2].
  destruct (Z.le_gt_cases (YearFromTime (date d)) 275760) as [A|A].
  - split; [|exact A].
    destruct (Z.le_gt_cases (-271821) (YearFromTime (date d))) as [A'|A']; [exact A'|].
    exfalso.
    pose proof (DayFromYear_le (YearFromTime (date d) + 1) (-271821) ltac:(lia)).
    assert (DayFromYear (-271821) < -100000000) by (vm_compute; reflexivity). lia.
  - exfalso.
    pose proof (DayFromYear_le 275761 (YearFromTime (date d)) ltac:(lia)).
    assert (100000000 < DayFromYear 275761) by (vm_compute; reflexivity). lia.
Qed.

(** X5.  Outside the years 0 to 99, and from the year -271820 on,
    [get('yearday')] is the number of the day in its year: the days of
    the months before plus the day of the month, between 1 and the
    number of days of the year.  In the years 0 to 99 it is negative
    ([Date.UTC] reads the year as 1900 to 1999), and in the incomplete
    first year of the range of [Date] it is [NaN]. *)
Theorem yearday_spec (d : DateTime.t) :
  wf d ->
  let y := get d year in
  (~ 0 <= y <= 99 -> -271820 <= y ->
   exists yd,
     get_yearday d = Some yd /\ 1 <= yd <= getDaysInYear y /\
     yd = DaysBeforeMonth (get d month - 1) (if isLeapYear y then 1 else 0)
          + get d day) /\
  (0 <= y <= 99 -> exists yd, get_yearday d = Some yd /\ yd < 0) /\
  (y = -271821 -> get_yearday d = None).
Proof.
  intros W y. pose proof (wf_year_bounds d W) as By. fold y in By.
  unfold get_yearday, getUTCYearDay.
  cbv [getUTCFullYear fmap option_fmap option_map mbind option_bind].
  change (YearFromTime (date d)) with y.
  pose proof (YearFromDay_spec (Day (date d))) as [L U].
  change (YearFromDay (Day (date d))) with y in L, U.
  split; [|split].
  - intros N Y. rewrite UTC_first_of_year by (unfold year_in_range; lia).
    eexists. split; [reflexivity|].
    replace (date d - DayFromYear y * msPerDay)
      with (date d - DayFromYear y * msPerDay) by reflexivity.
    change MILLISECONDS_IN_DAY with msPerDay.
    change ((date d - DayFromYear y * msPerDay) / msPerDay)
      with (Day (date d - DayFromYear y * msPerDay)).
    rewrite Day_shift. rewrite DayFromYear_succ in U.
    unfold getDaysInYear. rewrite DaysInYear_isLeapYear in U.
    split; [destruct (isLeapYear y); lia|].
    rewrite <- leap_isLeapYear. unfold get.
    replace (MonthFromTime (date d) + 1 - 1) with (MonthFromTime (date d)) by lia.
    unfold DateFromTime, DayWithinYear, InLeapYear. fold (leap (YearFromTime (date d))).
    change (YearFromTime (date d)) with y. lia.
  - intros Y. unfold UTC. cbv zeta.
    assert (B : (0 <=? y) && (y <=? 99) = true).
    { destruct (Z.leb_spec 0 y), (Z.leb_spec y 99); try reflexivity; lia. }
    rewrite B. rewrite MakeDay_in_year by lia. cbn [DaysBeforeMonth].
    change (MakeTime 0 0 0 0) with 0. unfold MakeDate.
    replace ((DayFromYear (1900 + y) + 0 + 1 - 1) * msPerDay + 0)
      with (DayFromYear (1900 + y) * msPerDay) by lia.
    pose proof (DayFromYear_le 1900 (1900 + y) ltac:(lia)) as L1.
    pose proof (DayFromYear_le (1900 + y) 2000 ltac:(lia)) as L2.
    destruct DayFromYear_1900_2000 as [V1 V2]. rewrite V1 in L1. rewrite V2 in L2.
    rewrite TimeClip_in by (unfold maxTime, msPerDay; lia).
    eexists. split; [reflexivity|].
    change MILLISECONDS_IN_DAY with msPerDay.
    change ((date d - DayFromYear (1900 + y) * msPerDay) / msPerDay)
      with (Day (date d - DayFromYear (1900 + y) * msPerDay)).
    rewrite Day_shift.
    pose proof (DayFromYear_le (y + 1) 100 ltac:(lia)) as L3.
    assert (V3 : DayFromYear 100 < -25568) by (vm_compute; reflexivity). lia.
  - intros ->. unfold UTC. cbv zeta. reflexivity.
Qed.

Definition july4_2020 : DateTime.t := DateTime.mk 1593820800000 None 0 [].

Lemma yearday_spec_witness : get_yearday july4_2020 = Some 186.
Proof.
  destruct (yearday_spec july4_2020) as (R & _ & _).
  - unfold wf, maxTime; cbn; split; [lia|split; [discriminate|lia]].
  - destruct R as (yd & E & _ & V).
    + vm_compute. intros [_ H]. apply H. reflexivity.
    + vm_compute. discriminate.
    + rewrite E, V. reflexivity.
Defined.

(** *** [granularity] and [endGranularity] on the time units *)

Lemma days_in_month_bounds m y : 28 <= days_in_month m y <= 31.
Proof.
  unfold days_in_month. repeat case_match; lia.
Qed.

Lemma set_with_fields d y m dt h mi s ms (u : TimeUnit) (v : Z) :
  wf d -> year_in_range y -> 1 <= m <= 12 -> 1 <= dt <= days_in_month m y ->
  clock h mi s ms ->
  match u with
  | year => False
  | month => 1 <= v <= 12
  | day => 1 <= v <= days_in_month m y
  | hour => 0 <= v < 24
  | minute | second => 0 <= v < 60
  | millisecond => 0 <= v < 1000
  end ->
  set (with_fields d y m dt h mi s ms) u v =
  Ok (match u with
      | year => d
      | month => with_fields d y v (Z.min dt (days_in_month v y)) h mi s ms
      | day => with_fields d y m v h mi s ms
      | hour => with_fields d y m dt v mi s ms
      | minute => with_fields d y m dt h v s ms
      | second => with_fields d y m dt h mi v ms
      | millisecond => with_fields d y m dt h mi s v
      end).
Proof.
  intros W Hy Hm Hd K Hv.
  destruct (with_fields_ok d y m dt h mi s ms W Hm Hd K Hy) as [F Kp].
  rewrite (set_fields d _ y m dt h mi s ms u v W Kp F Hy Hv).
  destruct u; [contradiction|reflexivity..].
Qed.

Lemma fork_self d :
  wf d ->
  forkDateTime d (Some (date d))
  = Ok (with_fields d (get d year) (get d month) (get d day) (get d hour)
          (get d minute) (get d second) (get d millisecond)).
Proof.
  intros W. destruct (forkDateTime_ok d (date d) W (proj2 (proj2 W))) as [-> _].
  unfold with_fields. destruct (fields_of d) as [(_ & _ & _ & <-) _]. reflexivity.
Qed.

Lemma with_fields_get d y m dt h mi s ms :
  wf d -> year_in_range y -> 1 <= m <= 12 -> 1 <= dt <= days_in_month m y ->
  clock h mi s ms ->
  let x := with_fields d y m dt h mi s ms in
  get x year = y /\ get x month = m /\ get x day = dt /\ get x hour = h /\
  get x minute = mi /\ get x second = s /\ get x millisecond = ms.
Proof.
  intros W Hy Hm Hd K x.
  destruct (with_fields_ok d y m dt h mi s ms W Hm Hd K Hy) as [F _].
  apply fields_get, F.
Qed.

(** The order of instants of one year is the order of their fields. *)
Definition fields_le (m dt h mi s ms m' dt' h' mi' s' ms' : Z) : Prop :=
  m < m' \/ (m = m' /\ (dt < dt' \/ (dt = dt' /\ (h < h' \/ (h = h' /\
  (mi < mi' \/ (mi = mi' /\ (s < s' \/ (s = s' /\ ms <= ms'))))))))).

Lemma MakeDay_month_lt y m dt m' dt' :
  1 <= m -> m < m' -> m' <= 12 -> 1 <= dt <= days_in_month m y -> 1 <= dt' ->
  MakeDay y (m - 1) dt < MakeDay y (m' - 1) dt'.
Proof.
  intros H1 H2 H3 Hd Hd'.
  rewrite !MakeDay_in_year by lia.
  assert (L : monthLength (m - 1 + 1) y = Some (days_in_month m y)).
  { replace (m - 1 + 1) with m by lia. apply monthLength_days_in_month. lia. }
  pose proof (monthLength_offsets y (m - 1) _ ltac:(lia) L) as O.
  destruct (Z.eqb_spec (m - 1) 11); [lia|].
  pose proof (ByMonthFacts.DaysBeforeMonth_mono (leap y) (m - 1 + 1) (m' - 1) ltac:(lia) ltac:(lia)
                ltac:(lia) (leap_cases y)).
  lia.
Qed.

Lemma fields_order a b y m dt h mi s ms m' dt' h' mi' s' ms' :
  fields a y m dt h mi s ms -> fields b y m' dt' h' mi' s' ms' ->
  fields_le m dt h mi s ms m' dt' h' mi' s' ms' -> date a <= date b.
Proof.
  intros Fa Fb L.
  pose proof (fields_ranges _ _ _ _ _ _ _ _ Fa) as (Hm & Hd & Ka).
  pose proof (fields_ranges _ _ _ _ _ _ _ _ Fb) as (Hm' & Hd' & Kb).
  destruct Fa as [(_ & _ & _ & ->) _]. destruct Fb as [(_ & _ & _ & ->) _].
  pose proof (MakeTime_bound _ _ _ _ Ka) as Ba.
  pose proof (MakeTime_bound _ _ _ _ Kb) as Bb.
  unfold MakeDate, msPerDay in *.
  destruct L as [L|[<- L]].
  - pose proof (MakeDay_month_lt y m dt m' dt' ltac:(lia) L ltac:(lia) Hd ltac:(lia)).
    lia.
  - rewrite !MakeDay_in_year by lia.
    destruct L as [L|[<- L]]; [lia|].
    assert (MakeTime h mi s ms <= MakeTime h' mi' s' ms'); [|lia].
    unfold clock, MakeTime, msPerHour, msPerMinute, msPerSecond in *. lia.
Qed.

Definition rank (u : TimeUnit) : Z :=
  match u with
  | year => 0 | month => 1 | day => 2 | hour => 3
  | minute => 4 | second => 5 | millisecond => 6
  end.

(** The least value of a field. *)
Definition lowest (f : TimeUnit) : Z :=
  match f with
  | month | day => 1
  | _ => 0
  end.

(** The greatest value of a field, in the month and year of [d]. *)
Definition highest (d : DateTime.t) (f : TimeUnit) : Z :=
  match f with
  | year => get d year
  | month => 12
  | day => days_in_month (get d month) (get d year)
  | hour => 23
  | minute | second => 59
  | millisecond => 999
  end.

(** The start of the unit [u] that [d] lies in. *)
Definition start_of (d : DateTime.t) (u : TimeUnit) : DateTime.t :=
  let y := get d year in
  let m := get d month in
  let dt := get d day in
  let h := get d hour in
  let mi := get d minute in
  let s := get d second in
  let ms := get d millisecond in
  match u with
  | year => with_fields d y 1 1 0 0 0 0
  | month => with_fields d y m 1 0 0 0 0
  | day => with_fields d y m dt 0 0 0 0
  | hour => with_fields d y m dt h 0 0 0
  | minute => with_fields d y m dt h mi 0 0
  | second => with_fields d y m dt h mi s 0
  | millisecond => with_fields d y m dt h mi s ms
  end.

(** The last millisecond of the unit [u] that [d] lies in. *)
Definition end_of (d : DateTime.t) (u : TimeUnit) : DateTime.t :=
  let y := get d year in
  let m := get d month in
  let dt := get d day in
  let h := get d hour in
  let mi := get d minute in
  let s := get d second in
  let ms := get d millisecond in
  match u with
  | year => with_fields d y 12 31 23 59 59 999
  | month => with_fields d y m (days_in_month m y) 23 59 59 999
  | day => with_fields d y m dt 23 59 59 999
  | hour => with_fields d y m dt h 59 59 999
  | minute => with_fields d y m dt h mi 59 999
  | second => with_fields d y m dt h mi s 999
  | millisecond => with_fields d y m dt h mi s ms
  end.

Ltac ranges :=
  first [ assumption | lia
        | unfold clock in *; lia
        | match goal with |- _ <= _ <= days_in_month ?m ?y =>
            pose proof (days_in_month_bounds m y); lia end ].

Lemma bind_Ok {A B} (x : A) (f : A -> result B) : (Ok x ≫= f) = f x.
Proof. reflexivity. Qed.

Ltac set_steps W Hy :=
  repeat first
    [ rewrite bind_Ok
    | rewrite set_with_fields by (first [exact W|exact Hy|ranges]) ].

Lemma granularity_start d u ws :
  wf d -> year_in_range (get d year) ->
  granularity d (unit u) ws = Ok (start_of d u).
Proof.
  intros W Hy.
  pose proof (fields_ranges _ _ _ _ _ _ _ _ (fields_of d)) as (Hm & Hd & K).
  pose proof (days_in_month_bounds 1 (get d year)).
  unfold granularity. rewrite (fork_self d W).
  destruct u; set_steps W Hy; reflexivity.
Qed.

Lemma endGranularity_end d u ws :
  wf d -> year_in_range (get d year) ->
  endGranularity d (unit u) ws = Ok (end_of d u).
Proof.
  intros W Hy.
  pose proof (fields_ranges _ _ _ _ _ _ _ _ (fields_of d)) as (Hm & Hd & K).
  pose proof (days_in_month_bounds (get d month) (get d year)) as Bd.
  assert (D12 : days_in_month 12 (get d year) = 31) by reflexivity.
  unfold endGranularity. rewrite (fork_self d W).
  destruct u; set_steps W Hy; try reflexivity.
  - (* year *)
    change (days_in_month 12 (get d year)) with 31.
    destruct (with_fields_get d (get d year) 12 (Z.min (get d day) 31)
                (get d hour) (get d minute) (get d second) (get d millisecond)
                W Hy ltac:(lia) ltac:(change (days_in_month 12 (get d year)) with 31; lia) K)
      as (-> & -> & _).
    cbn [monthLength set_day_to].
    rewrite set_with_fields
      by (first [exact W|exact Hy|change (days_in_month 12 (get d year)) with 31; lia|ranges]).
    set_steps W Hy. reflexivity.
  - (* month *)
    destruct (with_fields_get d (get d year) (get d month) (get d day)
                (get d hour) (get d minute) (get d second) (get d millisecond)
                W Hy Hm Hd K) as (-> & -> & _).
    rewrite (monthLength_days_in_month _ _ Hm). cbn [set_day_to].
    set_steps W Hy. reflexivity.
Qed.

(** X6.  For an instant in a year between -271820 and 275759 (the
    years that are entirely inside the range of [Date]) and a time
    unit, [granularity] gives the first and [endGranularity] the last
    millisecond of the unit the instant lies in: the fields down to the
    unit are kept, the finer fields take their least value (their
    greatest, for [endGranularity]: December, the last day of the month,
    23:59:59.999), and the instant lies between the two. *)
Theorem granularity_brackets (d : DateTime.t) (u : TimeUnit)
    (ws : option ByDayOfMonthRuleModule.Weekday) :
  wf d -> -271820 <= get d year <= 275759 ->
  exists s e,
    granularity d (unit u) ws = Ok s /\ endGranularity d (unit u) ws = Ok e /\
    valueOf s <= valueOf d <= valueOf e /\
    forall f : TimeUnit,
      if rank f <=? rank u then get s f = get d f /\ get e f = get d f
      else get s f = lowest f /\ get e f = highest e f.
Proof.
  intros W Hy.
  pose proof (fields_of d) as F.
  pose proof (fields_ranges _ _ _ _ _ _ _ _ F) as (Hm & Hd & K).
  pose proof (days_in_month_bounds (get d month) (get d year)) as Bd.
  assert (D12 : days_in_month 12 (get d year) = 31) by reflexivity.
  exists (start_of d u), (end_of d u).
  split; [apply granularity_start; assumption|].
  split; [apply endGranularity_end; assumption|].
  assert (Fs : exists y m dt h mi s ms,
             fields (start_of d u) y m dt h mi s ms /\
             start_of d u = with_fields d y m dt h mi s ms /\ y = get d year /\
             fields_le m dt h mi s ms (get d month) (get d day) (get d hour)
               (get d minute) (get d second) (get d millisecond) /\
             forall f, if rank f <=? rank u
                       then TimeUnit_rect (fun _ => Z) y m dt h mi s ms f = get d f
                       else TimeUnit_rect (fun _ => Z) y m dt h mi s ms f = lowest f).
  { unfold start_of, fields_le. unfold clock in K.
    destruct u; do 7 eexists;
      (split; [apply with_fields_ok; first [exact W|exact Hy|ranges]|]);
      (split; [reflexivity|]); (split; [reflexivity|]);
      (split; [lia|intros []; cbn; reflexivity]). }
  assert (Fe : exists y m dt h mi s ms,
             fields (end_of d u) y m dt h mi s ms /\
             end_of d u = with_fields d y m dt h mi s ms /\ y = get d year /\
             fields_le (get d month) (get d day) (get d hour)
               (get d minute) (get d second) (get d millisecond) m dt h mi s ms /\
             forall f, if rank f <=? rank u
                       then TimeUnit_rect (fun _ => Z) y m dt h mi s ms f = get d f
                       else TimeUnit_rect (fun _ => Z) y m dt h mi s ms f
                            = match f with
                              | year => y | month => 12 | day => days_in_month m y
                              | hour => 23 | minute | second => 59
                              | millisecond => 999
                              end).
  { unfold end_of, fields_le. unfold clock in K.
    destruct u; do 7 eexists;
      (split; [apply with_fields_ok;
               first [exact W|exact Hy
                     |change (days_in_month 12 (get d year)) with 31; lia|ranges]|]);
      (split; [reflexivity|]); (split; [reflexivity|]);
      (split; [lia|intros []; cbn; reflexivity]). }
  destruct Fs as (y & m & dt & h & mi & s & ms & Fs & _ & -> & Ls & Gs).
  destruct Fe as (y' & m' & dt' & h' & mi' & s' & ms' & Fe & _ & -> & Le & Ge).
  split.
  - unfold valueOf. split.
    + exact (fields_order _ _ _ _ _ _ _ _ _ _ _ _ _ _ _ Fs F Ls).
    + exact (fields_order _ _ _ _ _ _ _ _ _ _ _ _ _ _ _ F Fe Le).
  - pose proof (fields_get _ _ _ _ _ _ _ _ Fs) as (S1 & S2 & S3 & S4 & S5 & S6 & S7).
    pose proof (fields_get _ _ _ _ _ _ _ _ Fe) as (E1 & E2 & E3 & E4 & E5 & E6 & E7).
    intros f. specialize (Gs f). specialize (Ge f). unfold highest.
    rewrite E1, E2.
    destruct (rank f <=? rank u); destruct f; cbn [TimeUnit_rect] in Gs, Ge;
      split; congruence.
Qed.

Lemma granularity_brackets_witness :
  granularity noon_2019 (unit month) None
    = Ok (DateTime.mk 1546300800000 (Some "UTC"%string) 3600000 []) /\
  endGranularity noon_2019 (unit month) None
    = Ok (DateTime.mk 1548979199999 (Some "UTC"%string) 3600000 []).
Proof.
  destruct (granularity_brackets noon_2019 month None) as (s & e & S & E & _).
  - unfold wf, maxTime; cbn; split; [lia|split; [discriminate|lia]].
  - vm_compute. split; discriminate.
  - split; [vm_compute; reflexivity|vm_compute; reflexivity].
Defined.

End DateTimeFieldFacts.

Module WeekFacts.
Import ByDayOfMonthRuleModule.
Import JsDate JsDateFacts DateTimeFacts.
Import DateTime CoreDateTime CoreDateTimeFacts DateTimeFieldFacts.

(** *** Weekdays *)

(** The position of a weekday in [WEEKDAYS]. *)
Definition weekday_number (w : Weekday) : Z := indexOf WEEKDAYS w.

Lemma weekday_number_range w : 0 <= weekday_number w <= 6.
Proof. destruct w; vm_compute; split; discriminate. Qed.

Lemma at_index_weekday w : at_index WEEKDAYS (weekday_number w) = Some w.
Proof. destruct w; reflexivity. Qed.

Lemma at_index_WEEKDAYS i :
  0 <= i <= 6 -> exists w, at_index WEEKDAYS i = Some w /\ weekday_number w = i.
Proof.
  intros H.
  assert (C : i = 0 \/ i = 1 \/ i = 2 \/ i = 3 \/ i = 4 \/ i = 5 \/ i = 6) by lia.
  repeat (destruct C as [->|C]); [..|subst i]; eexists; split; reflexivity.
Qed.

Lemma WeekDay_range t : 0 <= WeekDay t <= 6.
Proof. unfold WeekDay. pose proof (Z.mod_pos_bound (Day t + 4) 7). lia. Qed.

Lemma get_weekday_spec d :
  exists w, get_weekday d = Some w /\ weekday_number w = WeekDay (date d).
Proof. apply at_index_WEEKDAYS, WeekDay_range. Qed.

Lemma orderedWeekdays_index ws w :
  indexOf (orderedWeekdays ws) w
  = (weekday_number w - weekday_number (default SU ws)) mod 7.
Proof. destruct ws as [[]|], w; reflexivity. Qed.

Lemma weekday_index_spec ws d :
  weekday_index ws d = (WeekDay (date d) - weekday_number (default SU ws)) mod 7.
Proof.
  unfold weekday_index. destruct (get_weekday_spec d) as (w & -> & <-).
  apply orderedWeekdays_index.
Qed.

Lemma WeekDay_shift t k : WeekDay (t + k * msPerDay) = (WeekDay t + k) mod 7.
Proof.
  unfold WeekDay.
  replace (t + k * msPerDay) with (t - (- k) * msPerDay) by lia.
  rewrite Day_shift. rewrite Zplus_mod_idemp_l. f_equal. lia.
Qed.

(** X7.  [orderedWeekdays(wkst)] lists the seven weekdays once each, in
    the order of the week, starting at [wkst] (at Sunday when there is
    none): the weekday at position [i] is the one [i] days after
    [wkst]. *)
Theorem orderedWeekdays_rotation (wkst : option Weekday) :
  length (orderedWeekdays wkst) = 7%nat /\
  head (orderedWeekdays wkst) = Some (default SU wkst) /\
  Permutation WEEKDAYS (orderedWeekdays wkst) /\
  forall w : Weekday,
    at_index (orderedWeekdays wkst)
      ((weekday_number w - weekday_number (default SU wkst)) mod 7) = Some w.
Proof.
  split; [destruct wkst as [[]|]; reflexivity|].
  split; [destruct wkst as [[]|]; reflexivity|].
  split.
  - assert (R : forall l : list Weekday, Permutation l (shiftArray l from_first)).
    { intros [|x l]; [reflexivity|]. cbn. apply Permutation_cons_append. }
    unfold orderedWeekdays. cbv zeta.
    generalize (Z.to_nat (indexOf WEEKDAYS (default SU wkst))). intros n.
    induction n as [|n IH]; [reflexivity|]. cbn [Nat.iter].
    etransitivity; [exact IH|apply R].
  - intros w. destruct wkst as [[]|], w; reflexivity.
Qed.

(** *** Changes of the clock within a day *)

Lemma day_in_range D tod :
  -100000000 <= D < 100000000 -> 0 <= tod < msPerDay ->
  Z.abs (MakeDate D tod) <= maxTime.
Proof. unfold MakeDate, maxTime, msPerDay. lia. Qed.

Lemma set_clock x D h mi s ms (u : TimeUnit) (v : Z) :
  wf x -> date x = MakeDate D (MakeTime h mi s ms) -> clock h mi s ms ->
  -100000000 <= D < 100000000 ->
  match u with
  | hour => 0 <= v < 24
  | minute | second => 0 <= v < 60
  | millisecond => 0 <= v < 1000
  | _ => False
  end ->
  set x u v =
  Ok (DateTime.mk
        (MakeDate D (match u with
                     | hour => MakeTime v mi s ms
                     | minute => MakeTime h v s ms
                     | second => MakeTime h mi v ms
                     | _ => MakeTime h mi s v
                     end))
        (timezone x) (duration x) []).
Proof.
  intros W E K HD Hv.
  pose proof (MakeTime_fields D h mi s ms K) as (Fd & Fh & Fm & Fs & Fl).
  cbv zeta in Fd, Fh, Fm, Fs, Fl. rewrite <- E in Fd, Fh, Fm, Fs, Fl.
  assert (R : forall h' mi' s' ms', clock h' mi' s' ms' ->
                Z.abs (MakeDate D (MakeTime h' mi' s' ms')) <= maxTime).
  { intros. apply day_in_range; [exact HD|apply MakeTime_bound; assumption]. }
  unfold clock in K.
  destruct u; try contradiction; unfold set; cbv zeta.
  - unfold setUTCHours, default, id. cbn [mbind option_bind from_option].
    rewrite Fd, Fm, Fs, Fl.
    assert (R' := R v mi s ms ltac:(unfold clock; lia)).
    rewrite TimeClip_in by exact R'. apply forkDateTime_ok; assumption.
  - unfold setUTCMinutes. cbn [mbind option_bind]. rewrite Fd, Fh, Fs, Fl.
    assert (R' := R h v s ms ltac:(unfold clock; lia)).
    rewrite TimeClip_in by exact R'. apply forkDateTime_ok; assumption.
  - unfold setUTCSeconds. cbn [mbind option_bind]. rewrite Fd, Fh, Fm, Fl.
    assert (R' := R h mi v ms ltac:(unfold clock; lia)).
    rewrite TimeClip_in by exact R'. apply forkDateTime_ok; assumption.
  - unfold setUTCMilliseconds. cbn [mbind option_bind]. rewrite Fd, Fh, Fm, Fs.
    assert (R' := R h mi s v ltac:(unfold clock; lia)).
    rewrite TimeClip_in by exact R'. apply forkDateTime_ok; assumption.
Qed.

(** The four [set] calls that end [granularity] and [endGranularity]
    from ['day'] on. *)
Lemma set_whole_clock x D tod h mi s ms :
  wf x -> date x = MakeDate D tod -> 0 <= tod < msPerDay ->
  -100000000 <= D < 100000000 -> clock h mi s ms ->
  (date ← set x hour h;
   date ← set date minute mi;
   date ← set date second s;
   set date millisecond ms)
  = Ok (DateTime.mk (MakeDate D (MakeTime h mi s ms)) (timezone x) (duration x) []).
Proof.
  intros W E Bt HD K.
  pose proof (MakeTime_of_fields (date x)) as [K0 E0].
  assert (Dx : Day (date x) = D) by (rewrite E; apply Day_MakeDate, Bt).
  set (h0 := HourFromTime (date x)) in *. set (mi0 := MinFromTime (date x)) in *.
  set (s0 := SecFromTime (date x)) in *. set (ms0 := msFromTime (date x)) in *.
  assert (E' : date x = MakeDate D (MakeTime h0 mi0 s0 ms0)).
  { rewrite E0, <- Dx. symmetry. apply MakeDate_Day. }
  assert (Wf : forall h' mi' s' ms', clock h' mi' s' ms' ->
                 wf (DateTime.mk (MakeDate D (MakeTime h' mi' s' ms'))
                       (timezone x) (duration x) [])).
  { intros. destruct W as (? & ? & _). repeat split; try assumption.
    apply day_in_range; [exact HD|apply MakeTime_bound; assumption]. }
  unfold clock in K, K0.
  assert (K1 : clock h mi0 s0 ms0) by (unfold clock; lia).
  assert (K2 : clock h mi s0 ms0) by (unfold clock; lia).
  assert (K3 : clock h mi s ms0) by (unfold clock; lia).
  rewrite (set_clock x D h0 mi0 s0 ms0 hour h W E' K0 HD ltac:(cbv beta iota; lia)).
  rewrite bind_Ok.
  rewrite (set_clock _ D h mi0 s0 ms0 minute mi (Wf _ _ _ _ K1) eq_refl K1 HD
             ltac:(cbv beta iota; lia)).
  rewrite bind_Ok. cbn [timezone duration].
  rewrite (set_clock _ D h mi s0 ms0 second s (Wf _ _ _ _ K2) eq_refl K2 HD
             ltac:(cbv beta iota; lia)).
  rewrite bind_Ok. cbn [timezone duration].
  rewrite (set_clock _ D h mi s ms0 millisecond ms (Wf _ _ _ _ K3) eq_refl K3 HD
             ltac:(cbv beta iota; lia)).
  reflexivity.
Qed.

Lemma add_days x k :
  wf x -> Z.abs (date x + k * msPerDay) <= maxTime ->
  add x k (unit day)
  = Ok (DateTime.mk (date x + k * msPerDay) (timezone x) (duration x) []).
Proof. intros W R. apply (add_fixed_in_range x k (unit day) msPerDay W eq_refl R). Qed.

Lemma Day_bounds t : Z.abs t <= maxTime -> -100000000 <= Day t <= 100000000.
Proof. unfold Day, maxTime, msPerDay. intros R. Z.div_mod_to_equations. lia. Qed.

(** X8.  [granularity('week')] gives midnight at the start of the
    week the instant lies in, a day whose weekday is the week start and
    that is at most six days back; [endGranularity('week')] gives the
    last millisecond of that week, a week minus one millisecond
    later.  The instant is at least a week away from the ends of the
    range of [Date]. *)
Theorem week_brackets (d : DateTime.t) (wkst : option Weekday) :
  wf d -> Z.abs (valueOf d) + MILLISECONDS_IN_WEEK <= maxTime ->
  exists s e,
    granularity d week wkst = Ok s /\ endGranularity d week wkst = Ok e /\
    get_weekday s = Some (default SU wkst) /\
    get s hour = 0 /\ get s minute = 0 /\ get s second = 0 /\ get s millisecond = 0 /\
    valueOf d - MILLISECONDS_IN_WEEK < valueOf s <= valueOf d /\
    valueOf e = valueOf s + MILLISECONDS_IN_WEEK - 1 /\
    valueOf d <= valueOf e.
Proof.
  intros W R. unfold valueOf in *.
  set (k := weekday_number (default SU wkst)).
  set (i := (WeekDay (date d) - k) mod 7).
  pose proof (weekday_number_range (default SU wkst)) as Bk. fold k in Bk.
  assert (Bi : 0 <= i <= 6) by (unfold i; pose proof (Z.mod_pos_bound (WeekDay (date d) - k) 7); lia).
  pose proof (Day_bounds (date d) (proj2 (proj2 W))) as BD.
  pose proof (TimeWithinDay_bound (date d)) as Bt.
  pose proof (MakeDate_Day (date d)) as Md.
  unfold MILLISECONDS_IN_WEEK, MILLISECONDS_IN_DAY, MILLISECONDS_IN_HOUR,
    MILLISECONDS_IN_MINUTE, MILLISECONDS_IN_SECOND in R.
  assert (BD' : -100000000 + 7 <= Day (date d) <= 100000000 - 7).
  { unfold Day, maxTime, msPerDay in *. Z.div_mod_to_equations. lia. }
  set (x0 := DateTime.mk (date d) (timezone d) (duration d) []).
  assert (F0 : forkDateTime d (Some (date d)) = Ok x0)
    by (apply forkDateTime_ok; [exact W|apply W]).
  assert (W0 : wf x0) by (destruct W as (? & ? & ?); repeat split; assumption).
  assert (I0 : weekday_index wkst x0 = i) by apply weekday_index_spec.
  set (D0 := Day (date d) - i).
  exists (DateTime.mk (MakeDate D0 (MakeTime 0 0 0 0)) (timezone d) (duration d) []).
  exists (DateTime.mk (MakeDate (D0 + 6) (MakeTime 23 59 59 999))
            (timezone d) (duration d) []).
  split; [|split].
  - unfold granularity. rewrite F0, bind_Ok.
    unfold setDateToStartOfWeek. rewrite I0, subtract_add.
    assert (Rs : Z.abs (date x0 + - i * msPerDay) <= maxTime).
    { cbn [date x0]. unfold maxTime, msPerDay, MakeDate in *. lia. }
    rewrite (add_days x0 (- i) W0 Rs), bind_Ok. cbn [date timezone duration x0].
    apply (set_whole_clock
             (DateTime.mk (date d + - i * msPerDay) (timezone d) (duration d) [])
             D0 (TimeWithinDay (date d)) 0 0 0 0).
    + destruct W as (? & ? & _). repeat split; assumption.
    + cbn [date]. unfold D0, MakeDate in *. lia.
    + exact Bt.
    + unfold D0. lia.
    + unfold clock. lia.
  - unfold endGranularity. rewrite F0, bind_Ok.
    unfold setDateToEndOfWeek. rewrite I0.
    assert (Rs : Z.abs (date x0 + (6 - i) * msPerDay) <= maxTime).
    { cbn [date x0]. unfold maxTime, msPerDay, MakeDate in *. lia. }
    rewrite (add_days x0 (6 - i) W0 Rs), bind_Ok. cbn [date timezone duration x0].
    apply (set_whole_clock
             (DateTime.mk (date d + (6 - i) * msPerDay) (timezone d) (duration d) [])
             (D0 + 6) (TimeWithinDay (date d)) 23 59 59 999).
    + destruct W as (? & ? & _). repeat split; assumption.
    + cbn [date]. unfold D0, MakeDate in *. lia.
    + exact Bt.
    + unfold D0. lia.
    + unfold clock. lia.
  - assert (K0 : clock 0 0 0 0) by (unfold clock; lia).
    pose proof (MakeTime_fields D0 0 0 0 0 K0) as (Fd & Fh & Fm & Fs & Fl).
    cbv zeta in Fd, Fh, Fm, Fs, Fl.
    unfold get. cbn [date]. rewrite Fh, Fm, Fs, Fl.
    split.
    { unfold get_weekday. cbn [date]. unfold WeekDay at 1. rewrite Fd.
      replace ((D0 + 4) mod 7) with k; [apply at_index_weekday|].
      unfold D0, i, WeekDay. Z.div_mod_to_equations. lia. }
    repeat (split; [reflexivity|]).
    change (MakeTime 0 0 0 0) with 0. change (MakeTime 23 59 59 999) with 86399999.
    unfold MILLISECONDS_IN_WEEK, MILLISECONDS_IN_DAY, MILLISECONDS_IN_HOUR,
      MILLISECONDS_IN_MINUTE, MILLISECONDS_IN_SECOND.
    unfold D0, MakeDate, msPerDay in *. lia.
Qed.

Lemma week_brackets_witness :
  granularity noon_2019 week (Some MO)
    = Ok (DateTime.mk 1546214400000 (Some "UTC"%string) 3600000 []) /\
  get_weekday (DateTime.mk 1546214400000 (Some "UTC"%string) 3600000 []) = Some MO.
Proof.
  destruct (week_brackets noon_2019 (Some MO)) as (s & e & S & _ & Wd & _).
  - unfold wf, maxTime; cbn; split; [lia|split; [discriminate|lia]].
  - vm_compute. discriminate.
  - assert (S' : granularity noon_2019 week (Some MO)
                 = Ok (DateTime.mk 1546214400000 (Some "UTC"%string) 3600000 []))
      by (vm_compute; reflexivity).
    split; [exact S'|]. rewrite S' in S. injection S as <-. exact Wd.
Defined.

(** X9.  [getDifferenceBetweenWeekdays(x, y)] is the number of days,
    from 0 to 6, from a day that is an [x] forward to the next day that
    is a [y]: adding that many days to an instant on an [x] gives an
    instant on a [y], and adding fewer does not. *)
Theorem weekday_difference (d : DateTime.t) (x y : Weekday) :
  wf d -> get_weekday d = Some x ->
  let n := getDifferenceBetweenWeekdays x y in
  0 <= n <= 6 /\
  (forall d', add d n (unit day) = Ok d' -> get_weekday d' = Some y) /\
  (forall k d', 0 <= k < n -> add d k (unit day) = Ok d' -> get_weekday d' <> Some y).
Proof.
  intros W X n.
  assert (N : n = (weekday_number y - weekday_number x) mod 7)
    by (destruct x, y; reflexivity).
  pose proof (weekday_number_range x) as Bx. pose proof (weekday_number_range y) as By.
  destruct (get_weekday_spec d) as (w & Gw & Nw).
  assert (w = x) by congruence. subst w.
  assert (Bn : 0 <= n <= 6)
    by (rewrite N; pose proof (Z.mod_pos_bound (weekday_number y - weekday_number x) 7); lia).
  assert (A : forall k d', add d k (unit day) = Ok d' ->
                           WeekDay (date d') = (weekday_number x + k) mod 7).
  { intros k d' E. rewrite (add_fixed d k (unit day) msPerDay eq_refl) in E.
    unfold forkDateTime, new, default, id in E. cbn [from_option] in E.
    destruct (_ <? 0); [discriminate|].
    destruct (TimeClip _) as [v|] eqn:C; [|discriminate].
    apply TimeClip_Some in C as [-> _]. injection E as <-. cbn [date].
    rewrite WeekDay_shift, Nw. reflexivity. }
  split; [exact Bn|]. split.
  - intros d' E. unfold get_weekday. rewrite (A _ _ E).
    replace ((weekday_number x + n) mod 7) with (weekday_number y)
      by (rewrite N; Z.div_mod_to_equations; lia).
    apply at_index_weekday.
  - intros k d' Hk E G. destruct (get_weekday_spec d') as (w & Gw' & Nw').
    assert (w = y) by congruence. subst w.
    rewrite (A _ _ E) in Nw'. rewrite N in Hk.
    Z.div_mod_to_equations. lia.
Qed.

Lemma weekday_difference_witness :
  get_weekday noon_2019 = Some TU /\
  getDifferenceBetweenWeekdays TU MO = 6 /\
  get_weekday (DateTime.mk (1546344000000 + 6 * 86400000) (Some "UTC"%string) 3600000 [])
  = Some MO.
Proof.
  destruct (weekday_difference noon_2019 TU MO) as (_ & A & _).
  - unfold wf, maxTime; cbn; split; [lia|split; [discriminate|lia]].
  - reflexivity.
  - split; [reflexivity|]. split; [reflexivity|]. apply A. reflexivity.
Defined.

(** The instant [noon_2019] with a duration of two hours. *)
Definition noon_2019_long : DateTime.t :=
  DateTime.mk 1546344000000 (Some "UTC"%string) 7200000 [].

End WeekFacts.

Module OccurringFacts.
Import JsDate JsDateFacts DateTimeFacts.
Import DateTime CoreDateTime CoreDateTimeFacts DateTimeFieldFacts.

(** *** [isOccurring] *)

(** X10.  [isOccurring] raises an error on a [DateTime] without
    duration and an [InvalidDateTimeError] on an argument of another
    time zone.  Otherwise it tells whether the argument lies between
    the start and the end (start plus duration), both included; but when
    the end is outside the range of [Date], it raises an
    [InvalidDateTimeError] for every argument that is not before the
    start. *)
Theorem isOccurring_spec (this : DateTime.t) (object : option DateTime.t) :
  wf this ->
  (duration this = 0 -> isOccurring this object = Throw PlainError) /\
  (duration this <> 0 ->
   match object with
   | None => isOccurring this object = Throw TypeError
   | Some o =>
       (timezone this <> timezone o ->
        isOccurring this object = Throw InvalidDateTimeError) /\
       (timezone this = timezone o ->
        (valueOf o < valueOf this -> isOccurring this object = Ok false) /\
        (valueOf this <= valueOf o -> valueOf this + duration this <= maxTime ->
         isOccurring this object
         = Ok (valueOf o <=? valueOf this + duration this)) /\
        (valueOf this <= valueOf o -> maxTime < valueOf this + duration this ->
         isOccurring this object = Throw InvalidDateTimeError))
   end).
Proof.
  intros W. unfold isOccurring. split.
  - intros ->. reflexivity.
  - intros N. destruct (Z.eqb_spec (duration this) 0) as [E|_]; [contradiction|].
    destruct object as [o|]; [|reflexivity].
    unfold isAfterOrEqual, isBeforeOrEqual, assertSameTimeZone, valueOf.
    cbn [from_option]. split.
    + intros Z. rewrite decide_False by exact Z. reflexivity.
    + intros Z. rewrite decide_True by exact Z. rewrite !bind_Ok.
      rewrite decide_True by (symmetry; exact Z). rewrite !bind_Ok.
      pose proof W as (Hd & _ & R).
      split; [|split].
      * intros L. destruct (Z.geb_spec (date o) (date this)); [lia|reflexivity].
      * intros L B. destruct (Z.geb_spec (date o) (date this)); [|lia].
        rewrite (add_fixed_in_range this (duration this) (unit millisecond) 1 W eq_refl)
          by lia.
        rewrite bind_Ok. cbn [timezone date]. rewrite decide_True by (symmetry; exact Z).
        rewrite !bind_Ok. replace (duration this * 1) with (duration this) by lia. reflexivity.
      * intros L B. destruct (Z.geb_spec (date o) (date this)); [|lia].
        rewrite (add_fixed_out_of_range this (duration this) (unit millisecond) 1 W eq_refl)
          by lia.
        reflexivity.
Qed.

Lemma isOccurring_spec_witness :
  isOccurring noon_2019 (Some (DateTime.mk 1546347600000 (Some "UTC"%string) 0 []))
  = Ok true.
Proof.
  destruct (isOccurring_spec noon_2019
              (Some (DateTime.mk 1546347600000 (Some "UTC"%string) 0 []))) as [_ H].
  - unfold wf, maxTime; cbn; split; [lia|split; [discriminate|lia]].
  - destruct H as [_ H]; [discriminate|]. destruct H as (_ & H & _); [reflexivity|].
    rewrite H; [reflexivity|cbn; lia|unfold maxTime; cbn; lia].
Defined.

(** *** [dateTimeSortComparer] *)

Lemma comparer_value a b :
  timezone a = timezone b ->
  dateTimeSortComparer a b =
  Ok (if valueOf a >? valueOf b then 1
      else if valueOf a <? valueOf b then -1
      else if negb (duration a =? 0) && negb (duration b =? 0) then
             if duration a >? duration b then 1
             else if duration a <? duration b then -1 else 0
           else 0).
Proof.
  intros Z. unfold dateTimeSortComparer, isAfter, isBefore, assertSameTimeZone.
  cbn [from_option]. rewrite decide_True by exact Z. rewrite !bind_Ok.
  destruct (valueOf a >? valueOf b); [reflexivity|].
  destruct (valueOf a <? valueOf b); [reflexivity|].
  destruct (_ && _); [|reflexivity].
  destruct (_ >? _); [reflexivity|]. destruct (_ <? _); reflexivity.
Qed.

(** [a] sorts before [b]. *)
Definition sorts_before (a b : DateTime.t) : Prop :=
  valueOf a < valueOf b \/
  (valueOf a = valueOf b /\ duration a <> 0 /\ duration b <> 0 /\
   duration a < duration b).

Lemma comparer_cases a b :
  timezone a = timezone b ->
  (dateTimeSortComparer a b = Ok (-1) /\ sorts_before a b) \/
  (dateTimeSortComparer a b = Ok 1 /\ sorts_before b a) \/
  (dateTimeSortComparer a b = Ok 0 /\ valueOf a = valueOf b /\
   (duration a = 0 \/ duration b = 0 \/ duration a = duration b)).
Proof.
  intros Z. rewrite (comparer_value a b Z). unfold sorts_before.
  destruct (Z.gtb_spec (valueOf a) (valueOf b)); [right; left; split; [reflexivity|lia]|].
  destruct (Z.ltb_spec (valueOf a) (valueOf b)); [left; split; [reflexivity|lia]|].
  destruct (Z.eqb_spec (duration a) 0), (Z.eqb_spec (duration b) 0); cbn [negb andb];
    try (right; right; split; [reflexivity|lia]).
  destruct (Z.gtb_spec (duration a) (duration b)); [right; left; split; [reflexivity|lia]|].
  destruct (Z.ltb_spec (duration a) (duration b)); [left; split; [reflexivity|lia]|].
  right; right; split; [reflexivity|lia].
Qed.

(** X11.  On two instants of one time zone [dateTimeSortComparer]
    answers -1, 0 or 1, and swapping the arguments negates the answer.
    It answers -1 exactly when the first instant is earlier, or the two
    are at the same time, both have a duration and the first has the
    shorter one; that order is transitive and never holds both ways.
    On two time zones it raises [InvalidDateTimeError]. *)
Theorem comparer_order (a b c : DateTime.t) :
  (timezone a <> timezone b ->
   dateTimeSortComparer a b = Throw InvalidDateTimeError) /\
  (timezone a = timezone b ->
   exists r,
     dateTimeSortComparer a b = Ok r /\ dateTimeSortComparer b a = Ok (- r) /\
     (r = -1 \/ r = 0 \/ r = 1) /\
     (r = -1 <-> sorts_before a b) /\
     ~ (sorts_before a b /\ sorts_before b a)) /\
  (sorts_before a b -> sorts_before b c -> sorts_before a c).
Proof.
  split; [|split].
  - intros Z. unfold dateTimeSortComparer, isAfter, assertSameTimeZone.
    rewrite decide_False by exact Z. reflexivity.
  - intros Z.
    destruct (comparer_cases a b Z) as [[E S]|[[E S]|(E & V & D)]];
      destruct (comparer_cases b a (eq_sym Z)) as [[E' S']|[[E' S']|(E' & V' & D')]];
      unfold sorts_before in *;
      try (exfalso; lia);
      eexists; (split; [exact E|]); (split; [exact E'|]);
      (split; [lia|]); (split; [split; [intros ?; try discriminate; try assumption|intros ?; try reflexivity; exfalso; lia]|lia]).
  - unfold sorts_before. lia.
Qed.

Lemma comparer_order_witness :
  dateTimeSortComparer noon_2019 WeekFacts.noon_2019_long = Ok (-1) /\
  dateTimeSortComparer WeekFacts.noon_2019_long noon_2019 = Ok 1.
Proof.
  destruct (comparer_order noon_2019 WeekFacts.noon_2019_long noon_2019)
    as (_ & H & _).
  destruct H as (r & E & E' & _); [reflexivity|].
  assert (R : dateTimeSortComparer noon_2019 WeekFacts.noon_2019_long = Ok (-1))
    by reflexivity.
  split; [exact R|]. rewrite R in E. injection E as <-. exact E'.
Defined.

End OccurringFacts.

(** ** More of the [Dates] generator *)

Module DatesRunFacts.
Import DatesFacts.

Section Run.
Context `{DateAdapterCtor}.

Lemma run_dates_take this start end_ take reverse :
  Dates.run_dates this (IRunArgs.mk start end_ (Some take) reverse)
  = (dates ← Dates.run_dates this (IRunArgs.mk start end_ None reverse);
     Ok (if take =? 0 then dates else slice_to dates take)).
Proof.
  unfold Dates.run_dates.
  cbn [IRunArgs.start IRunArgs.end_ IRunArgs.reverse IRunArgs.take].
  destruct (sort _ _) as [sorted|]; [|reflexivity]. cbn [mbind result_bind].
  destruct (match start with Some _ => _ | None => _ end) as [l1|]; [|reflexivity].
  cbn [mbind result_bind].
  destruct (match end_ with Some _ => _ | None => _ end) as [l2|]; reflexivity.
Qed.

Lemma slice_to_map {A B} (f : A -> B) l n : slice_to (map f l) n = map f (slice_to l n).
Proof. unfold slice_to. rewrite length_map. destruct (n <? 0); apply firstn_map. Qed.

Lemma slice_to_length {A} (l : list A) n : (length (slice_to l n) <= length l)%nat.
Proof. unfold slice_to. destruct (n <? 0); rewrite length_firstn; lia. Qed.

Lemma run_list this args dates (k : nat) :
  Forall (stored this) dates -> (length dates <= k)%nat ->
  Dates.run_loop this args dates (plain k) (head dates) (tail dates) None
  = (map (stamp this) dates, Finished).
Proof.
  intros F L. destruct dates as [|date dateCache]; cbn [head tail].
  - apply run_loop_done.
  - apply run_loop_plain; [exact F|cbn in L; lia].
Qed.

(** X12.  [_run] with [take] yields the values of the run without
    [take], cut by [slice(0, take)]: the first [take] of them when
    [take] is positive, all but the last [-take] when it is negative;
    and [take: 0] does not limit the run at all. *)
Theorem dates_take (this : Dates.t) (start end_ : option DateTime.t) (take : Z)
    (reverse : bool) (k : nat) :
  wf this -> in_zone (Dates.timezone this) start -> in_zone (Dates.timezone this) end_ ->
  (length (Dates.datetimes this) <= k)%nat ->
  exists all,
    Dates._run this (IRunArgs.mk start end_ None reverse) (plain k) = (all, Finished) /\
    exists taken,
      Dates._run this (IRunArgs.mk start end_ (Some take) reverse) (plain k)
        = (taken, Finished) /\
      (take = 0 -> taken = all) /\
      (0 < take -> taken = firstn (Z.to_nat take) all) /\
      (take < 0 -> taken = firstn (length all - Z.to_nat (- take)) all).
Proof.
  intros W Zs Ze L.
  destruct (run_dates_window this start end_ reverse W Zs Ze) as (sorted & E & P & S & R).
  set (dates := let dates := List.filter (in_window start end_) sorted in
                if reverse then rev dates else dates) in R.
  assert (F : Forall (stored this) dates).
  { eapply (run_dates_sorted this (IRunArgs.mk start end_ None reverse)); [exact W|exact R]. }
  assert (Ld : (length dates <= k)%nat).
  { assert (length (List.filter (in_window start end_) sorted) <= k)%nat.
    { etransitivity; [apply filter_length_le|]. rewrite <- (Permutation_length P). exact L. }
    subst dates. cbv zeta. destruct reverse; [rewrite length_rev|]; assumption. }
  exists (map (stamp this) dates). split.
  { unfold Dates._run. rewrite R. apply run_list; assumption. }
  exists (map (stamp this) (if take =? 0 then dates else slice_to dates take)).
  split.
  { unfold Dates._run. rewrite run_dates_take, R. cbn [mbind result_bind].
    apply run_list.
    - destruct (take =? 0); [exact F|]. unfold slice_to.
      destruct (take <? 0); apply Forall_take, F.
    - destruct (take =? 0); [exact Ld|].
      etransitivity; [apply slice_to_length|exact Ld]. }
  split; [|split].
  - intros ->. reflexivity.
  - intros T. destruct (Z.eqb_spec take 0); [lia|].
    rewrite <- slice_to_map. unfold slice_to.
    destruct (Z.ltb_spec take 0); [lia|reflexivity].
  - intros T. destruct (Z.eqb_spec take 0); [lia|].
    rewrite <- slice_to_map. unfold slice_to.
    destruct (Z.ltb_spec take 0); [|lia]. f_equal. lia.
Qed.

(** X13.  An unbounded run of a [Dates] yields every date of the set,
    as often as it is listed, with the generator added in front of its
    generators, in ascending order (descending in reverse). *)
Theorem dates_yield_all (this : Dates.t) (reverse : bool) (k : nat) :
  wf this -> (length (Dates.datetimes this) <= k)%nat ->
  exists all,
    Dates._run this (IRunArgs.mk None None None reverse) (plain k) = (all, Finished) /\
    Permutation (map (stamp this) (Dates.datetimes this)) all /\
    StronglySorted (ahead reverse) all.
Proof.
  intros W L.
  destruct (run_dates_window this None None reverse W Logic.I Logic.I)
    as (sorted & E & P & S & R).
  destruct (run_plain this None None reverse k W Logic.I Logic.I L) as (sorted' & E' & Rp).
  assert (sorted' = sorted) by congruence. subst sorted'.
  assert (T : List.filter (in_window None None) sorted = sorted).
  { clear. induction sorted as [|x xs IH]; [reflexivity|]. cbn. congruence. }
  cbv zeta in Rp. rewrite T in Rp.
  eexists. split; [exact Rp|]. split.
  - apply Permutation_map. rewrite P. destruct reverse; [apply Permutation_rev|reflexivity].
  - assert (M : forall l, StronglySorted (ahead reverse) l ->
                          StronglySorted (ahead reverse) (map (stamp this) l)).
    { induction l as [|x l IH]; intros Sl; [constructor|].
      apply StronglySorted_inv in Sl as [Sl Fl]. cbn [map]. constructor; [apply IH, Sl|].
      rewrite Forall_map. eapply Forall_impl; [exact Fl|]. intros y A. exact A. }
    apply M.
    apply (run_dates_sorted this (IRunArgs.mk None None None reverse) _ W).
    rewrite R. cbv zeta. rewrite T. reflexivity.
Qed.

(** The test the [continue] branch makes on a date: [skipToDate] does
    not lie beyond it, in the direction of the traversal. *)
Definition reached (reverse : bool) (s d : DateTime.t) : bool :=
  if reverse then DateTime.valueOf d <=? DateTime.valueOf s
  else DateTime.valueOf s <=? DateTime.valueOf d.

Lemma skip_find reverse s dateCache :
  forall date,
    Forall (fun d => DateTime.timezone d = DateTime.timezone s) (date :: dateCache) ->
    exists r, Dates.skip reverse s date dateCache = Ok r /\
              fst <$> r = List.find (reached reverse s) (date :: dateCache).
Proof.
  induction dateCache as [|next rest IH]; intros date F;
    apply Forall_cons in F as [Zd F]; cbn [Dates.skip List.find].
  - unfold reached, DateTime.isBefore, DateTime.isAfter, DateTime.assertSameTimeZone.
    cbn [from_option]. rewrite decide_True by (symmetry; exact Zd).
    cbn [mbind result_bind].
    destruct reverse.
    + destruct (Z.ltb_spec (DateTime.valueOf s) (DateTime.valueOf date)),
               (Z.leb_spec (DateTime.valueOf date) (DateTime.valueOf s)); try lia;
        eexists; (split; [reflexivity|reflexivity]).
    + destruct (Z.gtb_spec (DateTime.valueOf s) (DateTime.valueOf date)),
               (Z.leb_spec (DateTime.valueOf s) (DateTime.valueOf date)); try lia;
        eexists; (split; [reflexivity|reflexivity]).
  - assert (C : (if reverse then DateTime.isBefore s (Some date)
                 else DateTime.isAfter s (Some date))
                = Ok (negb (reached reverse s date))).
    { unfold reached, DateTime.isBefore, DateTime.isAfter, DateTime.assertSameTimeZone.
      cbn [from_option]. rewrite decide_True by (symmetry; exact Zd).
      cbn [mbind result_bind]. destruct reverse; f_equal.
      - destruct (Z.ltb_spec (DateTime.valueOf s) (DateTime.valueOf date)),
                 (Z.leb_spec (DateTime.valueOf date) (DateTime.valueOf s)); try lia;
          reflexivity.
      - destruct (Z.gtb_spec (DateTime.valueOf s) (DateTime.valueOf date)),
                 (Z.leb_spec (DateTime.valueOf s) (DateTime.valueOf date)); try lia;
          reflexivity. }
    rewrite C. destruct (reached reverse s date); cbn [negb].
    + eexists. split; reflexivity.
    + apply IH, F.
Qed.

Lemma run_loop_resume this args dates r :
  forall rs date dateCache yieldArgs ys,
    reply_skipToDate r <> None ->
    Dates.run_loop this args dates rs date dateCache yieldArgs = (ys, Suspended) ->
    Dates.run_loop this args dates (rs ++ [r]) date dateCache yieldArgs
    = (let rest := Dates.run_loop this args dates [] (head dates) (tail dates) r in
       (ys ++ fst rest, snd rest)).
Proof.
  intros rs Sk. revert Sk.
  induction rs as [|r0 rs IH]; intros date dateCache yieldArgs ys Sk;
    cbn [Dates.run_loop app].
  - destruct date as [date|]; [|discriminate].
    destruct (match reply_skipToDate yieldArgs with Some _ => _ | None => _ end)
      as [[[d' cache']|]|]; try discriminate.
    destruct (_ ≫= _) as [out|]; try discriminate.
    intros [= <-]. destruct (reply_skipToDate r); [|contradiction]. reflexivity.
  - destruct date as [date|]; [|discriminate].
    destruct (match reply_skipToDate yieldArgs with Some _ => _ | None => _ end)
      as [[[d' cache']|]|]; try discriminate.
    destruct (_ ≫= _) as [out|]; try discriminate.
    unfold yielded at 1. cbn [fst snd].
    destruct (Dates.run_loop this args dates rs _ _ r0) as [ys0 st] eqn:E.
    cbn [fst snd]. intros [= <- ->].
    rewrite (IH _ _ _ _ Sk E). reflexivity.
Qed.

(** X14.  When the consumer answers a value with [skipToDate], the
    search starts again from the first date of the run, whatever was
    yielded before: the next value is the first date of the whole run
    that [skipToDate] does not lie beyond (also one yielded already),
    and the run ends if there is none. *)
Theorem skip_restarts (this : Dates.t) (args : IRunArgs.t) (rs : list Reply)
    (s : DateTime.t) (ys : list DateTime.t) :
  wf this -> DateTime.timezone s = Dates.timezone this ->
  Dates._run this args rs = (ys, Suspended) ->
  exists dates,
    Dates.run_dates this args = Ok dates /\
    Dates._run this args (rs ++ [Some (mkYieldArgs (Some s))])
    = match List.find (reached (IRunArgs.reverse args) s) dates with
      | Some d => (ys ++ [stamp this d], Suspended)
      | None => (ys, Finished)
      end.
Proof.
  intros W Zs. unfold Dates._run.
  destruct (Dates.run_dates this args) as [dates|] eqn:R; [|discriminate].
  intros E. exists dates. split; [reflexivity|].
  etransitivity;
    [exact (run_loop_resume _ _ _ (Some (mkYieldArgs (Some s))) _ _ _ _ _
              ltac:(discriminate) E)|].
  cbv zeta.
  destruct (run_dates_sorted _ _ _ W R) as [_ F].
  destruct dates as [|date dateCache]; cbn [head tail].
  { cbn. rewrite app_nil_r. reflexivity. }
  cbn [Dates.run_loop reply_skipToDate skipToDate].
  destruct (skip_find (IRunArgs.reverse args) s dateCache date) as (r & -> & Fr).
  { eapply Forall_impl; [exact F|]. intros d [Zd _]. congruence. }
  destruct r as [[d' cache']|]; cbn [fmap option_fmap option_map fst] in Fr; rewrite <- Fr.
  - assert (Fd : stored this d').
    { rewrite Forall_forall in F. apply F. symmetry in Fr.
      apply find_some in Fr as [I _]. apply list_elem_of_In, I. }
    rewrite (yield_stored _ _ Fd). reflexivity.
  - cbn. rewrite app_nil_r. reflexivity.
Qed.

End Run.

Lemma dates_take_witness :
  Dates._run (H := relabel) three_dates (IRunArgs.mk None None (Some 2) false) (plain 3)
  = ([stamp three_dates (at_ms 10); stamp three_dates (at_ms 20)], Finished).
Proof.
  destruct (dates_take (H := relabel) three_dates None None 2 false 3)
    as (all & A & taken & T & _ & P & _).
  - repeat constructor; cbn; try lia; discriminate.
  - exact I.
  - exact I.
  - cbn. lia.
  - rewrite T, (P ltac:(lia)). vm_compute in A. injection A as <-. reflexivity.
Defined.

Lemma dates_yield_all_witness :
  Dates._run (H := relabel) three_dates (IRunArgs.mk None None None true) (plain 3)
  = ([stamp three_dates (at_ms 30); stamp three_dates (at_ms 20);
      stamp three_dates (at_ms 10)], Finished).
Proof.
  destruct (dates_yield_all (H := relabel) three_dates true 3) as (all & A & _).
  - repeat constructor; cbn; try lia; discriminate.
  - cbn. lia.
  - rewrite A. vm_compute in A. injection A as <-. reflexivity.
Defined.

Lemma skip_restarts_witness :
  Dates._run (H := relabel) three_dates IRunArgs.none
    ([None; None] ++ [Some (mkYieldArgs (Some (at_ms 15)))])
  = ([stamp three_dates (at_ms 10); stamp three_dates (at_ms 20);
      stamp three_dates (at_ms 30); stamp three_dates (at_ms 20)], Suspended).
Proof.
  destruct (skip_restarts (H := relabel) three_dates IRunArgs.none [None; None] (at_ms 15)
              [stamp three_dates (at_ms 10); stamp three_dates (at_ms 20);
               stamp three_dates (at_ms 30)]) as (dates & R & E).
  - repeat constructor; cbn; try lia; discriminate.
  - reflexivity.
  - reflexivity.
  - etransitivity; [exact E|]. vm_compute in R. injection R as <-. reflexivity.
Defined.

End DatesRunFacts.

(** ** [ScheduleBase#_run] *)

Module ScheduleBaseFacts.

Section Run.
Context `{DateAdapterCtor} `{IterableIterator}.

Lemma run_loop_take this (n : Z) replies :
  forall iterator date index, 0 <= index ->
    let limited := ScheduleBase.run_loop this (Some n) replies iterator date index in
    let all := ScheduleBase.run_loop this None replies iterator date index in
    fst limited = firstn (Z.to_nat (n - index)) (fst all) /\
    (Z.of_nat (length (fst all)) < n - index -> limited = all) /\
    (n - index < Z.of_nat (length (fst all)) -> snd limited = Finished).
Proof.
  induction replies as [|r replies IH]; intros iterator date index I;
    cbn [ScheduleBase.run_loop]; destruct date as [date|];
    try (cbn; rewrite firstn_nil; repeat split; intros; lia).
  - destruct (Z.gtb_spec n index) as [G|G].
    + destruct (_ ≫= _) as [out|e]; cbn [fst snd length].
      * replace (Z.to_nat (n - index)) with (S (Z.to_nat (n - index - 1))) by lia.
        cbn [firstn]. rewrite firstn_nil. repeat split; intros; cbn in *; lia.
      * rewrite firstn_nil. repeat split; intros; cbn in *; lia.
    + replace (Z.to_nat (n - index)) with 0%nat by lia. cbn [firstn fst snd].
      repeat split. intros L. lia.
  - destruct (Z.gtb_spec n index) as [G|G].
    + destruct (_ ≫= _) as [out|e]; cbn [fst snd length].
      * destruct (next iterator r) as [[date' iterator']|e]; cbn [fst snd length].
        -- specialize (IH iterator' date' (index + 1) ltac:(lia)). cbv zeta in IH.
           destruct IH as (Y & Same & Fin). unfold yielded. cbn [fst snd length].
           replace (Z.to_nat (n - index)) with (S (Z.to_nat (n - (index + 1)))) by lia.
           cbn [firstn]. split; [rewrite Y; reflexivity|]. split.
           ++ intros L. rewrite Same by lia. reflexivity.
           ++ intros L. apply Fin. lia.
        -- replace (Z.to_nat (n - index)) with (S (Z.to_nat (n - index - 1))) by lia.
           cbn [firstn]. rewrite firstn_nil. repeat split; intros; cbn in *; lia.
      * rewrite firstn_nil. repeat split; intros; cbn in *; lia.
    + replace (Z.to_nat (n - index)) with 0%nat by lia. cbn [firstn fst snd].
      repeat split. intros L. lia.
Qed.

(** X15.  A schedule run with [take: n] yields the first [n] values of
    the run without [take], and nothing when [n] is zero or negative;
    it is the same run when that one yields fewer than [n] values, and
    it returns after the [n]-th value when that one yields more (and
    [n] is not negative). *)
Theorem schedule_take (this : ScheduleBase.t) (start end_ : option DateTime.t)
    (n : Z) (reverse : bool) (replies : list Reply) :
  let limited := ScheduleBase._run this (IRunArgs.mk start end_ (Some n) reverse) replies in
  let all := ScheduleBase._run this (IRunArgs.mk start end_ None reverse) replies in
  fst limited = firstn (Z.to_nat n) (fst all) /\
  (n <= 0 -> fst limited = []) /\
  (Z.of_nat (length (fst all)) < n -> limited = all) /\
  (0 <= n < Z.of_nat (length (fst all)) -> snd limited = Finished).
Proof.
  cbv zeta. unfold ScheduleBase._run.
  cbn [IRunArgs.take IRunArgs.start IRunArgs.end_ IRunArgs.reverse].
  destruct (next _ None) as [[date iterator]|e].
  - destruct (run_loop_take this n replies iterator date 0 ltac:(lia)) as (Y & Same & Fin).
    rewrite Z.sub_0_r in *. split; [exact Y|]. split; [|split; [exact Same|]].
    + intros N. rewrite Y. replace (Z.to_nat n) with 0%nat by lia. reflexivity.
    + intros N. apply Fin. lia.
  - cbn. rewrite firstn_nil. repeat split; intros; lia.
Qed.

End Run.
End ScheduleBaseFacts.

(** ** [Dates] objects: constructor, [add], [remove], [filter] *)

Module DatesObjectFacts.
Import Store DatesObject.

Section Objects.
Context `{Environment}.

Lemma mapR_length {A B} (f : A -> result B) l r :
  mapR f l = Ok r -> length r = length l.
Proof.
  revert r. induction l as [|x xs IH]; intros r; cbn [mapR].
  - intros [= <-]. reflexivity.
  - destruct (f x) as [y|]; [|discriminate]. cbn [mbind result_bind].
    destruct (mapR f xs) as [ys|]; [|discriminate]. cbn [mbind result_bind].
    intros [= <-]. cbn [length]. f_equal. apply IH. reflexivity.
Qed.

(** [reduce((prev, curr) => curr.duration > prev ? curr.duration : prev, init)]
    is the largest of [init] and the durations. *)
Lemma reduce_max (adapters : list Adapter) : forall init,
  let m := fold_left (fun prev curr =>
                        if adapter_duration curr >? prev
                        then adapter_duration curr else prev) adapters init in
  init <= m /\ Forall (fun a => adapter_duration a <= m) adapters /\
  (m = init \/ Exists (fun a => adapter_duration a = m) adapters).
Proof.
  induction adapters as [|a adapters IH]; intros init; cbn [fold_left].
  - split; [lia|]. split; [constructor|left; reflexivity].
  - cbv zeta. set (init' := if adapter_duration a >? init then adapter_duration a else init).
    destruct (IH init') as (L & F & E). cbv zeta in L, F, E.
    assert (init <= init' /\ adapter_duration a <= init' /\
            (init' = init \/ init' = adapter_duration a)) as (I1 & I2 & I3).
    { subst init'. destruct (Z.gtb_spec (adapter_duration a) init); lia. }
    split; [lia|]. split.
    + constructor; [lia|exact F].
    + destruct E as [E|E].
      * destruct I3 as [I3|I3]; [left; lia|]. right. constructor. lia.
      * right. apply Exists_cons_tl, E.
Qed.

(** What [new Dates(...)] stores. *)
Lemma new_Dates_stores dates timezone data duration (h : gmap loc Object) l h' :
  new_Dates dates timezone data duration h = Ok (l, h') ->
  exists o,
    l = fresh (dom h) /\ h' = <[l := ADates o]> h /\
    dates_timezone o = timezone /\ dates_data o = data /\
    length (dates_adapters o) = length (default [] dates) /\
    mapR adapter_toDateTime (dates_adapters o) = Ok (dates_datetimes o) /\
    dates_hasDuration o
    = forallb (fun date => negb (DateTime.duration date =? 0)) (dates_datetimes o) /\
    dates_maxDuration o
    = (if dates_hasDuration o
       then fold_left (fun prev curr =>
                         if adapter_duration curr >? prev
                         then adapter_duration curr else prev) (dates_adapters o) 0
       else 0).
Proof.
  unfold new_Dates, bind, lift, alloc.
  destruct (match dates with Some _ => _ | None => _ end) as [adapters|] eqn:A;
    [|discriminate].
  destruct (mapR adapter_toDateTime adapters) as [datetimes|] eqn:D; [|discriminate].
  intros [= <- <-]. eexists. split; [reflexivity|]. split; [reflexivity|].
  cbn [dates_timezone dates_data dates_adapters dates_datetimes dates_hasDuration
       dates_maxDuration].
  repeat split; try assumption.
  destruct dates as [dates|]; cbn [default from_option].
  - apply mapR_length in A. exact A.
  - injection A as <-. reflexivity.
Qed.

(** X16.  The duration fields the [Dates] constructor computes:
    [hasDuration] holds exactly when every date has a duration that is
    not zero (so it holds for no dates at all); [maxDuration] is then
    the largest duration of the adapters, and never below zero, and it
    is zero when [hasDuration] does not hold. *)
Theorem dates_durations (dates : option (list DateInput)) (timezone : option string)
    (data : option Data) (duration : option Z) (h h' : gmap loc Object) (l : loc) :
  new_Dates dates timezone data duration h = Ok (l, h') ->
  exists o,
    h' !! l = Some (ADates o) /\
    length (dates_datetimes o) = length (dates_adapters o) /\
    (dates_hasDuration o = true <->
     Forall (fun date => DateTime.duration date <> 0) (dates_datetimes o)) /\
    (dates_hasDuration o = false -> dates_maxDuration o = 0) /\
    (dates_hasDuration o = true ->
     0 <= dates_maxDuration o /\
     Forall (fun a => adapter_duration a <= dates_maxDuration o) (dates_adapters o) /\
     (dates_maxDuration o = 0 \/
      Exists (fun a => adapter_duration a = dates_maxDuration o) (dates_adapters o))) /\
    (dates = None \/ dates = Some [] ->
     dates_hasDuration o = true /\ dates_maxDuration o = 0).
Proof.
  intros E. destruct (new_Dates_stores _ _ _ _ _ _ _ E)
    as (o & -> & -> & _ & _ & La & D & Hd & Md).
  exists o. split; [apply lookup_insert_eq|].
  split; [apply (mapR_length _ _ _ D)|]. split; [|split; [|split]].
  - rewrite Hd, forallb_forall, Forall_forall. split; intros K d I.
    + apply list_elem_of_In, K in I. apply negb_true_iff, Z.eqb_neq in I. exact I.
    + apply negb_true_iff, Z.eqb_neq, K, list_elem_of_In, I.
  - intros F. rewrite Md, F. reflexivity.
  - intros T. rewrite Md, T. apply reduce_max.
  - intros N. assert (Z : dates_adapters o = []).
    { apply length_zero_iff_nil. rewrite La. destruct N as [-> | ->]; reflexivity. }
    rewrite Z in D. injection D as D. rewrite Md, Hd, <- D, Z. split; reflexivity.
Qed.

Lemma fresh_not_in (h : gmap loc Object) this o :
  h !! this = Some o -> fresh (dom h) <> this.
Proof.
  intros L E. apply (is_fresh (dom h)). rewrite E. apply elem_of_dom. eauto.
Qed.

Lemma read_dates_at (h : gmap loc Object) this self :
  h !! this = Some (ADates self) -> read_dates this h = Ok (self, h).
Proof. intros L. unfold read_dates, heap. rewrite L. reflexivity. Qed.

(** The adapter the constructor makes of a date when it is given no
    [duration]. *)
Definition adapted (timezone : option string) (date : DateInput) : result Adapter :=
  adapter ← normalizeDateInputToAdapter date;
  adapter_set_timezone adapter timezone.

(** A [Dates] made from the receiver [self] out of the given dates: a
    new object with the time zone and data of the receiver, whose
    adapters are made of the dates one by one; the store is otherwise
    as it was, the receiver included. *)
Definition made (h : gmap loc Object) (this : loc) (self : DatesObject)
    (r : loc) (h' : gmap loc Object) (dates : list DateInput) : Prop :=
  r <> this /\ h !! r = None /\ h' !! this = Some (ADates self) /\
  exists o, h' = <[r := ADates o]> h /\
            dates_timezone o = dates_timezone self /\
            dates_data o = dates_data self /\
            mapR (adapted (dates_timezone self)) dates = Ok (dates_adapters o) /\
            mapR adapter_toDateTime (dates_adapters o) = Ok (dates_datetimes o) /\
            length (dates_adapters o) = length dates /\
            length (dates_datetimes o) = length dates.

Lemma mapR_ext {A B} (f g : A -> result B) l :
  (forall x, f x = g x) -> mapR f l = mapR g l.
Proof.
  intros E. induction l as [|x xs IH]; [reflexivity|].
  cbn [mapR]. rewrite E, IH. reflexivity.
Qed.

Lemma new_Dates_made (h : gmap loc Object) this self inputs r h' :
  h !! this = Some (ADates self) ->
  new_Dates (Some inputs) (dates_timezone self) (dates_data self) None h = Ok (r, h') ->
  made h this self r h' inputs.
Proof.
  intros L. unfold new_Dates, bind, lift, alloc.
  rewrite (mapR_ext _ (adapted (dates_timezone self)))
    by (intros date; unfold adapted; destruct (normalizeDateInputToAdapter date);
        reflexivity).
  destruct (mapR (adapted (dates_timezone self)) inputs) as [adapters|] eqn:A;
    [|discriminate].
  destruct (mapR adapter_toDateTime adapters) as [datetimes|] eqn:D; [|discriminate].
  intros [= <- <-].
  pose proof (fresh_not_in h this _ L) as N.
  split; [exact N|]. split; [apply not_elem_of_dom, is_fresh|].
  split; [unfold heap; rewrite lookup_insert_ne by exact N; exact L|].
  eexists. split; [reflexivity|].
  cbn [dates_timezone dates_data dates_adapters dates_datetimes].
  repeat split; try assumption.
  - apply (mapR_length _ _ _ A).
  - rewrite (mapR_length _ _ _ D). apply (mapR_length _ _ _ A).
Qed.

(** What [findIndex] and [splice(index, 1)] leave: the array itself when
    no element passes the test, and otherwise the array without the
    first element that passes it. *)
Definition without_first {A : Type} (p : A -> Prop) (l kept : list A) : Prop :=
  (Forall (fun x => ~ p x) l /\ kept = l) \/
  (exists before x after,
     l = before ++ x :: after /\ p x /\ Forall (fun x => ~ p x) before /\
     kept = before ++ after).

Lemma remove_first_spec {A} (q : A -> bool) (l : list A) :
  without_first (fun x => q x = true) l (remove_first q l).
Proof.
  induction l as [|x xs IH]; cbn [remove_first].
  - left. split; [constructor|reflexivity].
  - destruct (q x) eqn:Q.
    + right. exists [], x, xs. repeat split; [exact Q|constructor].
    + destruct IH as [[F ->]|(before & y & after & -> & Py & F & ->)].
      * left. split; [|reflexivity]. constructor; [congruence|exact F].
      * right. exists (x :: before), y, after. repeat split; [exact Py|].
        constructor; [congruence|exact F].
Qed.

(** [array.filter(fn)] keeps, in order, the elements that [fn] accepts
    at their index. *)
Definition accepted_by {A : Type} (fn : A -> nat -> list A -> bool) (array : list A)
    : list A :=
  (List.filter (fun entry => fn (snd entry) (fst entry) array) (imap pair array)).*2.

Lemma filter_from_spec {A} (fn : A -> nat -> list A -> bool) array rest :
  forall index,
    filter_from fn array index rest
    = (List.filter (fun entry => fn (snd entry) (fst entry) array)
         (imap (fun i x => ((index + i)%nat, x)) rest)).*2.
Proof.
  induction rest as [|x rest IH]; intros index; [reflexivity|].
  cbn [filter_from imap List.filter fst snd]. rewrite Nat.add_0_r.
  rewrite (IH (S index)).
  assert (E : imap (fun i x0 => ((S index + i)%nat, x0)) rest
              = imap ((fun i x0 => ((index + i)%nat, x0)) ∘ S) rest).
  { apply imap_ext. intros i y _. cbn. f_equal. lia. }
  rewrite E. destruct (fn x index array); reflexivity.
Qed.

(** X17.  [add], [remove] and [filter] leave the receiver and every
    other object as they are and return a new [Dates] with the time
    zone and data of the receiver, made of: the dates of the receiver
    followed by the argument, for [add]; the dates of the receiver
    without the first one that has the value of the argument (all of
    them when none has), for [remove]; the dates of the receiver that
    the callback accepts, in order, for [filter]. *)
Theorem dates_add_remove_filter (h : gmap loc Object) (this : loc) (self : DatesObject) :
  h !! this = Some (ADates self) ->
  let adapters := dates_adapters self in
  (forall value r h',
     Dates_add this value h = Ok (r, h') ->
     made h this self r h' (map input_of_adapter adapters ++ [value])) /\
  (forall value r h',
     Dates_remove this value h = Ok (r, h') ->
     exists input kept,
       normalizeDateInputToAdapter value = Ok input /\
       without_first (fun date => adapter_valueOf date = adapter_valueOf input)
         adapters kept /\
       made h this self r h' (map input_of_adapter kept)) /\
  (forall fn r h',
     Dates_filter this fn h = Ok (r, h') ->
     made h this self r h' (map input_of_adapter (accepted_by fn adapters)) /\
     (length (accepted_by fn adapters) <= length adapters)%nat).
Proof.
  intros L adapters. split; [|split].
  - intros value r h'. unfold Dates_add, bind. rewrite (read_dates_at _ _ _ L).
    apply (new_Dates_made _ _ _ _ _ _ L).
  - intros value r h'. unfold Dates_remove, bind, lift. rewrite (read_dates_at _ _ _ L).
    destruct (normalizeDateInputToAdapter value) as [input|]; [|discriminate].
    intros E. exists input. eexists. split; [reflexivity|].
    split; [|apply (new_Dates_made _ _ _ _ _ _ L), E].
    destruct (remove_first_spec
                (fun date => adapter_valueOf date =? adapter_valueOf input) adapters)
      as [[F K]|(before & x & after & El & Px & F & K)].
    + left. split; [|exact K]. eapply Forall_impl; [exact F|].
      intros d Hd Hv. apply Hd, Z.eqb_eq, Hv.
    + right. exists before, x, after. split; [exact El|]. split; [apply Z.eqb_eq, Px|].
      split; [|exact K]. eapply Forall_impl; [exact F|].
      intros d Hd Hv. apply Hd, Z.eqb_eq, Hv.
  - intros fn r h'. unfold Dates_filter, bind. rewrite (read_dates_at _ _ _ L).
    fold adapters. rewrite (filter_from_spec fn adapters adapters 0).
    intros E. split; [apply (new_Dates_made _ _ _ _ _ _ L), E|].
    unfold accepted_by. rewrite length_fmap.
    etransitivity; [apply filter_length_le|]. rewrite length_imap. reflexivity.
Qed.

End Objects.

#[local] Existing Instance StoreFacts.plain_environment.

(** A date without duration and one that lasts an hour. *)
Definition instant : DateTime.t := DateTime.mk 43200000 StoreFacts.utc_zone 0 [].
Definition meeting : DateTime.t := DateTime.mk 86400000 StoreFacts.utc_zone 3600000 [].

(** The store after [new Dates({ dates: [instant, meeting], timezone: 'UTC' })]
    in an empty store. *)
Definition store_of_two : gmap loc Object :=
  match new_Dates (Some [instant; meeting]) StoreFacts.utc_zone None None ∅ with
  | Ok (_, h) => h
  | Throw _ => ∅
  end.

Lemma dates_durations_witness :
  exists o, store_of_two !! 0%nat = Some (ADates o) /\
            length (dates_datetimes o) = length (dates_adapters o) /\
            (dates_hasDuration o = false -> dates_maxDuration o = 0).
Proof.
  assert (E : new_Dates (Some [instant; meeting]) StoreFacts.utc_zone None None ∅
              = Ok (0%nat, store_of_two)) by reflexivity.
  destruct (dates_durations _ _ _ _ _ _ _ E) as (o & L & N & _ & F & _).
  exists o. split; [exact L|]. split; [exact N|exact F].
Defined.

Definition the_dates : DatesObject :=
  mkDates StoreFacts.utc_zone [StoreFacts.noon] [StoreFacts.noon] None false 0.

Lemma dates_add_remove_filter_witness :
  made StoreFacts.store 1%nat the_dates 4%nat StoreFacts.store_after_add
    [StoreFacts.noon; StoreFacts.noon].
Proof.
  assert (L : StoreFacts.store !! 1%nat = Some (ADates the_dates)) by reflexivity.
  assert (E : Dates_add 1%nat StoreFacts.noon StoreFacts.store
              = Ok (4%nat, StoreFacts.store_after_add)) by reflexivity.
  destruct (dates_add_remove_filter StoreFacts.store 1%nat the_dates L) as (A & _).
  exact (A StoreFacts.noon 4%nat StoreFacts.store_after_add E).
Defined.

End DatesObjectFacts.
